(** * Household budget application

    A shallow embedding of the data layer ([services.py]) and of the
    closed-month confirmation gate of the Streamlit front end ([app.py]).

    Conventions of the embedding

    - A table is the list of its rows in insertion (rowid) order.
    - Identifiers are the strings produced by [uuid.uuid4]; they are opaque
      and modelled as numbers handed out by the environment.  A freshly
      drawn identifier never collides with a stored primary key, so the only
      conflicts an [INSERT] can meet are the ones on the composite keys.
      The test the transactions table makes on an amount is kept apart
      ([amount_check]).
    - Timestamps come from the environment as well.
    - An amount is stored as a REAL; the store holds the exact value of the
      stored double, a rational.  What Python computes with amounts is
      computed on IEEE doubles ([Double]); what SQLite computes with them
      with [SUM] and [ROUND] is kept as the expression it evaluates
      ([Real]), since the sources do not fix the result of these two on
      doubles.
    - A Python [str] is a [string]; its characters are the code points
      below 256. *)

From Stdlib Require Import ZArith QArith String Ascii List Bool Lia Permutation Sorted.
From Stdlib Require Import SpecFloat.
From stdpp Require Import gmap strings.
Import ListNotations.
Local Open Scope string_scope.
Local Open Scope list_scope.

(** ** Exceptions and results *)

Inductive Exn : Type :=
| ValueError (msg : string)
| NameError (name : string)
| OperationalError (msg : string)
| IntegrityError (msg : string)
| ZeroDivisionError.

Inductive Result (A : Type) : Type :=
| Ok (a : A)
| Raise (e : Exn).
Arguments Ok {A} a.
Arguments Raise {A} e.

(** The store a caller observes once a call has returned or raised: a call
    that raises leaves the store as it was. *)
Definition after {S : Type} (r : Result S) (s : S) : S :=
  match r with
  | Ok s' => s'
  | Raise _ => s
  end.

(** ** Strings *)

Module PyStr.

(** [str.isspace] on one character. *)
Definition is_space (c : ascii) : bool :=
  let n := nat_of_ascii c in
  ((9 <=? n)%nat && (n <=? 13)%nat) || ((28 <=? n)%nat && (n <=? 32)%nat)
  || (n =? 133)%nat || (n =? 160)%nat.

Fixpoint lstrip (s : string) : string :=
  match s with
  | String c s' => if is_space c then lstrip s' else s
  | EmptyString => EmptyString
  end.

Fixpoint rstrip (s : string) : string :=
  match s with
  | String c s' =>
      match rstrip s' with
      | EmptyString => if is_space c then EmptyString else String c EmptyString
      | r => String c r
      end
  | EmptyString => EmptyString
  end.

(** [s.strip()] *)
Definition strip (s : string) : string := rstrip (lstrip s).

(** [s[:n]], and SQL [substr(s, 1, n)]. *)
Definition prefix (n : nat) (s : string) : string := substring 0 n s.

(** [sep.join(l)] *)
Fixpoint join (sep : string) (l : list string) : string :=
  match l with
  | [] => ""
  | [x] => x
  | x :: l' => x ++ sep ++ join sep l'
  end.

Definition is_digit (c : ascii) : bool :=
  let n := nat_of_ascii c in (48 <=? n)%nat && (n <=? 57)%nat.

Definition digit (n : nat) : ascii := ascii_of_nat (48 + n mod 10)%nat.

End PyStr.

(** The test every month-taking mutation runs after stripping:
    [len(month) != 7 or month[4] != "-"]. *)
Definition month_check_fails (month : string) : bool :=
  negb (String.length month =? 7)%nat
  || negb (match String.get 4 month with
           | Some c => Ascii.eqb c "-"
           | None => false
           end).

(** The shape the specification calls YYYY-MM: four digits, a dash, two
    digits. *)
Definition is_yyyy_mm (m : string) : bool :=
  match m with
  | String y1 (String y2 (String y3 (String y4 (String d (String m1 (String m2 EmptyString)))))) =>
      PyStr.is_digit y1 && PyStr.is_digit y2 && PyStr.is_digit y3 && PyStr.is_digit y4
      && Ascii.eqb d "-" && PyStr.is_digit m1 && PyStr.is_digit m2
  | _ => false
  end.

(** ** Numbers *)

Definition pow10 (d : nat) : Z := (10 ^ Z.of_nat d)%Z.

Definition Qsum (l : list Q) : Q := fold_right Qplus 0%Q l.

(** *** IEEE doubles

    Python's [float] is the binary64 format of IEEE 754 with rounding to
    nearest, ties to even: the format [SpecFloat] describes for a mantissa
    of 53 bits and infinities at exponent 1024. *)

Definition double : Type := spec_float.

Module Double.

Definition prec : Z := 53.
Definition emax : Z := 1024.

Definition zero : double := S754_zero false.

(** The double nearest to a rational: what is stored for a decimal, and
    what [float(x)] gives back (the value itself when it is a double). *)
Definition of_Q (x : Q) : double :=
  match Qnum x with
  | Z0 => zero
  | Zpos n => SFdiv prec emax (S754_finite false n 0) (S754_finite false (Qden x) 0)
  | Zneg n => SFdiv prec emax (S754_finite true n 0) (S754_finite false (Qden x) 0)
  end.

(** [x * y], [x - y] on floats. *)
Definition mul : double -> double -> double := SFmul prec emax.
Definition sub : double -> double -> double := SFsub prec emax.

(** [x / y] for a divisor other than zero. *)
Definition div : double -> double -> double := SFdiv prec emax.

(** [x < y], [x == y] on floats. *)
Definition ltb : double -> double -> bool := SFltb.
Definition eqb : double -> double -> bool := SFeqb.

(** The integer nearest to [n / den], ties to even. *)
Definition half_even (n den : Z) : Z :=
  let q := (n / den)%Z in
  let r := (n mod den)%Z in
  match (2 * r ?= den)%Z with
  | Lt => q
  | Gt => (q + 1)%Z
  | Eq => if Z.even q then q else (q + 1)%Z
  end.

End Double.

(** Python float division [x / y]. *)
Definition py_div (x y : double) : Result double :=
  if Double.eqb y Double.zero then Raise ZeroDivisionError
  else Ok (Double.div x y).

(** Python [round(x, d)] on a float, for [d >= 0]: the binary value of [x]
    is rounded to [d] decimals, ties to even, and the result is the double
    nearest to that decimal.  Infinities and NaN round to themselves, and
    so does every float when [d] is above 323. *)
Definition py_round (d : nat) (x : double) : double :=
  match x with
  | S754_finite s m e =>
      if (323 <? Z.of_nat d)%Z then x
      else
        let n := (Zpos m * pow10 d)%Z in
        let k := match e with
                 | Zneg p => Double.half_even n (2 ^ Zpos p)
                 | _ => (n * 2 ^ e)%Z
                 end in
        match k with
        | Zpos p => SFdiv Double.prec Double.emax (S754_finite s p 0)
                      (S754_finite false (Z.to_pos (pow10 d)) 0)
        | _ => S754_zero s
        end
  | _ => x
  end.

(** *** Values SQLite computes

    [SUM] adds the doubles of a group in the order the query plan visits
    them, and [ROUND] goes through the library's own conversion to decimal
    digits; the sources fix neither, so a computed column is kept as the
    expression SQLite evaluates. *)
Inductive Real : Type :=
| Val (x : Q)
| Sum (l : list Q)
| Minus (x y : Real)
| Round (x : Real) (d : nat).

(** ** SQL building blocks *)

Section Relational.
Context {A B : Type}.

(** [a JOIN b ON on] *)
Definition inner_join (l : list A) (r : list B) (on : A -> B -> bool) : list (A * B) :=
  flat_map (fun a => List.map (fun b => (a, b)) (List.filter (on a) r)) l.

(** [a LEFT JOIN b ON on] *)
Definition left_join (l : list A) (r : list B) (on : A -> B -> bool) : list (A * option B) :=
  flat_map (fun a =>
              match List.filter (on a) r with
              | [] => [(a, None)]
              | bs => List.map (fun b => (a, Some b)) bs
              end) l.

(** [a CROSS JOIN b] *)
Definition cross_join (l : list A) (r : list B) : list (A * B) :=
  flat_map (fun a => List.map (fun b => (a, b)) r) l.
End Relational.

Section OrderBy.
Context {A : Type} (le : A -> A -> bool).

Fixpoint insert_sorted (x : A) (l : list A) : list A :=
  match l with
  | [] => [x]
  | y :: l' => if le x y then x :: l else y :: insert_sorted x l'
  end.

(** [ORDER BY]: the rows in non-decreasing order of [le]. *)
Definition order_by (l : list A) : list A := fold_right insert_sorted [] l.
End OrderBy.

(** Lexicographic combination of sort keys. *)
Definition then_by (c1 c2 : comparison) : comparison :=
  match c1 with
  | Eq => c2
  | _ => c1
  end.

Definition not_gt (c : comparison) : bool :=
  match c with
  | Gt => false
  | _ => true
  end.

(** NULL sorts before every value. *)
Definition option_compare {A : Type} (cmp : A -> A -> comparison) (x y : option A) : comparison :=
  match x, y with
  | None, None => Eq
  | None, Some _ => Lt
  | Some _, None => Gt
  | Some a, Some b => cmp a b
  end.

(** [UPDATE t SET ... WHERE cond] *)
Definition update_where {R : Type} (cond : R -> bool) (set : R -> R) (tbl : list R) : list R :=
  List.map (fun r => if cond r then set r else r) tbl.

(** [INSERT INTO t ... ON CONFLICT(key) DO UPDATE SET ...], where [key]
    recognises the rows in conflict with the new one. *)
Definition insert_or_update {R : Type} (key : R -> bool) (set : R -> R) (new : R)
    (tbl : list R) : list R :=
  if existsb key tbl then update_where key set tbl else tbl ++ [new].

(** [COALESCE(x, d)] *)
Definition coalesce {A : Type} (x : option A) (d : A) : A :=
  match x with
  | Some v => v
  | None => d
  end.

(** Keys in order of first occurrence, as [GROUP BY] sees them. *)
Fixpoint distinct {K : Type} (eqb : K -> K -> bool) (l : list K) : list K :=
  match l with
  | [] => []
  | k :: l' => k :: List.filter (fun k' => negb (eqb k k')) (distinct eqb l')
  end.

(** ** Data model *)

Definition Id := nat.
Definition Timestamp := nat.

(** What [uid()] and [now()] return, call by call. *)
Record Env : Type := {
  uid : nat -> Id;
  now : nat -> Timestamp
}.

Record Owner : Type := {
  ow_id : Id;
  ow_system_key : string;
  ow_display_name : string;
  ow_sort_order : Z;
  ow_created_at : Timestamp;
  ow_updated_at : Timestamp
}.

Record Category : Type := {
  cat_id : Id;
  cat_name : string;
  cat_active : bool;
  cat_created_at : Timestamp;
  cat_updated_at : Timestamp
}.

Record Bill : Type := {
  bill_id : Id;
  bill_owner_id : Id;
  bill_name : string;
  bill_due_day : option Z;
  bill_default_amount : option Q;
  bill_active : bool;
  bill_created_at : Timestamp;
  bill_updated_at : Timestamp
}.

Record BillPayment : Type := {
  bp_id : Id;
  bp_bill_id : Id;
  bp_month : string;
  bp_paid : bool;
  bp_paid_amount : option Q;
  bp_paid_date : option string;
  bp_note : option string;
  bp_created_at : Timestamp;
  bp_updated_at : Timestamp
}.

Record Account : Type := {
  acc_id : Id;
  acc_owner_id : Id;
  acc_name : string;
  acc_type : string;
  acc_apr : option Q;
  acc_credit_limit : option Q;
  acc_start_balance : option Q;
  acc_active : bool;
  acc_created_at : Timestamp;
  acc_updated_at : Timestamp
}.

Record AccountSnapshot : Type := {
  snap_id : Id;
  snap_account_id : Id;
  snap_month : string;
  snap_balance : Q;
  snap_payment : Q;
  snap_created_at : Timestamp;
  snap_updated_at : Timestamp
}.

Record Transaction : Type := {
  txn_id : Id;
  txn_date : string;
  txn_owner_id : Id;
  txn_category_id : Id;
  txn_description : string;
  txn_amount : Q;
  txn_created_at : Timestamp;
  txn_updated_at : Timestamp;
  txn_deleted_at : option Timestamp
}.

Record Budget : Type := {
  bud_id : Id;
  bud_month : string;
  bud_owner_id : Id;
  bud_category_id : Id;
  bud_planned_amount : Q;
  bud_created_at : Timestamp;
  bud_updated_at : Timestamp
}.

Record MonthClosing : Type := {
  mc_id : Id;
  mc_month : string;
  mc_closed_at : Timestamp;
  mc_note : option string
}.

(** The database file. *)
Record Store : Type := {
  owners : list Owner;
  categories : list Category;
  bills : list Bill;
  bill_payments : list BillPayment;
  accounts : list Account;
  account_snapshots : list AccountSnapshot;
  transactions : list Transaction;
  budgets : list Budget;
  month_closings : list MonthClosing
}.

Definition set_bill_payments (s : Store) (l : list BillPayment) : Store :=
  {| owners := owners s; categories := categories s; bills := bills s;
     bill_payments := l; accounts := accounts s;
     account_snapshots := account_snapshots s; transactions := transactions s;
     budgets := budgets s; month_closings := month_closings s |}.

Definition set_account_snapshots (s : Store) (l : list AccountSnapshot) : Store :=
  {| owners := owners s; categories := categories s; bills := bills s;
     bill_payments := bill_payments s; accounts := accounts s;
     account_snapshots := l; transactions := transactions s;
     budgets := budgets s; month_closings := month_closings s |}.

Definition set_transactions (s : Store) (l : list Transaction) : Store :=
  {| owners := owners s; categories := categories s; bills := bills s;
     bill_payments := bill_payments s; accounts := accounts s;
     account_snapshots := account_snapshots s; transactions := l;
     budgets := budgets s; month_closings := month_closings s |}.

Definition set_budgets (s : Store) (l : list Budget) : Store :=
  {| owners := owners s; categories := categories s; bills := bills s;
     bill_payments := bill_payments s; accounts := accounts s;
     account_snapshots := account_snapshots s; transactions := transactions s;
     budgets := l; month_closings := month_closings s |}.

Definition set_month_closings (s : Store) (l : list MonthClosing) : Store :=
  {| owners := owners s; categories := categories s; bills := bills s;
     bill_payments := bill_payments s; accounts := accounts s;
     account_snapshots := account_snapshots s; transactions := transactions s;
     budgets := budgets s; month_closings := l |}.

(** ** Composite keys

    Modelled from the spec: [schema.sql] is not among the sources.  The
    data model gives one payment row per (bill, month), at most one
    snapshot per (account, month) and at most one budget per (month, owner,
    category); the last two are also the conflict targets that
    [upsert_snapshot] and [upsert_budget] name. *)

Definition bp_key_eqb (b : Id) (month : string) (r : BillPayment) : bool :=
  (bp_bill_id r =? b)%nat && String.eqb (bp_month r) month.

Definition snap_key_eqb (a : Id) (month : string) (r : AccountSnapshot) : bool :=
  (snap_account_id r =? a)%nat && String.eqb (snap_month r) month.

Definition bud_key_eqb (month : string) (o c : Id) (r : Budget) : bool :=
  String.eqb (bud_month r) month && (bud_owner_id r =? o)%nat
  && (bud_category_id r =? c)%nat.

(** Integrity of a stored database: the composite keys are keys, and every
    account refers to exactly one owner. *)
Record integrity (s : Store) : Prop := {
  bp_unique : forall b m,
    (List.length (List.filter (bp_key_eqb b m) (bill_payments s)) <= 1)%nat;
  snap_unique : forall a m,
    (List.length (List.filter (snap_key_eqb a m) (account_snapshots s)) <= 1)%nat;
  bud_unique : forall m o c,
    (List.length (List.filter (bud_key_eqb m o c) (budgets s)) <= 1)%nat;
  acc_owner : forall a, In a (accounts s) ->
    List.length (List.filter (fun o => (ow_id o =? acc_owner_id a)%nat) (owners s)) = 1%nat
}.

(** ** services.py *)

(** [month_from_date] *)
Definition month_from_date (iso_date : string) : string := PyStr.prefix 7 iso_date.

Definition is_month_closed (month : string) (s : Store) : bool :=
  let month := PyStr.strip month in
  existsb (fun r => String.eqb (mc_month r) month) (month_closings s).

(** *** Bills *)

Definition active_bills (s : Store) : list Bill := List.filter bill_active (bills s).

(** The row [ensure_bill_payment_rows] offers for the [k]-th active bill. *)
Definition blank_payment (e : Env) (k : nat) (b : Id) (month : string) : BillPayment :=
  {| bp_id := uid e k; bp_bill_id := b; bp_month := month; bp_paid := false;
     bp_paid_amount := None; bp_paid_date := None; bp_note := None;
     bp_created_at := now e (2 * k); bp_updated_at := now e (2 * k + 1) |}.

(** [INSERT OR IGNORE INTO bill_payments] *)
Definition insert_or_ignore_payment (r : BillPayment) (tbl : list BillPayment) : list BillPayment :=
  if existsb (bp_key_eqb (bp_bill_id r) (bp_month r)) tbl then tbl else tbl ++ [r].

Fixpoint ensure_rows (e : Env) (month : string) (k : nat) (bs : list Bill)
    (tbl : list BillPayment) : list BillPayment :=
  match bs with
  | [] => tbl
  | b :: bs' =>
      ensure_rows e month (S k) bs'
        (insert_or_ignore_payment (blank_payment e k (bill_id b) month) tbl)
  end.

Definition ensure_bill_payment_rows (e : Env) (month : string) (s : Store) : Store :=
  let month := PyStr.strip month in
  set_bill_payments s (ensure_rows e month 0 (active_bills s) (bill_payments s)).

Record BillsDueRow : Type := {
  bd_owner : string;
  bd_bill : string;
  bd_due_day : option Z;
  bd_planned : option Q;
  bd_paid : bool;
  bd_paid_amount : option Q;
  bd_paid_date : option string;
  bd_note : option string;
  bd_bill_id : Id
}.

Definition bills_due_order (x y : Bill * Owner * BillPayment) : bool :=
  let '(b1, o1, _) := x in
  let '(b2, o2, _) := y in
  not_gt (then_by (option_compare Z.compare (bill_due_day b1) (bill_due_day b2))
         (then_by (String.compare (ow_display_name o1) (ow_display_name o2))
                  (String.compare (bill_name b1) (bill_name b2)))).

Definition bills_due_query (month : string) (s : Store) : list BillsDueRow :=
  let j1 := inner_join (bills s) (owners s)
              (fun b o => (ow_id o =? bill_owner_id b)%nat) in
  let j2 := inner_join j1 (bill_payments s)
              (fun bo bp => bp_key_eqb (bill_id (fst bo)) month bp) in
  let w := List.filter (fun x => bill_active (fst (fst x))) j2 in
  List.map (fun x =>
              let '(b, o, bp) := x in
              {| bd_owner := ow_display_name o; bd_bill := bill_name b;
                 bd_due_day := bill_due_day b; bd_planned := bill_default_amount b;
                 bd_paid := bp_paid bp; bd_paid_amount := bp_paid_amount bp;
                 bd_paid_date := bp_paid_date bp; bd_note := bp_note bp;
                 bd_bill_id := bill_id b |})
           (order_by bills_due_order w).

(** [bills_due_view]: the store it leaves and the rows it returns. *)
Definition bills_due_view (e : Env) (month : string) (s : Store) : Store * list BillsDueRow :=
  let month := PyStr.strip month in
  let s' := ensure_bill_payment_rows e month s in
  (s', bills_due_query month s').

(** [(note or "").strip() if note else None] *)
Definition clean_note (note : option string) : option string :=
  match note with
  | None => None
  | Some "" => None
  | Some n => Some (PyStr.strip n)
  end.

Definition set_bill_paid (e : Env) (month : string) (bill : Id) (paid : bool)
    (paid_amount : option Q) (paid_date : option string) (note : option string)
    (s : Store) : Store :=
  let month := PyStr.strip month in
  let s' := ensure_bill_payment_rows e month s in
  let t := now e (2 * List.length (active_bills s)) in
  set_bill_payments s'
    (update_where (bp_key_eqb bill month)
       (fun r =>
          {| bp_id := bp_id r; bp_bill_id := bp_bill_id r; bp_month := bp_month r;
             bp_paid := paid; bp_paid_amount := paid_amount;
             bp_paid_date := paid_date; bp_note := clean_note note;
             bp_created_at := bp_created_at r; bp_updated_at := t |})
       (bill_payments s')).

(** The names bound at the top level of [services.py]. *)
Definition services_globals : list string :=
  [ "sqlite3"; "uuid"; "datetime"; "Iterable"; "Optional"; "DB"; "now"; "uid";
    "conn"; "init_db"; "month_from_date"; "is_month_closed"; "get_known_months";
    "is_first_run"; "get_owners"; "rename_owner"; "owner_id_from_label_or_key";
    "get_categories"; "add_category"; "get_or_create_category_id";
    "set_category_active"; "rename_category"; "add_bill"; "get_bills";
    "set_bill_active"; "ensure_bill_payment_rows"; "bills_due_view";
    "set_bill_paid"; "update_bill_amount_and_recurring"; "add_account";
    "get_accounts"; "upsert_snapshot"; "get_snapshots";
    "latest_snapshot_by_account"; "add_transaction"; "bulk_add_transactions";
    "get_transactions"; "soft_delete_transaction"; "export_transactions_rows";
    "upsert_budget"; "planned_vs_actual"; "close_month"; "get_month_closings" ].

(** Looking up a name that is neither local nor built in. *)
Definition load_global (name : string) : Result unit :=
  if existsb (String.eqb name) services_globals then Ok tt else Raise (NameError name).

(** Modelled from the spec: the columns of [bills] ([schema.sql] is not
    among the sources); they are the fields of the Bill entity and the
    columns [add_bill] inserts. *)
Definition bills_columns : list string :=
  [ "id"; "owner_id"; "name"; "due_day"; "default_amount"; "active";
    "created_at"; "updated_at" ].

(** [update_bill_amount_and_recurring]: [get_db()] is evaluated first; the
    [UPDATE] it would then run assigns the columns [planned] and
    [recurring]. *)
Definition update_bill_amount_and_recurring (bill : Id) (planned_amount : Q)
    (recurring : bool) (s : Store) : Result Store :=
  match load_global "get_db" with
  | Raise e => Raise e
  | Ok _ =>
      if existsb (String.eqb "planned") bills_columns
         && existsb (String.eqb "recurring") bills_columns
      then Ok s
      else Raise (OperationalError "no such column: planned")
  end.

(** *** Accounts and snapshots *)

Definition upsert_snapshot (e : Env) (account : Id) (month : string)
    (balance payment : Q) (s : Store) : Result Store :=
  let month := PyStr.strip month in
  if month_check_fails month then Raise (ValueError "Month must be YYYY-MM.")
  else
    Ok (set_account_snapshots s
          (insert_or_update (snap_key_eqb account month)
             (fun r =>
                {| snap_id := snap_id r; snap_account_id := snap_account_id r;
                   snap_month := snap_month r; snap_balance := balance;
                   snap_payment := payment; snap_created_at := snap_created_at r;
                   snap_updated_at := now e 1 |})
             {| snap_id := uid e 0; snap_account_id := account; snap_month := month;
                snap_balance := balance; snap_payment := payment;
                snap_created_at := now e 0; snap_updated_at := now e 1 |}
             (account_snapshots s))).

Record ProgressRow : Type := {
  pr_owner : string;
  pr_account : string;
  pr_type : string;
  pr_apr : option Q;
  pr_credit_limit : option Q;
  pr_start_balance : option Q;
  pr_account_id : Id;
  pr_curr_balance : option Q;
  pr_curr_payment : option Q;
  pr_prev_balance : option Q;
  pr_prev_payment : option Q
}.

(** [SELECT month FROM account_snapshots WHERE account_id=a.id AND month < ?
    ORDER BY month DESC LIMIT 1] *)
Definition prev_month (account : Id) (month : string) (s : Store) : option string :=
  hd_error
    (order_by (fun x y => not_gt (String.compare y x))
       (List.map snap_month
          (List.filter (fun r => (snap_account_id r =? account)%nat
                                 && String.ltb (snap_month r) month)
                       (account_snapshots s)))).

Definition progress_order
    (x y : Account * Owner * option AccountSnapshot * option AccountSnapshot) : bool :=
  let '(a1, o1, _, _) := x in
  let '(a2, o2, _, _) := y in
  not_gt (then_by (String.compare (ow_display_name o1) (ow_display_name o2))
         (then_by (String.compare (acc_type a1) (acc_type a2))
                  (String.compare (acc_name a1) (acc_name a2)))).

Definition latest_snapshot_by_account (month : string) (s : Store) : list ProgressRow :=
  let month := PyStr.strip month in
  let j1 := inner_join (accounts s) (owners s)
              (fun a o => (ow_id o =? acc_owner_id a)%nat) in
  let j2 := left_join j1 (account_snapshots s)
              (fun ao r => snap_key_eqb (acc_id (fst ao)) month r) in
  let j3 := left_join j2 (account_snapshots s)
              (fun aos p =>
                 let a := fst (fst aos) in
                 match prev_month (acc_id a) month s with
                 | Some pm => snap_key_eqb (acc_id a) pm p
                 | None => false
                 end) in
  let w := List.filter (fun x => acc_active (fst (fst (fst x)))) j3 in
  List.map (fun x =>
              let '(a, o, c, p) := x in
              {| pr_owner := ow_display_name o; pr_account := acc_name a;
                 pr_type := acc_type a; pr_apr := acc_apr a;
                 pr_credit_limit := acc_credit_limit a;
                 pr_start_balance := acc_start_balance a;
                 pr_account_id := acc_id a;
                 pr_curr_balance := option_map snap_balance c;
                 pr_curr_payment := option_map snap_payment c;
                 pr_prev_balance := option_map snap_balance p;
                 pr_prev_payment := option_map snap_payment p |})
           (order_by progress_order w).

(** *** Transactions *)

Definition add_transaction (e : Env) (date : string) (owner category : Id)
    (amount : Q) (desc : string) (s : Store) : Result Store :=
  if Qle_bool amount 0 then Raise (ValueError "Amount must be > 0.")
  else
    Ok (set_transactions s
          (transactions s ++
           [ {| txn_id := uid e 0; txn_date := date; txn_owner_id := owner;
                txn_category_id := category; txn_description := PyStr.strip desc;
                txn_amount := amount; txn_created_at := now e 0;
                txn_updated_at := now e 1; txn_deleted_at := None |} ])).

(** One dictionary of the iterable handed to [bulk_add_transactions]. *)
Record TxnInput : Type := {
  in_txn_date : string;
  in_owner_id : Id;
  in_category_id : Id;
  in_amount : Q;
  in_description : option string
}.

Fixpoint bulk_rows (e : Env) (k : nat) (rows : list TxnInput) : list Transaction :=
  match rows with
  | [] => []
  | r :: rows' =>
      {| txn_id := uid e k; txn_date := in_txn_date r; txn_owner_id := in_owner_id r;
         txn_category_id := in_category_id r;
         txn_description := PyStr.strip (coalesce (in_description r) "");
         txn_amount := in_amount r; txn_created_at := now e (2 * k);
         txn_updated_at := now e (2 * k + 1); txn_deleted_at := None |}
      :: bulk_rows e (S k) rows'
  end.

Definition bulk_add_transactions (e : Env) (rows : list TxnInput) (s : Store) : Store :=
  set_transactions s (transactions s ++ bulk_rows e 0 rows).

Definition is_null {A : Type} (x : option A) : bool :=
  match x with
  | None => true
  | Some _ => false
  end.

(** The optional month filter: [if month: sql += " AND substr(t.txn_date,1,7)=?"]. *)
Definition month_filter (month : option string) (t : Transaction) : bool :=
  match month with
  | None => true
  | Some "" => true
  | Some m => String.eqb (PyStr.prefix 7 (txn_date t)) m
  end.

(** The join and filter shared by [get_transactions] and
    [export_transactions_rows]. *)
Definition live_transactions (month : option string) (s : Store)
    : list (Transaction * Owner * Category) :=
  let j1 := inner_join (transactions s) (owners s)
              (fun t o => (ow_id o =? txn_owner_id t)%nat) in
  let j2 := inner_join j1 (categories s)
              (fun tow c => (cat_id c =? txn_category_id (fst tow))%nat) in
  List.filter (fun x =>
                 let t := fst (fst x) in
                 is_null (txn_deleted_at t) && month_filter month t) j2.

Record TxnRow : Type := {
  tr_id : Id;
  tr_txn_date : string;
  tr_owner : string;
  tr_category : string;
  tr_description : string;
  tr_amount : Q
}.

Definition get_transactions (month : option string) (s : Store) : list TxnRow :=
  List.map (fun x =>
              let '(t, o, c) := x in
              {| tr_id := txn_id t; tr_txn_date := txn_date t;
                 tr_owner := ow_display_name o; tr_category := cat_name c;
                 tr_description := txn_description t; tr_amount := txn_amount t |})
           (order_by (fun x y =>
                        not_gt (String.compare (txn_date (fst (fst y)))
                                               (txn_date (fst (fst x)))))
                     (live_transactions month s)).

Definition soft_delete_transaction (e : Env) (txn : Id) (s : Store) : Store :=
  set_transactions s
    (update_where (fun t => (txn_id t =? txn)%nat)
       (fun t =>
          {| txn_id := txn_id t; txn_date := txn_date t;
             txn_owner_id := txn_owner_id t; txn_category_id := txn_category_id t;
             txn_description := txn_description t; txn_amount := txn_amount t;
             txn_created_at := txn_created_at t; txn_updated_at := now e 1;
             txn_deleted_at := Some (now e 0) |})
       (transactions s)).

Record ExportRow : Type := {
  ex_txn_date : string;
  ex_owner : string;
  ex_category : string;
  ex_amount : Q;
  ex_description : string
}.

Definition export_transactions_rows (month : option string) (s : Store) : list ExportRow :=
  List.map (fun x =>
              let '(t, o, c) := x in
              {| ex_txn_date := txn_date t; ex_owner := ow_display_name o;
                 ex_category := cat_name c; ex_amount := txn_amount t;
                 ex_description := txn_description t |})
           (order_by (fun x y =>
                        not_gt (String.compare (txn_date (fst (fst x)))
                                               (txn_date (fst (fst y)))))
                     (live_transactions month s)).

(** *** Budgets *)

Definition upsert_budget (e : Env) (month : string) (owner category : Id)
    (planned_amount : Q) (s : Store) : Result Store :=
  let month := PyStr.strip month in
  if month_check_fails month then Raise (ValueError "Month must be YYYY-MM.")
  else
    Ok (set_budgets s
          (insert_or_update (bud_key_eqb month owner category)
             (fun r =>
                {| bud_id := bud_id r; bud_month := bud_month r;
                   bud_owner_id := bud_owner_id r; bud_category_id := bud_category_id r;
                   bud_planned_amount := planned_amount;
                   bud_created_at := bud_created_at r; bud_updated_at := now e 1 |})
             {| bud_id := uid e 0; bud_month := month; bud_owner_id := owner;
                bud_category_id := category; bud_planned_amount := planned_amount;
                bud_created_at := now e 0; bud_updated_at := now e 1 |}
             (budgets s))).

(** A row of the [act] common table expression. *)
Record ActRow : Type := {
  act_owner_id : Id;
  act_category_id : Id;
  act_actual : Real
}.

Definition pair_eqb (k k' : Id * Id) : bool :=
  (fst k =? fst k')%nat && (snd k =? snd k')%nat.

Definition txn_key (t : Transaction) : Id * Id := (txn_owner_id t, txn_category_id t).

(** [WHERE deleted_at IS NULL AND substr(txn_date,1,7)=?] *)
Definition counted (month : string) (s : Store) : list Transaction :=
  List.filter (fun t => is_null (txn_deleted_at t)
                        && String.eqb (PyStr.prefix 7 (txn_date t)) month)
              (transactions s).

(** [SELECT owner_id, category_id, SUM(amount) actual ... GROUP BY owner_id,
    category_id] *)
Definition act (month : string) (s : Store) : list ActRow :=
  let live := counted month s in
  List.map (fun k =>
              {| act_owner_id := fst k; act_category_id := snd k;
                 act_actual :=
                   Sum (List.map txn_amount
                          (List.filter (fun t => pair_eqb k (txn_key t)) live)) |})
           (distinct pair_eqb (List.map txn_key live)).

Record PvaRow : Type := {
  pva_owner : string;
  pva_category : string;
  pva_planned : Q;
  pva_actual : Real;
  pva_variance : Real
}.

(** [ORDER BY o.sort_order, c.name] *)
Definition pva_compare (o1 : Owner) (c1 : Category) (o2 : Owner) (c2 : Category) : comparison :=
  then_by (Z.compare (ow_sort_order o1) (ow_sort_order o2))
          (String.compare (cat_name c1) (cat_name c2)).

Definition pva_order (x y : Owner * Category * option Budget * option ActRow) : bool :=
  let '(o1, c1, _, _) := x in
  let '(o2, c2, _, _) := y in
  not_gt (pva_compare o1 c1 o2 c2).

Definition pva_select (x : Owner * Category * option Budget * option ActRow) : PvaRow :=
  let '(o, c, b, a) := x in
  let planned := coalesce (option_map bud_planned_amount b) 0%Q in
  let actual := coalesce (option_map act_actual a) (Val 0) in
  {| pva_owner := ow_display_name o; pva_category := cat_name c;
     pva_planned := planned;
     pva_actual := Round actual 2;
     pva_variance := Round (Minus (Val planned) actual) 2 |}.

Definition planned_vs_actual (month : string) (s : Store) : Result (list PvaRow) :=
  let month := PyStr.strip month in
  if month_check_fails month then Raise (ValueError "Month must be YYYY-MM.")
  else
    let j1 := cross_join (owners s) (categories s) in
    let j2 := left_join j1 (budgets s)
                (fun oc b => bud_key_eqb month (ow_id (fst oc)) (cat_id (snd oc)) b) in
    let j3 := left_join j2 (act month s)
                (fun ocb a =>
                   (act_owner_id a =? ow_id (fst (fst ocb)))%nat
                   && (act_category_id a =? cat_id (snd (fst ocb)))%nat) in
    let w := List.filter (fun x => cat_active (snd (fst (fst x)))) j3 in
    Ok (List.map pva_select (order_by pva_order w)).

(** *** Month closeout *)

Definition close_month (e : Env) (month : string) (note : option string)
    (s : Store) : Result Store :=
  let month := PyStr.strip month in
  if month_check_fails month then Raise (ValueError "Month must be YYYY-MM.")
  else if is_month_closed month s then Ok s
  else
    let s' := ensure_bill_payment_rows e month s in
    let n := List.length (active_bills s) in
    Ok (set_month_closings s'
          (month_closings s' ++
           [ {| mc_id := uid e n; mc_month := month; mc_closed_at := now e (2 * n);
                mc_note := clean_note note |} ])).

(** ** Debt progress columns (app.py) *)

(** [float(x) > 0] *)
Definition is_positive (x : Q) : bool := Double.ltb Double.zero (Double.of_Q x).

(** [pct_used] *)
Definition pct_used (r : ProgressRow) : Result (option double) :=
  match pr_credit_limit r with
  | Some lim =>
      if is_positive lim then
        match pr_curr_balance r with
        | Some cb =>
            match py_div (Double.mul (Double.of_Q 100) (Double.of_Q cb)) (Double.of_Q lim) with
            | Ok x => Ok (Some (py_round 1 x))
            | Raise e => Raise e
            end
        | None => Ok None
        end
      else Ok None
  | None => Ok None
  end.

(** [payoff_pct] *)
Definition payoff_pct (r : ProgressRow) : Result (option double) :=
  match pr_start_balance r with
  | Some sb =>
      if is_positive sb then
        match pr_curr_balance r with
        | Some cb =>
            match py_div (Double.mul (Double.of_Q 100)
                            (Double.sub (Double.of_Q sb) (Double.of_Q cb)))
                         (Double.of_Q sb) with
            | Ok x => Ok (Some (py_round 1 x))
            | Raise e => Raise e
            end
        | None => Ok None
        end
      else Ok None
  | None => Ok None
  end.

(** [delta_balance] *)
Definition delta_balance (r : ProgressRow) : option double :=
  match pr_curr_balance r, pr_prev_balance r with
  | Some cb, Some pb => Some (py_round 2 (Double.sub (Double.of_Q cb) (Double.of_Q pb)))
  | _, _ => None
  end.

Record ProgressView : Type := {
  pv_row : ProgressRow;
  pv_utilization : option double;
  pv_payoff : option double;
  pv_balance_delta : option double
}.

(** The three [df.apply] calls of the Debt Progress tab, row by row; an
    exception raised for one row aborts the tab. *)
Fixpoint debt_progress_columns (rows : list ProgressRow) : Result (list ProgressView) :=
  match rows with
  | [] => Ok []
  | r :: rows' =>
      match pct_used r, payoff_pct r, debt_progress_columns rows' with
      | Ok u, Ok p, Ok vs =>
          Ok ({| pv_row := r; pv_utilization := u; pv_payoff := p;
                 pv_balance_delta := delta_balance r |} :: vs)
      | Raise e, _, _ => Raise e
      | _, Raise e, _ => Raise e
      | _, _, Raise e => Raise e
      end
  end.

Definition debt_progress (month : string) (s : Store) : Result (list ProgressView) :=
  debt_progress_columns (latest_snapshot_by_account month s).

(** ** The closed-month confirmation protocol (app.py)

    One run of the script is driven by at most one widget event.  The
    script reads and writes the database and [st.session_state];
    [st.rerun()] unwinds the run. *)

Record App : Type := {
  db : Store;
  session_state : gmap string bool
}.

Inductive Event : Type :=
| Idle
| Pressed (key : string).

Inductive Flow (A : Type) : Type :=
| Next (a : A)
| Rerun
| Failed (e : Exn).
Arguments Next {A} a.
Arguments Rerun {A}.
Arguments Failed {A} e.

Definition Script (A : Type) : Type := App -> Flow A * App.

Definition ret {A : Type} (x : A) : Script A := fun a => (Next x, a).

Definition bind {A B : Type} (m : Script A) (k : A -> Script B) : Script B :=
  fun a =>
    match m a with
    | (Next x, a') => k x a'
    | (Rerun, a') => (Rerun, a')
    | (Failed e, a') => (Failed e, a')
    end.

Notation "'let*' x ':=' m 'in' k" := (bind m (fun x => k))
  (at level 10, x name, m at level 200, k at level 200, only parsing).
Notation "m ;;; k" := (bind m (fun _ => k))
  (at level 89, right associativity, only parsing).

(** [st.rerun()] *)
Definition st_rerun : Script unit := fun a => (Rerun, a).

(** [st.button(..., key=key)] *)
Definition button (ev : Event) (key : string) : bool :=
  match ev with
  | Pressed k => String.eqb k key
  | Idle => false
  end.

Definition set_flag (k : string) (v : bool) : Script unit :=
  fun a => (Next tt, {| db := db a; session_state := <[k := v]> (session_state a) |}).

(** [st.session_state.pop(k, None)] *)
Definition pop_flag (k : string) : Script unit :=
  fun a => (Next tt, {| db := db a; session_state := delete k (session_state a) |}).

(** [st.session_state.get(k, False)] *)
Definition get_flag (k : string) : Script bool :=
  fun a => (Next (default false (session_state a !! k)), a).

Definition month_closed (month : string) : Script bool :=
  fun a => (Next (is_month_closed month (db a)), a).

Definition pending_key (action_key month : string) : string :=
  "pending_" ++ action_key ++ "_" ++ month.

Definition confirm_key (action_key month : string) : string :=
  "confirm_" ++ action_key ++ "_" ++ month.

Definition cancel_key (action_key month : string) : string :=
  "cancel_" ++ action_key ++ "_" ++ month.

Definition arm_two_step_if_closed (month action_key : string) : Script unit :=
  let* closed := month_closed month in
  if closed then set_flag (pending_key action_key month) true else ret tt.

Definition confirm_bar_if_pending (ev : Event) (month action_key : string) : Script bool :=
  let month := PyStr.strip month in
  let* closed := month_closed month in
  if negb closed then
    pop_flag (pending_key action_key month) ;;; ret false
  else
    let* pending := get_flag (pending_key action_key month) in
    if negb pending then ret false
    else if button ev (confirm_key action_key month) then
      set_flag (pending_key action_key month) false ;;; ret true
    else if button ev (cancel_key action_key month) then
      set_flag (pending_key action_key month) false ;;; st_rerun ;;; ret false
    else ret false.

(** A service call followed by [st.success] and [st.rerun()], inside
    [try ... except Exception as e: st.error(str(e))]. *)
Definition try_write (w : Store -> Result Store) : Script unit :=
  fun a =>
    match w (db a) with
    | Ok s' => (Rerun, {| db := s'; session_state := session_state a |})
    | Raise _ => (Next tt, a)
    end.

(** The same without the [try]. *)
Definition do_write (w : Store -> Result Store) : Script unit :=
  fun a =>
    match w (db a) with
    | Ok s' => (Rerun, {| db := s'; session_state := session_state a |})
    | Raise e => (Failed e, a)
    end.

(** [datetime.date] and [isoformat]. *)
Record Date : Type := {
  year : nat;
  month_of_year : nat;
  day : nat
}.

Definition isoformat (d : Date) : string :=
  String (PyStr.digit (year d / 1000))
    (String (PyStr.digit (year d / 100))
       (String (PyStr.digit (year d / 10))
          (String (PyStr.digit (year d))
             (String "-"
                (String (PyStr.digit (month_of_year d / 10))
                   (String (PyStr.digit (month_of_year d))
                      (String "-"
                         (String (PyStr.digit (day d / 10))
                            (String (PyStr.digit (day d)) EmptyString))))))))).

(** *** Add Expense *)

Definition add_expense_tab (e : Env) (ev : Event) (d : Date) (owner category : Id)
    (amt : Q) (desc : string) : Script unit :=
  let txn_month := PyStr.prefix 7 (isoformat d) in
  let write := add_transaction e (isoformat d) owner category amt desc in
  let* confirmed := confirm_bar_if_pending ev txn_month "add_expense" in
  (if confirmed then try_write write else ret tt) ;;;
  if button ev "Save expense" then
    let* closed := month_closed txn_month in
    (if closed then arm_two_step_if_closed txn_month "add_expense" ;;; st_rerun
     else ret tt) ;;;
    try_write write
  else ret tt.

(** *** Budgets *)

Definition budgets_tab (e : Env) (ev : Event) (selected : string) (owner category : Id)
    (planned : Q) : Script unit :=
  let m := PyStr.strip selected in
  let do_budget_write := upsert_budget e m owner category planned in
  let* confirmed := confirm_bar_if_pending ev m "save_budget" in
  (if confirmed then try_write do_budget_write else ret tt) ;;;
  if button ev "bud_save" then
    let* closed := month_closed m in
    (if closed then arm_two_step_if_closed m "save_budget" ;;; st_rerun
     else ret tt) ;;;
    try_write do_budget_write
  else ret tt.

(** *** Bills Due *)

Definition bills_tab (e : Env) (ev : Event) (selected : string) (bill : Id)
    (paid : bool) (paid_amount : Q) (paid_date : Date) (note : string) : Script unit :=
  let m := PyStr.strip selected in
  let do_bill_write := fun s =>
    Ok (set_bill_paid e m bill paid
          (if paid then Some paid_amount else None)
          (if paid then Some (isoformat paid_date) else None)
          (Some note) s) in
  let* confirmed := confirm_bar_if_pending ev m "save_bill_payment" in
  (if confirmed then do_write do_bill_write else ret tt) ;;;
  if button ev "bill_save" then
    let* closed := month_closed m in
    (if closed then arm_two_step_if_closed m "save_bill_payment" ;;; st_rerun
     else ret tt) ;;;
    do_write do_bill_write
  else ret tt.

(** *** Accounts + Snapshots *)

Definition snapshots_tab (e : Env) (ev : Event) (selected : string) (account : Id)
    (bal pay : Q) : Script unit :=
  let m := PyStr.strip selected in
  let do_snap_write := upsert_snapshot e account m bal pay in
  let* confirmed := confirm_bar_if_pending ev m "save_snapshot" in
  (if confirmed then do_write do_snap_write else ret tt) ;;;
  if button ev "snap_save" then
    let* closed := month_closed m in
    (if closed then arm_two_step_if_closed m "save_snapshot" ;;; st_rerun
     else ret tt) ;;;
    try_write do_snap_write
  else ret tt.

(** *** CSV import *)

(** [sorted(months_touched)] for the set of months of the prepared rows. *)
Definition months_touched (rows : list TxnInput) : list string :=
  order_by String.leb
    (distinct String.eqb (List.map (fun r => PyStr.prefix 7 (in_txn_date r)) rows)).

Definition csv_action_key (rows : list TxnInput) : string :=
  match months_touched rows with
  | [] => "csv_import"
  | ms => "csv_import_" ++ PyStr.join "_" ms
  end.

Definition csv_pending_key (rows : list TxnInput) : string :=
  "pending_" ++ csv_action_key rows.

Definition csv_import (e : Env) (ev : Event) (prepared_rows : list TxnInput) : Script unit :=
  let pending := csv_pending_key prepared_rows in
  fun a =>
    let closed_months :=
      List.filter (fun mm => is_month_closed mm (db a)) (months_touched prepared_rows) in
    match closed_months with
    | _ :: _ =>
        ((if button ev "csv_import_btn" then set_flag pending true ;;; st_rerun
          else ret tt) ;;;
         let* p := get_flag pending in
         if p then
           (if button ev "csv_confirm" then
              (fun a' => (Next tt, {| db := bulk_add_transactions e prepared_rows (db a');
                                      session_state := session_state a' |})) ;;;
              set_flag pending false ;;; st_rerun
            else ret tt) ;;;
           (if button ev "csv_cancel" then set_flag pending false ;;; st_rerun
            else ret tt)
         else ret tt) a
    | [] =>
        (if button ev "csv_import_btn2" then
           (fun a' => (Next tt, {| db := bulk_add_transactions e prepared_rows (db a');
                                   session_state := session_state a' |})) ;;;
           st_rerun
         else ret tt) a
    end.

(** ** services.py: owners, categories, bills, accounts, months *)

Definition set_owners (s : Store) (l : list Owner) : Store :=
  {| owners := l; categories := categories s; bills := bills s;
     bill_payments := bill_payments s; accounts := accounts s;
     account_snapshots := account_snapshots s; transactions := transactions s;
     budgets := budgets s; month_closings := month_closings s |}.

Definition set_categories (s : Store) (l : list Category) : Store :=
  {| owners := owners s; categories := l; bills := bills s;
     bill_payments := bill_payments s; accounts := accounts s;
     account_snapshots := account_snapshots s; transactions := transactions s;
     budgets := budgets s; month_closings := month_closings s |}.

Definition set_bills (s : Store) (l : list Bill) : Store :=
  {| owners := owners s; categories := categories s; bills := l;
     bill_payments := bill_payments s; accounts := accounts s;
     account_snapshots := account_snapshots s; transactions := transactions s;
     budgets := budgets s; month_closings := month_closings s |}.

Definition set_accounts (s : Store) (l : list Account) : Store :=
  {| owners := owners s; categories := categories s; bills := bills s;
     bill_payments := bill_payments s; accounts := l;
     account_snapshots := account_snapshots s; transactions := transactions s;
     budgets := budgets s; month_closings := month_closings s |}.

(** [if not s] on a string. *)
Definition is_blank (s : string) : bool :=
  match s with
  | EmptyString => true
  | String _ _ => false
  end.

(** SQLite [lower(X)]: the upper-case ASCII letters are folded. *)
Definition lower_char (c : ascii) : ascii :=
  let n := nat_of_ascii c in
  if (65 <=? n)%nat && (n <=? 90)%nat then ascii_of_nat (n + 32) else c.

Fixpoint sql_lower (s : string) : string :=
  match s with
  | EmptyString => EmptyString
  | String c s' => String (lower_char c) (sql_lower s')
  end.

(** [lower(a) = lower(b)] *)
Definition same_folded (a b : string) : bool := String.eqb (sql_lower a) (sql_lower b).

(** *** Owners *)

Definition seeds : list (string * string * Z) :=
  [ ("shared", "Shared", 0%Z); ("person_1", "Person 1", 1%Z); ("person_2", "Person 2", 2%Z) ].

(** [INSERT OR IGNORE INTO owners].

    Modelled from the spec: [system_key] is unique in [owners]
    ([schema.sql] is not among the sources); the data model has one owner
    per system key, seeded once, three for the lifetime of the system. *)
Definition insert_or_ignore_owner (r : Owner) (tbl : list Owner) : list Owner :=
  if existsb (fun o => String.eqb (ow_system_key o) (ow_system_key r)) tbl
  then tbl else tbl ++ [r].

Fixpoint seed_owners (e : Env) (k : nat) (l : list (string * string * Z))
    (tbl : list Owner) : list Owner :=
  match l with
  | [] => tbl
  | (key, name, order) :: l' =>
      seed_owners e (S k) l'
        (insert_or_ignore_owner
           {| ow_id := uid e k; ow_system_key := key; ow_display_name := name;
              ow_sort_order := order; ow_created_at := now e (2 * k);
              ow_updated_at := now e (2 * k + 1) |} tbl)
  end.

(** The seeding loop of [init_db]; the schema script it runs before creates
    the tables of a new file and leaves the rows of an existing one. *)
Definition init_db (e : Env) (s : Store) : Store :=
  set_owners s (seed_owners e 0 seeds (owners s)).

Record OwnerRow : Type := {
  or_id : Id;
  or_system_key : string;
  or_display_name : string
}.

Definition get_owners (s : Store) : list OwnerRow :=
  List.map (fun o => {| or_id := ow_id o; or_system_key := ow_system_key o;
                        or_display_name := ow_display_name o |})
           (order_by (fun x y => Z.leb (ow_sort_order x) (ow_sort_order y)) (owners s)).

Definition rename_owner (e : Env) (owner : Id) (new_name : string) (s : Store)
    : Result Store :=
  let new_name := PyStr.strip new_name in
  if is_blank new_name then Raise (ValueError "Name cannot be empty.")
  else
    Ok (set_owners s
          (update_where (fun o => (ow_id o =? owner)%nat)
             (fun o =>
                {| ow_id := ow_id o; ow_system_key := ow_system_key o;
                   ow_display_name := new_name; ow_sort_order := ow_sort_order o;
                   ow_created_at := ow_created_at o; ow_updated_at := now e 0 |})
             (owners s))).

(** [WHERE lower(display_name)=lower(?) OR lower(system_key)=lower(?)] *)
Definition owner_matches (label : string) (o : Owner) : bool :=
  same_folded (ow_display_name o) label || same_folded (ow_system_key o) label.

Definition owner_id_from_label_or_key (label_or_key : string) (s : Store) : option Id :=
  let l := PyStr.strip label_or_key in
  if is_blank l then None
  else option_map ow_id (hd_error (List.filter (owner_matches l) (owners s))).

(** *** Categories *)

Record CategoryRow : Type := {
  cr_id : Id;
  cr_name : string;
  cr_active : bool
}.

Definition get_categories (active_only : bool) (s : Store) : list CategoryRow :=
  List.map (fun c => {| cr_id := cat_id c; cr_name := cat_name c;
                        cr_active := cat_active c |})
           (order_by (fun x y => not_gt (String.compare (cat_name x) (cat_name y)))
              (if active_only then List.filter cat_active (categories s)
               else categories s)).

(** [INSERT OR IGNORE INTO categories].

    Modelled from the spec: category names are unique case-insensitively
    ([schema.sql] is not among the sources). *)
Definition insert_or_ignore_category (r : Category) (tbl : list Category) : list Category :=
  if existsb (fun c => same_folded (cat_name c) (cat_name r)) tbl
  then tbl else tbl ++ [r].

Definition add_category (e : Env) (name : string) (s : Store) : Result Store :=
  let name := PyStr.strip name in
  if is_blank name then Raise (ValueError "Category name cannot be empty.")
  else
    Ok (set_categories s
          (insert_or_ignore_category
             {| cat_id := uid e 0; cat_name := name; cat_active := true;
                cat_created_at := now e 0; cat_updated_at := now e 1 |}
             (categories s))).

(** [get_or_create_category_id]: the identifier returned and the store
    left. *)
Definition get_or_create_category_id (e : Env) (name : string) (s : Store)
    : Result (Id * Store) :=
  let name := PyStr.strip name in
  if is_blank name then Raise (ValueError "Category name cannot be empty.")
  else
    match hd_error (List.filter (fun c => same_folded (cat_name c) name) (categories s)) with
    | Some row => Ok (cat_id row, s)
    | None =>
        let new_id := uid e 0 in
        Ok (new_id,
            set_categories s
              (categories s ++
               [ {| cat_id := new_id; cat_name := name; cat_active := true;
                    cat_created_at := now e 0; cat_updated_at := now e 1 |} ]))
    end.

Definition set_category_active (e : Env) (category : Id) (active : bool) (s : Store) : Store :=
  set_categories s
    (update_where (fun c => (cat_id c =? category)%nat)
       (fun c =>
          {| cat_id := cat_id c; cat_name := cat_name c; cat_active := active;
             cat_created_at := cat_created_at c; cat_updated_at := now e 0 |})
       (categories s)).

(** *** Bills *)

Definition add_bill (e : Env) (owner : Id) (name : string) (due_day : option Z)
    (default_amount : option Q) (s : Store) : Result Store :=
  let name := PyStr.strip name in
  if is_blank name then Raise (ValueError "Bill name cannot be empty.")
  else if match due_day with
          | Some d => negb ((1 <=? d)%Z && (d <=? 31)%Z)
          | None => false
          end
  then Raise (ValueError "Due day must be 1..31.")
  else
    Ok (set_bills s
          (bills s ++
           [ {| bill_id := uid e 0; bill_owner_id := owner; bill_name := name;
                bill_due_day := match due_day with
                                | Some d => if (d =? 0)%Z then None else Some d
                                | None => None
                                end;
                bill_default_amount := default_amount; bill_active := true;
                bill_created_at := now e 0; bill_updated_at := now e 1 |} ])).

Definition set_bill_active (e : Env) (bill : Id) (active : bool) (s : Store) : Store :=
  set_bills s
    (update_where (fun b => (bill_id b =? bill)%nat)
       (fun b =>
          {| bill_id := bill_id b; bill_owner_id := bill_owner_id b;
             bill_name := bill_name b; bill_due_day := bill_due_day b;
             bill_default_amount := bill_default_amount b; bill_active := active;
             bill_created_at := bill_created_at b; bill_updated_at := now e 0 |})
       (bills s)).

(** *** Accounts *)

Definition add_account (e : Env) (owner : Id) (name acc_type : string)
    (apr credit_limit start_balance : option Q) (s : Store) : Result Store :=
  let name := PyStr.strip name in
  if is_blank name then Raise (ValueError "Account name cannot be empty.")
  else if negb (String.eqb acc_type "CREDIT_CARD" || String.eqb acc_type "LOAN")
  then Raise (ValueError "Invalid account type.")
  else
    Ok (set_accounts s
          (accounts s ++
           [ {| acc_id := uid e 0; acc_owner_id := owner; acc_name := name;
                acc_type := acc_type; acc_apr := apr; acc_credit_limit := credit_limit;
                acc_start_balance := start_balance; acc_active := true;
                acc_created_at := now e 0; acc_updated_at := now e 1 |} ])).

(** *** The lists of bills, accounts and snapshots *)

Record BillRow : Type := {
  br_id : Id;
  br_name : string;
  br_due_day : option Z;
  br_default_amount : option Q;
  br_active : bool;
  br_owner_id : Id;
  br_owner : string
}.

(** [ORDER BY o.display_name, b.due_day, b.name] *)
Definition bill_order (x y : Bill * Owner) : bool :=
  not_gt (then_by (String.compare (ow_display_name (snd x)) (ow_display_name (snd y)))
         (then_by (option_compare Z.compare (bill_due_day (fst x)) (bill_due_day (fst y)))
                  (String.compare (bill_name (fst x)) (bill_name (fst y))))).

Definition bill_row (x : Bill * Owner) : BillRow :=
  {| br_id := bill_id (fst x); br_name := bill_name (fst x);
     br_due_day := bill_due_day (fst x);
     br_default_amount := bill_default_amount (fst x);
     br_active := bill_active (fst x); br_owner_id := bill_owner_id (fst x);
     br_owner := ow_display_name (snd x) |}.

Definition get_bills (active_only : bool) (s : Store) : list BillRow :=
  let j := inner_join (bills s) (owners s)
             (fun b o => (ow_id o =? bill_owner_id b)%nat) in
  List.map bill_row
    (order_by bill_order
       (if active_only then List.filter (fun x => bill_active (fst x)) j else j)).

Record AccountRow : Type := {
  ar_id : Id;
  ar_name : string;
  ar_type : string;
  ar_apr : option Q;
  ar_credit_limit : option Q;
  ar_start_balance : option Q;
  ar_active : bool;
  ar_owner_id : Id;
  ar_owner : string
}.

(** [ORDER BY o.display_name, a.type, a.name] *)
Definition account_order (x y : Account * Owner) : bool :=
  not_gt (then_by (String.compare (ow_display_name (snd x)) (ow_display_name (snd y)))
         (then_by (String.compare (acc_type (fst x)) (acc_type (fst y)))
                  (String.compare (acc_name (fst x)) (acc_name (fst y))))).

Definition account_row (x : Account * Owner) : AccountRow :=
  {| ar_id := acc_id (fst x); ar_name := acc_name (fst x); ar_type := acc_type (fst x);
     ar_apr := acc_apr (fst x); ar_credit_limit := acc_credit_limit (fst x);
     ar_start_balance := acc_start_balance (fst x); ar_active := acc_active (fst x);
     ar_owner_id := acc_owner_id (fst x); ar_owner := ow_display_name (snd x) |}.

Definition get_accounts (active_only : bool) (s : Store) : list AccountRow :=
  let j := inner_join (accounts s) (owners s)
             (fun a o => (ow_id o =? acc_owner_id a)%nat) in
  List.map account_row
    (order_by account_order
       (if active_only then List.filter (fun x => acc_active (fst x)) j else j)).

Record SnapshotRow : Type := {
  sr_owner : string;
  sr_account : string;
  sr_type : string;
  sr_month : string;
  sr_balance : Q;
  sr_payment : Q;
  sr_credit_limit : option Q;
  sr_start_balance : option Q;
  sr_account_id : Id
}.

(** [ORDER BY o.display_name, a.name, s.month] *)
Definition snapshot_order (x y : AccountSnapshot * Account * Owner) : bool :=
  let '(r1, a1, o1) := x in
  let '(r2, a2, o2) := y in
  not_gt (then_by (String.compare (ow_display_name o1) (ow_display_name o2))
         (then_by (String.compare (acc_name a1) (acc_name a2))
                  (String.compare (snap_month r1) (snap_month r2)))).

Definition snapshot_row (x : AccountSnapshot * Account * Owner) : SnapshotRow :=
  let '(r, a, o) := x in
  {| sr_owner := ow_display_name o; sr_account := acc_name a; sr_type := acc_type a;
     sr_month := snap_month r; sr_balance := snap_balance r;
     sr_payment := snap_payment r; sr_credit_limit := acc_credit_limit a;
     sr_start_balance := acc_start_balance a; sr_account_id := acc_id a |}.

Definition get_snapshots (s : Store) : list SnapshotRow :=
  let j1 := inner_join (account_snapshots s) (accounts s)
              (fun r a => (acc_id a =? snap_account_id r)%nat) in
  let j2 := inner_join j1 (owners s)
              (fun ra o => (ow_id o =? acc_owner_id (snd ra))%nat) in
  List.map snapshot_row
    (order_by snapshot_order (List.filter (fun x => acc_active (snd (fst x))) j2)).

(** *** Months *)

(** [LIMIT n]: a negative [n] is no limit. *)
Definition sql_limit {A : Type} (n : Z) (l : list A) : list A :=
  if (n <? 0)%Z then l else firstn (Z.to_nat n) l.

(** The rows of the [months] common table expression of [get_known_months],
    before [UNION] removes the duplicates.  The [income] table is not part of
    the store of the other operations; its month column is an argument. *)
Definition month_columns (income_months : list string) (s : Store) : list string :=
  List.map (fun t => PyStr.prefix 7 (txn_date t))
           (List.filter (fun t => is_null (txn_deleted_at t)) (transactions s))
  ++ List.map bud_month (budgets s)
  ++ List.map bp_month (bill_payments s)
  ++ List.map snap_month (account_snapshots s)
  ++ income_months
  ++ List.map mc_month (month_closings s).

Definition get_known_months (limit : Z) (income_months : list string) (s : Store)
    : list string :=
  sql_limit limit
    (order_by (fun x y => not_gt (String.compare y x))
       (List.filter (fun m => (String.length m =? 7)%nat)
          (distinct String.eqb (month_columns income_months s)))).

(** [is_first_run] *)
Definition is_first_run (s : Store) : bool :=
  (List.length (categories s) =? 0)%nat && (List.length (bills s) =? 0)%nat
  && (List.length (accounts s) =? 0)%nat && (List.length (transactions s) =? 0)%nat.

Record ClosingRow : Type := {
  cl_month : string;
  cl_closed_at : Timestamp;
  cl_note : option string
}.

Definition get_month_closings (s : Store) : list ClosingRow :=
  List.map (fun r => {| cl_month := mc_month r; cl_closed_at := mc_closed_at r;
                        cl_note := mc_note r |})
           (order_by (fun x y => not_gt (String.compare (mc_month y) (mc_month x)))
              (month_closings s)).

(** ** Reference points for the statements *)

(** The store once the service call [w] has returned or raised. *)
Definition commit (w : Store -> Result Store) (s : Store) : Store := after (w s) s.

Definition empty_store : Store :=
  {| owners := []; categories := []; bills := []; bill_payments := [];
     accounts := []; account_snapshots := []; transactions := [];
     budgets := []; month_closings := [] |}.

(** The store with the transaction [txn] removed for good. *)
Definition without_transaction (txn : Id) (s : Store) : Store :=
  set_transactions s
    (List.filter (fun t => negb (txn_id t =? txn)%nat) (transactions s)).

(** *** Planned versus actual, as the specification words it *)

(** The budget's planned amount, or 0 if absent. *)
Definition planned_for (month : string) (o c : Id) (s : Store) : Q :=
  match List.filter (bud_key_eqb month o c) (budgets s) with
  | b :: _ => bud_planned_amount b
  | [] => 0%Q
  end.

(** The sum of the amounts of the non-deleted transactions of that owner,
    category and month (0 if there are none). *)
Definition actual_for (month : string) (o c : Id) (s : Store) : Q :=
  Qsum (List.map txn_amount
          (List.filter (fun t =>
                          is_null (txn_deleted_at t)
                          && String.eqb (PyStr.prefix 7 (txn_date t)) month
                          && (txn_owner_id t =? o)%nat
                          && (txn_category_id t =? c)%nat)
                       (transactions s))).

(** The amounts of the non-deleted transactions of that owner, category
    and month. *)
Definition actual_amounts (month : string) (o c : Id) (s : Store) : list Q :=
  List.map txn_amount
    (List.filter (fun t =>
                    is_null (txn_deleted_at t)
                    && String.eqb (PyStr.prefix 7 (txn_date t)) month
                    && (txn_owner_id t =? o)%nat
                    && (txn_category_id t =? c)%nat)
                 (transactions s)).

(** Their sum as SQLite forms it, or 0 if there are none. *)
Definition actual_total (month : string) (o c : Id) (s : Store) : Real :=
  match actual_amounts month o c s with
  | [] => Val 0
  | l => Sum l
  end.

(** The row of one (owner, category) pair: the planned amount, the actual
    rounded to two decimals, and planned minus actual rounded to two
    decimals. *)
Definition pva_row_for (month : string) (s : Store) (oc : Owner * Category) : PvaRow :=
  let '(o, c) := oc in
  {| pva_owner := ow_display_name o;
     pva_category := cat_name c;
     pva_planned := planned_for month (ow_id o) (cat_id c) s;
     pva_actual := Round (actual_total month (ow_id o) (cat_id c) s) 2;
     pva_variance :=
       Round (Minus (Val (planned_for month (ow_id o) (cat_id c) s))
                    (actual_total month (ow_id o) (cat_id c) s)) 2 |}.

(** The row of a pair without budget and without transactions. *)
Definition zero_row (oc : Owner * Category) : PvaRow :=
  {| pva_owner := ow_display_name (fst oc);
     pva_category := cat_name (snd oc);
     pva_planned := 0;
     pva_actual := Round (Val 0) 2;
     pva_variance := Round (Minus (Val 0) (Val 0)) 2 |}.

(** The double an expression stands for, given the results of [SUM] and
    [ROUND] on doubles; the subtraction is that of IEEE. *)
Fixpoint eval (sum : list double -> double) (round : double -> nat -> double)
    (x : Real) : double :=
  match x with
  | Val q => Double.of_Q q
  | Sum l => sum (List.map Double.of_Q l)
  | Minus a b => Double.sub (eval sum round a) (eval sum round b)
  | Round a d => round (eval sum round a) d
  end.

(** Owner sort order first, category name second. *)
Definition pva_pair_order (x y : Owner * Category) : bool :=
  not_gt (pva_compare (fst x) (snd x) (fst y) (snd y)).

(** *** Debt progress, as the specification words it *)

(** The snapshot of the account for exactly the requested month. *)
Definition current_snapshot (a : Id) (month : string) (s : Store) : option AccountSnapshot :=
  hd_error (List.filter (snap_key_eqb a month) (account_snapshots s)).

(** [p] is the snapshot of the account with the greatest month strictly
    below [month], or is absent when the account has no snapshot below
    [month]. *)
Definition previous_snapshot_of (a : Id) (month : string) (s : Store)
    (p : option AccountSnapshot) : Prop :=
  match p with
  | Some r =>
      In r (account_snapshots s) /\ snap_account_id r = a
      /\ String.ltb (snap_month r) month = true
      /\ forall r', In r' (account_snapshots s) -> snap_account_id r' = a ->
                    String.ltb (snap_month r') month = true ->
                    String.leb (snap_month r') (snap_month r) = true
  | None =>
      forall r', In r' (account_snapshots s) -> snap_account_id r' = a ->
                 String.ltb (snap_month r') month = false
  end.

(** 100 * current_balance / credit_limit, computed on doubles and rounded
    to one decimal; null unless the limit is positive and a current balance
    exists. *)
Definition utilization_spec (limit curr : option Q) : option double :=
  match limit, curr with
  | Some lim, Some cb =>
      if is_positive lim
      then Some (py_round 1
                   (Double.div (Double.mul (Double.of_Q 100) (Double.of_Q cb))
                               (Double.of_Q lim)))
      else None
  | _, _ => None
  end.

(** 100 * (start_balance - current_balance) / start_balance, computed on
    doubles and rounded to one decimal; null unless the start balance is
    positive and a current balance exists. *)
Definition payoff_spec (start curr : option Q) : option double :=
  match start, curr with
  | Some sb, Some cb =>
      if is_positive sb
      then Some (py_round 1
                   (Double.div
                      (Double.mul (Double.of_Q 100)
                         (Double.sub (Double.of_Q sb) (Double.of_Q cb)))
                      (Double.of_Q sb)))
      else None
  | _, _ => None
  end.

(** current_balance - previous_balance, computed on doubles and rounded to
    two decimals; null if either side is missing. *)
Definition delta_spec (curr prev : option Q) : option double :=
  match curr, prev with
  | Some cb, Some pb => Some (py_round 2 (Double.sub (Double.of_Q cb) (Double.of_Q pb)))
  | _, _ => None
  end.

Definition progress_view_spec (r : ProgressRow) : ProgressView :=
  {| pv_row := r;
     pv_utilization := utilization_spec (pr_credit_limit r) (pr_curr_balance r);
     pv_payoff := payoff_spec (pr_start_balance r) (pr_curr_balance r);
     pv_balance_delta := delta_spec (pr_curr_balance r) (pr_prev_balance r) |}.

(** The row the second left join of [latest_snapshot_by_account] attaches
    to an account. *)
Definition previous_snapshot (a : Id) (month : string) (s : Store) : option AccountSnapshot :=
  match prev_month a month s with
  | Some pm => hd_error (List.filter (snap_key_eqb a pm) (account_snapshots s))
  | None => None
  end.

Definition progress_row_for (month : string) (s : Store) (ao : Account * Owner) : ProgressRow :=
  let '(a, o) := ao in
  let c := current_snapshot (acc_id a) month s in
  let p := previous_snapshot (acc_id a) month s in
  {| pr_owner := ow_display_name o; pr_account := acc_name a;
     pr_type := acc_type a; pr_apr := acc_apr a;
     pr_credit_limit := acc_credit_limit a;
     pr_start_balance := acc_start_balance a;
     pr_account_id := acc_id a;
     pr_curr_balance := option_map snap_balance c;
     pr_curr_payment := option_map snap_payment c;
     pr_prev_balance := option_map snap_balance p;
     pr_prev_payment := option_map snap_payment p |}.

(** [ORDER BY o.display_name, a.type, a.name] on (account, owner) pairs. *)
Definition progress_pair_order (x y : Account * Owner) : bool :=
  not_gt (then_by (String.compare (ow_display_name (snd x)) (ow_display_name (snd y)))
         (then_by (String.compare (acc_type (fst x)) (acc_type (fst y)))
                  (String.compare (acc_name (fst x)) (acc_name (fst y))))).

(** What the view [v] must say about the account [a]. *)
Definition progress_view_for (month : string) (s : Store) (a : Account)
    (v : ProgressView) : Prop :=
  let r := pv_row v in
  let curr := option_map snap_balance (current_snapshot (acc_id a) month s) in
  pr_account_id r = acc_id a
  /\ pr_credit_limit r = acc_credit_limit a
  /\ pr_start_balance r = acc_start_balance a
  /\ pr_curr_balance r = curr
  /\ (exists p, previous_snapshot_of (acc_id a) month s p
                /\ pr_prev_balance r = option_map snap_balance p)
  /\ pv_utilization v = utilization_spec (acc_credit_limit a) curr
  /\ pv_payoff v = payoff_spec (acc_start_balance a) curr
  /\ pv_balance_delta v = delta_spec curr (pr_prev_balance r).

(** *** The gated writes *)

(** The shape the Add Expense, Budgets, Bills Due and Snapshots tabs share:
    the confirm bar and the write it releases, then the save button, which
    arms the bar when the month is closed and writes when it is open. *)
Definition gate_shape (on_confirm on_save : Script unit) (ev : Event)
    (month action_key save_key : string) : Script unit :=
  let* confirmed := confirm_bar_if_pending ev month action_key in
  (if confirmed then on_confirm else ret tt) ;;;
  if button ev save_key then
    let* closed := month_closed month in
    (if closed then arm_two_step_if_closed month action_key ;;; st_rerun
     else ret tt) ;;;
    on_save
  else ret tt.

(** The five gated writes, with the values of their forms. *)
Inductive GatedWrite : Type :=
| AddExpense (d : Date) (owner category : Id) (amt : Q) (desc : string)
| SaveBudget (selected : string) (owner category : Id) (planned : Q)
| SaveBillPayment (selected : string) (bill : Id) (paid : bool) (paid_amount : Q)
    (paid_date : Date) (note : string)
| SaveSnapshot (selected : string) (account : Id) (bal pay : Q)
| ImportCsv (prepared_rows : list TxnInput).

(** The service call a gated write makes. *)
Definition write_of (g : GatedWrite) (e : Env) : Store -> Result Store :=
  match g with
  | AddExpense d owner category amt desc =>
      add_transaction e (isoformat d) owner category amt desc
  | SaveBudget selected owner category planned =>
      upsert_budget e (PyStr.strip selected) owner category planned
  | SaveBillPayment selected bill paid paid_amount paid_date note =>
      fun s => Ok (set_bill_paid e (PyStr.strip selected) bill paid
                     (if paid then Some paid_amount else None)
                     (if paid then Some (isoformat paid_date) else None)
                     (Some note) s)
  | SaveSnapshot selected account bal pay =>
      upsert_snapshot e account (PyStr.strip selected) bal pay
  | ImportCsv prepared_rows =>
      fun s => Ok (bulk_add_transactions e prepared_rows s)
  end.

(** One run of the tab that hosts the write. *)
Definition run_tab (g : GatedWrite) (e : Env) (ev : Event) : Script unit :=
  match g with
  | AddExpense d owner category amt desc =>
      add_expense_tab e ev d owner category amt desc
  | SaveBudget selected owner category planned =>
      budgets_tab e ev selected owner category planned
  | SaveBillPayment selected bill paid paid_amount paid_date note =>
      bills_tab e ev selected bill paid paid_amount paid_date note
  | SaveSnapshot selected account bal pay =>
      snapshots_tab e ev selected account bal pay
  | ImportCsv prepared_rows => csv_import e ev prepared_rows
  end.

(** Whether the write targets a closed month. *)
Definition target_closed (g : GatedWrite) (s : Store) : bool :=
  match g with
  | AddExpense d _ _ _ _ => is_month_closed (PyStr.prefix 7 (isoformat d)) s
  | SaveBudget selected _ _ _ => is_month_closed (PyStr.strip selected) s
  | SaveBillPayment selected _ _ _ _ _ => is_month_closed (PyStr.strip selected) s
  | SaveSnapshot selected _ _ _ => is_month_closed (PyStr.strip selected) s
  | ImportCsv prepared_rows =>
      existsb (fun mm => is_month_closed mm s) (months_touched prepared_rows)
  end.

(** The button that asks for the write; the import shows one button when a
    touched month is closed and another when none is. *)
Definition save_button (g : GatedWrite) (closed : bool) : string :=
  match g with
  | AddExpense _ _ _ _ _ => "Save expense"
  | SaveBudget _ _ _ _ => "bud_save"
  | SaveBillPayment _ _ _ _ _ _ => "bill_save"
  | SaveSnapshot _ _ _ _ => "snap_save"
  | ImportCsv _ => if closed then "csv_import_btn" else "csv_import_btn2"
  end.

(** The button that confirms it. *)
Definition confirm_button (g : GatedWrite) : string :=
  match g with
  | AddExpense d _ _ _ _ => confirm_key "add_expense" (PyStr.prefix 7 (isoformat d))
  | SaveBudget selected _ _ _ => confirm_key "save_budget" (PyStr.strip selected)
  | SaveBillPayment selected _ _ _ _ _ =>
      confirm_key "save_bill_payment" (PyStr.strip selected)
  | SaveSnapshot selected _ _ _ => confirm_key "save_snapshot" (PyStr.strip selected)
  | ImportCsv _ => "csv_confirm"
  end.

(** The session flag that records a pending confirmation. *)
Definition pending_flag (g : GatedWrite) : string :=
  match g with
  | AddExpense d _ _ _ _ => pending_key "add_expense" (PyStr.prefix 7 (isoformat d))
  | SaveBudget selected _ _ _ => pending_key "save_budget" (PyStr.strip selected)
  | SaveBillPayment selected _ _ _ _ _ =>
      pending_key "save_bill_payment" (PyStr.strip selected)
  | SaveSnapshot selected _ _ _ => pending_key "save_snapshot" (PyStr.strip selected)
  | ImportCsv prepared_rows => csv_pending_key prepared_rows
  end.

Definition is_pending (g : GatedWrite) (a : App) : bool :=
  default false (session_state a !! pending_flag g).

(** The application after one run of the tab. *)
Definition after_run (g : GatedWrite) (e : Env) (ev : Event) (a : App) : App :=
  snd (run_tab g e ev a).

(** *** Reference points for the remaining operations *)

(** The environment as the calls after the first [k] inserts of a loop see
    it: each insert draws one identifier and two timestamps. *)
Definition later (k : nat) (e : Env) : Env :=
  {| uid := fun i => uid e (k + i); now := fun i => now e (2 * k + i) |}.

(** The cancel button of the confirmation bar. *)
Definition cancel_button (g : GatedWrite) : string :=
  match g with
  | AddExpense d _ _ _ _ => cancel_key "add_expense" (PyStr.prefix 7 (isoformat d))
  | SaveBudget selected _ _ _ => cancel_key "save_budget" (PyStr.strip selected)
  | SaveBillPayment selected _ _ _ _ _ =>
      cancel_key "save_bill_payment" (PyStr.strip selected)
  | SaveSnapshot selected _ _ _ => cancel_key "save_snapshot" (PyStr.strip selected)
  | ImportCsv _ => "csv_cancel"
  end.

(** The store without the category [c]. *)
Definition without_category (c : Id) (s : Store) : Store :=
  set_categories s (List.filter (fun x => negb (cat_id x =? c)%nat) (categories s)).

(** A due day the bills table may hold: none, or a day of a month. *)
Definition due_day_ok (d : option Z) : Prop :=
  match d with
  | Some x => (1 <= x <= 31)%Z
  | None => True
  end.

(** The row of the debt view once the month's snapshot reads [b] and [p]. *)
Definition with_current (b p : Q) (r : ProgressRow) : ProgressRow :=
  {| pr_owner := pr_owner r; pr_account := pr_account r; pr_type := pr_type r;
     pr_apr := pr_apr r; pr_credit_limit := pr_credit_limit r;
     pr_start_balance := pr_start_balance r; pr_account_id := pr_account_id r;
     pr_curr_balance := Some b; pr_curr_payment := Some p;
     pr_prev_balance := pr_prev_balance r; pr_prev_payment := pr_prev_payment r |}.


(** ** CSV import: the uploaded frame (app.py)

    Both calls of [bulk_add_transactions] are made from the import of an
    uploaded CSV file, on the rows prepared from its frame. *)

(** A row of [df_norm]: the stripped text columns, and the number
    [to_amount] read as amount, [None] where [isna()] holds. *)
Record CsvRow : Type := {
  csv_txn_date : string;
  csv_owner : string;
  csv_category : string;
  csv_amount : option Q;
  csv_description : string
}.

(** [df_norm[~df_norm["txn_date"].str.match(r"^\d{4}-\d{2}-\d{2}$", na=False)]],
    for the test [is_date] the pattern makes on a string. *)
Definition bad_date (is_date : string -> bool) (df_norm : list CsvRow) : list CsvRow :=
  List.filter (fun r => negb (is_date (csv_txn_date r))) df_norm.

(** [df_norm[df_norm["amount"].isna() | (df_norm["amount"] <= 0)]] *)
Definition bad_amt (df_norm : list CsvRow) : list CsvRow :=
  List.filter (fun r => match csv_amount r with
                        | None => true
                        | Some x => Qle_bool x 0
                        end) df_norm.

(** The [for _, r in df_norm.iterrows()] loop: the unresolved owners and
    the prepared rows.  [get_or_create_category_id] commits the category it
    creates, drawing one identifier and two timestamps, and its
    [ValueError] ends the run.  The loop runs on frames where [bad_amt] is
    empty; a missing amount, which it never meets, has no counterpart among
    the amounts of a prepared row and ends the run here. *)
Fixpoint csv_prepare (e : Env) (df_norm : list CsvRow) (a : App) {struct df_norm}
    : Flow (list string * list TxnInput) * App :=
  match df_norm with
  | [] => (Next ([], []), a)
  | r :: rest =>
      match owner_id_from_label_or_key (csv_owner r) (db a) with
      | None =>
          match csv_prepare e rest a with
          | (Next (unresolved_owners, prepared_rows), a') =>
              (Next (csv_owner r :: unresolved_owners, prepared_rows), a')
          | out => out
          end
      | Some owner_id =>
          match get_or_create_category_id e (csv_category r) (db a) with
          | Raise x => (Failed x, a)
          | Ok (cat_id, s') =>
              let e' :=
                if (length (categories s') =? length (categories (db a)))%nat
                then e else later 1 e in
              let a' := {| db := s'; session_state := session_state a |} in
              match csv_amount r with
              | None => (Failed (ValueError "amount"), a')
              | Some amount =>
                  match csv_prepare e' rest a' with
                  | (Next (unresolved_owners, prepared_rows), a'') =>
                      (Next (unresolved_owners,
                             {| in_txn_date := csv_txn_date r; in_owner_id := owner_id;
                                in_category_id := cat_id; in_amount := amount;
                                in_description := Some (csv_description r) |}
                             :: prepared_rows), a'')
                  | out => out
                  end
              end
          end
      end
  end.

(** What one run of the import shows. *)
Inductive CsvReport : Type :=
| BadRows (bad_date bad_amt : list CsvRow)
| UnresolvedOwners (owners : list string)
| Preview (prepared_rows : list TxnInput).

(** The import of an uploaded frame: the two [st.error] reports, and, when
    both are empty, the loop and the import buttons. *)
Definition csv_upload (is_date : string -> bool) (e : Env) (ev : Event)
    (df_norm : list CsvRow) : Script CsvReport :=
  fun a =>
    match bad_date is_date df_norm, bad_amt df_norm with
    | [], [] =>
        match csv_prepare e df_norm a with
        | (Next (unresolved_owners, prepared_rows), a') =>
            match unresolved_owners with
            | _ :: _ =>
                (Next (UnresolvedOwners
                         (order_by String.leb (distinct String.eqb unresolved_owners))), a')
            | [] =>
                let created := (length (categories (db a')) - length (categories (db a)))%nat in
                (csv_import (later created e) ev prepared_rows ;;;
                 ret (Preview prepared_rows)) a'
            end
        | (Rerun, a') => (Rerun, a')
        | (Failed x, a') => (Failed x, a')
        end
    | bd, ba => (Next (BadRows bd ba), a)
    end.

(** *** The amount column of the transactions table *)



(** A small household used to run the definitions. *)
Module Sample.

Definition env : Env :=
  {| uid := fun k => (100 + k)%nat; now := fun k => (1000 + k)%nat |}.

Definition env' : Env :=
  {| uid := fun k => (200 + k)%nat; now := fun k => (2000 + k)%nat |}.

Definition owner (i : Id) (key name : string) (order : Z) : Owner :=
  {| ow_id := i; ow_system_key := key; ow_display_name := name;
     ow_sort_order := order; ow_created_at := 0; ow_updated_at := 0 |}.

Definition category (i : Id) (name : string) (active : bool) : Category :=
  {| cat_id := i; cat_name := name; cat_active := active;
     cat_created_at := 0; cat_updated_at := 0 |}.

Definition bill (i o : Id) (name : string) (active : bool) : Bill :=
  {| bill_id := i; bill_owner_id := o; bill_name := name;
     bill_due_day := Some 5%Z; bill_default_amount := Some 10%Q;
     bill_active := active; bill_created_at := 0; bill_updated_at := 0 |}.

Definition account (i o : Id) (name : string) (limit start : option Q) : Account :=
  {| acc_id := i; acc_owner_id := o; acc_name := name; acc_type := "CREDIT_CARD";
     acc_apr := None; acc_credit_limit := limit; acc_start_balance := start;
     acc_active := true; acc_created_at := 0; acc_updated_at := 0 |}.

Definition snapshot (i a : Id) (m : string) (balance : Q) : AccountSnapshot :=
  {| snap_id := i; snap_account_id := a; snap_month := m; snap_balance := balance;
     snap_payment := 0%Q; snap_created_at := 0; snap_updated_at := 0 |}.

Definition txn (i : Id) (date : string) (o c : Id) (amount : Q) : Transaction :=
  {| txn_id := i; txn_date := date; txn_owner_id := o; txn_category_id := c;
     txn_description := "x"; txn_amount := amount; txn_created_at := 0;
     txn_updated_at := 0; txn_deleted_at := None |}.

Definition household : Store :=
  {| owners := [ owner 1 "shared" "Shared" 0; owner 2 "person_1" "Person 1" 1;
                 owner 3 "person_2" "Person 2" 2 ];
     categories := [ category 10 "Groceries" true; category 11 "Dining" true;
                     category 12 "Old" false ];
     bills := [ bill 20 1 "Rent" true; bill 21 2 "Gym" false; bill 22 3 "Net" true ];
     bill_payments := [];
     accounts := [ account 30 1 "A" (Some 500%Q) (Some 1000%Q);
                   account 31 2 "B" None None ];
     account_snapshots := [ snapshot 40 30 "2026-01" 400%Q;
                            snapshot 41 30 "2025-12" 600%Q;
                            snapshot 42 30 "2025-10" 700%Q ];
     transactions := [ txn 50 "2026-01-15" 1 10 (1234 # 100);
                       txn 51 "2026-01-20" 1 10 (1 # 3);
                       txn 52 "2026-02-01" 2 11 8%Q ];
     budgets := [];
     month_closings := [] |}.

Definition import_row (date : string) (amount : Q) : TxnInput :=
  {| in_txn_date := date; in_owner_id := 1; in_category_id := 10;
     in_amount := amount; in_description := None |}.

(** The household after January 2026 has been closed. *)
Definition closed_household : Store :=
  commit (close_month env "2026-01" None) household.

Definition start : App := {| db := closed_household; session_state := ∅ |}.

Definition expense : GatedWrite :=
  AddExpense {| year := 2026; month_of_year := 1; day := 9 |} 1 10 25%Q "bread".

Definition import : GatedWrite :=
  ImportCsv [ import_row "2026-01-03" 4%Q; import_row "2026-02-03" 5%Q ].

Definition csv_row (date category : string) (amount : option Q) : CsvRow :=
  {| csv_txn_date := date; csv_owner := "shared"; csv_category := category;
     csv_amount := amount; csv_description := "" |}.


Definition frame : list CsvRow :=
  [ csv_row "2026-02-03" "Groceries" (Some 4%Q); csv_row "2026-02-15" "Travel" (Some 5%Q) ].

End Sample.

(** * Properties *)

(** ** Strings *)

Section StringFacts.
Import PyStr.

Lemma digit_not_space (c : ascii) : is_digit c = true -> is_space c = false.
Proof.
  unfold is_digit, is_space. cbv zeta.
  generalize (nat_of_ascii c). intros n H.
  apply andb_true_iff in H as [H1 H2].
  apply Nat.leb_le in H1. apply Nat.leb_le in H2.
  repeat match goal with
         | |- context [(?a <=? ?b)%nat] => destruct (Nat.leb_spec a b)
         | |- context [(?a =? ?b)%nat] => destruct (Nat.eqb_spec a b)
         end; simpl; try reflexivity; lia.
Qed.

Lemma digit_is_digit (n : nat) : is_digit (digit n) = true.
Proof.
  unfold is_digit, digit. cbv zeta.
  assert (Hlt : (n mod 10 < 10)%nat) by (apply Nat.mod_upper_bound; lia).
  rewrite nat_ascii_embedding by lia.
  apply andb_true_iff. split; apply Nat.leb_le; lia.
Qed.

Lemma rstrip_idem (s : string) : rstrip (rstrip s) = rstrip s.
Proof.
  induction s as [|c s IH]; simpl; [reflexivity|].
  destruct (rstrip s) as [|c' r] eqn:E.
  - destruct (is_space c) eqn:Hc; simpl; [reflexivity|].
    rewrite Hc. reflexivity.
  - simpl. simpl in IH. rewrite IH. reflexivity.
Qed.

Lemma lstrip_head (s : string) :
  lstrip s = "" \/ exists c t, lstrip s = String c t /\ is_space c = false.
Proof.
  induction s as [|c s IH]; simpl.
  - left. reflexivity.
  - destruct (is_space c) eqn:Hc; [exact IH|].
    right. exists c, s. split; [reflexivity | exact Hc].
Qed.

Lemma rstrip_keeps_head (c : ascii) (t : string) :
  is_space c = false -> exists r, rstrip (String c t) = String c r.
Proof.
  intros Hc. simpl. destruct (rstrip t) as [|c' r].
  - rewrite Hc. exists "". reflexivity.
  - exists (String c' r). reflexivity.
Qed.

Lemma strip_idem (s : string) : strip (strip s) = strip s.
Proof.
  unfold strip.
  destruct (lstrip_head s) as [E | (c & t & E & Hc)]; rewrite E.
  - reflexivity.
  - destruct (rstrip_keeps_head c t Hc) as [r Hr]. rewrite Hr.
    simpl lstrip. rewrite Hc. rewrite <- Hr. apply rstrip_idem.
Qed.

Lemma yyyy_mm_stripped (m : string) : is_yyyy_mm m = true -> strip m = m.
Proof.
  destruct m as [|y1 [|y2 [|y3 [|y4 [|d [|m1 [|m2 [|x m]]]]]]]];
    cbn [is_yyyy_mm]; try discriminate.
  intros H. do 6 (apply andb_true_iff in H as [H ?]).
  unfold strip. simpl lstrip.
  rewrite (digit_not_space y1) by assumption.
  simpl. rewrite (digit_not_space m2) by assumption. reflexivity.
Qed.

Lemma yyyy_mm_passes (m : string) : is_yyyy_mm m = true -> month_check_fails m = false.
Proof.
  destruct m as [|y1 [|y2 [|y3 [|y4 [|d [|m1 [|m2 [|x m]]]]]]]];
    cbn [is_yyyy_mm]; try discriminate.
  intros H. do 6 (apply andb_true_iff in H as [H ?]).
  unfold month_check_fails. simpl.
  match goal with Hd : Ascii.eqb d _ = true |- _ => rewrite Hd end. reflexivity.
Qed.

Lemma txn_month_yyyy_mm (d : Date) : is_yyyy_mm (prefix 7 (isoformat d)) = true.
Proof.
  unfold prefix, isoformat. cbn [substring is_yyyy_mm].
  rewrite !digit_is_digit. reflexivity.
Qed.

End StringFacts.

(** ** update_bill_amount_and_recurring *)

Lemma get_db_unbound : load_global "get_db" = Raise (NameError "get_db").
Proof. reflexivity. Qed.

(** C10.  Whatever the arguments and the stored state, a call of
    [update_bill_amount_and_recurring] raises (the name [get_db] is not
    bound) and leaves the store as it was; no call returns. *)
Theorem update_bill_amount_and_recurring_raises :
  forall (bill : Id) (planned_amount : Q) (recurring : bool) (s : Store),
    update_bill_amount_and_recurring bill planned_amount recurring s
      = Raise (NameError "get_db")
    /\ commit (update_bill_amount_and_recurring bill planned_amount recurring) s = s
    /\ (forall s', update_bill_amount_and_recurring bill planned_amount recurring s <> Ok s').
Proof.
  intros bill planned_amount recurring s.
  assert (E : update_bill_amount_and_recurring bill planned_amount recurring s
              = Raise (NameError "get_db")).
  { unfold update_bill_amount_and_recurring. rewrite get_db_unbound. reflexivity. }
  split; [exact E|]. split.
  - unfold commit. rewrite E. reflexivity.
  - intros s' H. rewrite E in H. discriminate.
Qed.

(** ** Amounts of stored transactions *)



(** ** The month argument *)

(** C4, counterexample.  A string that is not of the shape YYYY-MM is
    accepted when it has seven characters with a dash in fifth place, and
    surrounding white space is removed before the test, so that a padded
    month is stored in its stripped form. *)
Lemma month_shape_counterexample :
  is_yyyy_mm "abcd-ef" = false
  /\ (exists rows, planned_vs_actual "abcd-ef" Sample.household = Ok rows
                   /\ List.length rows = 6%nat)
  /\ List.map bud_month
       (budgets (commit (upsert_budget Sample.env "abcd-ef" 1 10 5%Q) Sample.household))
     = ["abcd-ef"]
  /\ List.map snap_month
       (account_snapshots
          (commit (upsert_snapshot Sample.env 30 "abcd-ef" 5%Q 1%Q) Sample.household))
     = ["2026-01"; "2025-12"; "2025-10"; "abcd-ef"]
  /\ List.map mc_month
       (month_closings (commit (close_month Sample.env "abcd-ef" None) Sample.household))
     = ["abcd-ef"]
  /\ is_yyyy_mm " 2026-01 " = false
  /\ List.map bud_month
       (budgets (commit (upsert_budget Sample.env " 2026-01 " 1 10 5%Q) Sample.household))
     = ["2026-01"].
Proof.
  split; [reflexivity|]. split; [eexists; split; reflexivity|].
  repeat split; reflexivity.
Qed.

(** C4, amended.  When the month argument, stripped of surrounding white
    space, does not have seven characters with ["-"] as its fifth, each of
    [planned_vs_actual], [upsert_budget], [upsert_snapshot] and
    [close_month] raises the validation error and the store is as before. *)
Theorem month_check_rejects :
  forall (e : Env) (m : string) (o c a : Id) (v bal pay : Q) (note : option string)
         (s : Store),
    month_check_fails (PyStr.strip m) = true ->
    planned_vs_actual m s = Raise (ValueError "Month must be YYYY-MM.")
    /\ upsert_budget e m o c v s = Raise (ValueError "Month must be YYYY-MM.")
    /\ commit (upsert_budget e m o c v) s = s
    /\ upsert_snapshot e a m bal pay s = Raise (ValueError "Month must be YYYY-MM.")
    /\ commit (upsert_snapshot e a m bal pay) s = s
    /\ close_month e m note s = Raise (ValueError "Month must be YYYY-MM.")
    /\ commit (close_month e m note) s = s.
Proof.
  intros e m o c a v bal pay note s H.
  unfold commit, planned_vs_actual, upsert_budget, upsert_snapshot, close_month.
  rewrite H. repeat split; reflexivity.
Qed.

Lemma month_check_rejects_witness :
  planned_vs_actual "2026/01" Sample.household = Raise (ValueError "Month must be YYYY-MM.")
  /\ commit (upsert_budget Sample.env "2026/01" 1 10 5%Q) Sample.household = Sample.household.
Proof.
  destruct (month_check_rejects Sample.env "2026/01" 1 10 30 5%Q 5%Q 1%Q None
              Sample.household eq_refl) as (H1 & _ & H2 & _).
  split; [exact H1 | exact H2].
Defined.

(** A month that passes the test is used in its stripped form. *)
Lemma month_check_accepts (e : Env) (m : string) (o c : Id) (v : Q) (s : Store) :
  month_check_fails (PyStr.strip m) = false ->
  exists s', upsert_budget e m o c v s = Ok s'.
Proof.
  intros H. unfold upsert_budget. rewrite H. eexists. reflexivity.
Qed.

(** ** Tables *)

Section TableFacts.
Context {R : Type} (key : R -> bool).

Lemma filter_nil_of_existsb (tbl : list R) :
  existsb key tbl = false -> List.filter key tbl = [].
Proof.
  induction tbl as [|r tbl IH]; simpl; [reflexivity|].
  destruct (key r); simpl; [discriminate | exact IH].
Qed.

Lemma existsb_of_filter (tbl : list R) (r : R) (rs : list R) :
  List.filter key tbl = r :: rs -> existsb key tbl = true.
Proof.
  intros H. destruct (existsb key tbl) eqn:E; [reflexivity|].
  rewrite (filter_nil_of_existsb tbl E) in H. discriminate.
Qed.

Lemma filter_update_where (set : R -> R) (tbl : list R) :
  (forall r, key r = true -> key (set r) = true) ->
  List.filter key (update_where key set tbl) = List.map set (List.filter key tbl).
Proof.
  intros Hset. unfold update_where.
  induction tbl as [|r tbl IH]; simpl; [reflexivity|].
  destruct (key r) eqn:E; simpl.
  - rewrite (Hset r E). simpl. rewrite IH. reflexivity.
  - rewrite E. exact IH.
Qed.

Lemma length_update_where (cond : R -> bool) (set : R -> R) (tbl : list R) :
  List.length (update_where cond set tbl) = List.length tbl.
Proof. unfold update_where. apply length_map. Qed.

(** After an upsert the key selects one row: the updated one when a row
    was in conflict, the new one otherwise. *)
Lemma insert_or_update_single (set : R -> R) (new : R) (tbl : list R) :
  (forall r, key r = true -> key (set r) = true) ->
  key new = true ->
  (List.length (List.filter key tbl) <= 1)%nat ->
  exists r, List.filter key (insert_or_update key set new tbl) = [r]
            /\ (r = new \/ exists r0, List.filter key tbl = [r0] /\ r = set r0).
Proof.
  intros Hset Hnew Hlen. unfold insert_or_update.
  destruct (existsb key tbl) eqn:E.
  - rewrite (filter_update_where set tbl Hset).
    destruct (List.filter key tbl) as [|r0 [|r1 rs]] eqn:F.
    + exfalso. apply existsb_exists in E as (x & Hin & Hx).
      assert (Hf : In x (List.filter key tbl)) by (apply filter_In; auto).
      rewrite F in Hf. destruct Hf.
    + exists (set r0). split; [reflexivity|]. right. exists r0. auto.
    + simpl in Hlen. lia.
  - rewrite List.filter_app, (filter_nil_of_existsb tbl E). simpl. rewrite Hnew.
    exists new. split; [reflexivity | left; reflexivity].
Qed.

Lemma insert_or_update_existing (set : R -> R) (new r0 : R) (tbl : list R) :
  (forall r, key r = true -> key (set r) = true) ->
  List.filter key tbl = [r0] ->
  List.filter key (insert_or_update key set new tbl) = [set r0].
Proof.
  intros Hset F. unfold insert_or_update.
  rewrite (existsb_of_filter tbl r0 [] F).
  rewrite (filter_update_where set tbl Hset), F. reflexivity.
Qed.

End TableFacts.

Section KeyFacts.
Context {R K : Type} (keyof : R -> K) (matches : K -> R -> bool).
Hypothesis matches_key : forall k r, matches k r = true -> keyof r = k.

Lemma unique_of_NoDup (tbl : list R) (k : K) :
  List.NoDup (List.map keyof tbl) ->
  (List.length (List.filter (matches k) tbl) <= 1)%nat.
Proof.
  induction tbl as [|r tbl IH]; simpl; intros Hnd; [lia|].
  inversion Hnd as [|x l Hnotin Hnd']; subst.
  destruct (matches k r) eqn:E; [|auto].
  apply matches_key in E. subst k.
  assert (F : List.filter (matches (keyof r)) tbl = []).
  { destruct (List.filter (matches (keyof r)) tbl) as [|y ys] eqn:F; [reflexivity|].
    exfalso. apply Hnotin.
    assert (Hy : In y (List.filter (matches (keyof r)) tbl)) by (rewrite F; left; reflexivity).
    apply filter_In in Hy as [Hy1 Hy2]. apply matches_key in Hy2.
    rewrite <- Hy2. apply in_map. exact Hy1. }
  rewrite F. simpl. lia.
Qed.

End KeyFacts.

Lemma bp_key_sound (k : Id * string) (r : BillPayment) :
  bp_key_eqb (fst k) (snd k) r = true -> (bp_bill_id r, bp_month r) = k.
Proof.
  destruct k as [b m]. unfold bp_key_eqb. simpl. intros H.
  apply andb_true_iff in H as [H1 H2].
  apply Nat.eqb_eq in H1. apply String.eqb_eq in H2. congruence.
Qed.

Lemma snap_key_sound (k : Id * string) (r : AccountSnapshot) :
  snap_key_eqb (fst k) (snd k) r = true -> (snap_account_id r, snap_month r) = k.
Proof.
  destruct k as [a m]. unfold snap_key_eqb. simpl. intros H.
  apply andb_true_iff in H as [H1 H2].
  apply Nat.eqb_eq in H1. apply String.eqb_eq in H2. congruence.
Qed.

Lemma bud_key_sound (k : string * Id * Id) (r : Budget) :
  bud_key_eqb (fst (fst k)) (snd (fst k)) (snd k) r = true ->
  (bud_month r, bud_owner_id r, bud_category_id r) = k.
Proof.
  destruct k as [[m o] c]. unfold bud_key_eqb. simpl. intros H.
  apply andb_true_iff in H as [H H3]. apply andb_true_iff in H as [H1 H2].
  apply Nat.eqb_eq in H2. apply Nat.eqb_eq in H3. apply String.eqb_eq in H1. congruence.
Qed.

(** A store whose key columns have no duplicates and whose accounts name
    one owner each is a store with integrity. *)
Lemma integrity_of_NoDup (s : Store) :
  List.NoDup (List.map (fun r => (bp_bill_id r, bp_month r)) (bill_payments s)) ->
  List.NoDup (List.map (fun r => (snap_account_id r, snap_month r)) (account_snapshots s)) ->
  List.NoDup (List.map (fun r => (bud_month r, bud_owner_id r, bud_category_id r)) (budgets s)) ->
  Forall (fun a =>
            List.length (List.filter (fun o => (ow_id o =? acc_owner_id a)%nat) (owners s))
            = 1%nat) (accounts s) ->
  integrity s.
Proof.
  intros H1 H2 H3 H4. constructor.
  - intros b m.
    apply (unique_of_NoDup (fun r => (bp_bill_id r, bp_month r))
             (fun k => bp_key_eqb (fst k) (snd k)) bp_key_sound _ (b, m) H1).
  - intros a m.
    apply (unique_of_NoDup (fun r => (snap_account_id r, snap_month r))
             (fun k => snap_key_eqb (fst k) (snd k)) snap_key_sound _ (a, m) H2).
  - intros m o c.
    apply (unique_of_NoDup (fun r => (bud_month r, bud_owner_id r, bud_category_id r))
             (fun k => bud_key_eqb (fst (fst k)) (snd (fst k)) (snd k))
             bud_key_sound _ (m, o, c) H3).
  - intros a Ha. rewrite List.Forall_forall in H4. apply H4. exact Ha.
Qed.

Ltac nodup_by_computation :=
  repeat (constructor; [simpl; intuition congruence|]); constructor.

Lemma household_integrity : integrity Sample.household.
Proof.
  apply integrity_of_NoDup; simpl.
  - nodup_by_computation.
  - nodup_by_computation.
  - nodup_by_computation.
  - repeat constructor.
Qed.

(** ** Upserts *)

Lemma bud_key_kept (m : string) (o c : Id) (v : Q) (t : Timestamp) (r : Budget) :
  bud_key_eqb m o c
    {| bud_id := bud_id r; bud_month := bud_month r; bud_owner_id := bud_owner_id r;
       bud_category_id := bud_category_id r; bud_planned_amount := v;
       bud_created_at := bud_created_at r; bud_updated_at := t |}
  = bud_key_eqb m o c r.
Proof. reflexivity. Qed.

Lemma snap_key_kept (a : Id) (m : string) (b p : Q) (t : Timestamp) (r : AccountSnapshot) :
  snap_key_eqb a m
    {| snap_id := snap_id r; snap_account_id := snap_account_id r;
       snap_month := snap_month r; snap_balance := b; snap_payment := p;
       snap_created_at := snap_created_at r; snap_updated_at := t |}
  = snap_key_eqb a m r.
Proof. reflexivity. Qed.

(** C7.  Two calls of [upsert_budget] with one key (month, owner, category)
    and two calls of [upsert_snapshot] with one key (account, month) leave
    exactly one row for that key, and it holds the values of the second
    call. *)
Theorem upserts_keep_one_row :
  forall (e1 e2 : Env) (m : string) (o c a : Id) (v1 v2 b1 p1 b2 p2 : Q) (s : Store),
    integrity s ->
    month_check_fails (PyStr.strip m) = false ->
    (exists s1 s2 r,
        upsert_budget e1 m o c v1 s = Ok s1
        /\ upsert_budget e2 m o c v2 s1 = Ok s2
        /\ List.filter (bud_key_eqb (PyStr.strip m) o c) (budgets s2) = [r]
        /\ bud_planned_amount r = v2)
    /\ (exists s1 s2 r,
        upsert_snapshot e1 a m b1 p1 s = Ok s1
        /\ upsert_snapshot e2 a m b2 p2 s1 = Ok s2
        /\ List.filter (snap_key_eqb a (PyStr.strip m)) (account_snapshots s2) = [r]
        /\ snap_balance r = b2 /\ snap_payment r = p2).
Proof.
  intros e1 e2 m o c a v1 v2 b1 p1 b2 p2 s Hint Hm.
  unfold upsert_budget, upsert_snapshot. rewrite Hm.
  split.
  - match goal with
    | |- context [insert_or_update ?k ?set ?new (budgets s)] =>
        destruct (insert_or_update_single k set new (budgets s)) as (r1 & F1 & _)
    end.
    + intros r Hr. rewrite bud_key_kept. exact Hr.
    + unfold bud_key_eqb. simpl. rewrite String.eqb_refl, !Nat.eqb_refl. reflexivity.
    + apply (bud_unique s Hint).
    + do 2 eexists. eexists. split; [reflexivity|]. split; [reflexivity|].
      simpl budgets. split.
      * apply insert_or_update_existing; [|exact F1].
        intros r Hr. rewrite bud_key_kept. exact Hr.
      * reflexivity.
  - match goal with
    | |- context [insert_or_update ?k ?set ?new (account_snapshots s)] =>
        destruct (insert_or_update_single k set new (account_snapshots s)) as (r1 & F1 & _)
    end.
    + intros r Hr. rewrite snap_key_kept. exact Hr.
    + unfold snap_key_eqb. simpl. rewrite String.eqb_refl, Nat.eqb_refl. reflexivity.
    + apply (snap_unique s Hint).
    + do 2 eexists. eexists. split; [reflexivity|]. split; [reflexivity|].
      simpl account_snapshots. split.
      * apply insert_or_update_existing; [|exact F1].
        intros r Hr. rewrite snap_key_kept. exact Hr.
      * split; reflexivity.
Qed.

Lemma upserts_keep_one_row_witness :
  (exists s1 s2 r,
      upsert_budget Sample.env "2026-01" 1 10 50%Q Sample.household = Ok s1
      /\ upsert_budget Sample.env' "2026-01" 1 10 75%Q s1 = Ok s2
      /\ List.filter (bud_key_eqb "2026-01" 1 10) (budgets s2) = [r]
      /\ bud_planned_amount r = 75%Q)
  /\ (exists s1 s2 r,
      upsert_snapshot Sample.env 30 "2026-01" 390%Q 10%Q Sample.household = Ok s1
      /\ upsert_snapshot Sample.env' 30 "2026-01" 380%Q 20%Q s1 = Ok s2
      /\ List.filter (snap_key_eqb 30 "2026-01") (account_snapshots s2) = [r]
      /\ snap_balance r = 380%Q /\ snap_payment r = 20%Q).
Proof.
  exact (upserts_keep_one_row Sample.env Sample.env' "2026-01" 1 10 30
           50%Q 75%Q 390%Q 10%Q 380%Q 20%Q Sample.household
           household_integrity eq_refl).
Defined.

(** ** Joins and ordering *)

Section JoinFacts.
Context {A B : Type}.

Lemma inner_join_cons (a : A) (l : list A) (r : list B) (on : A -> B -> bool) :
  inner_join (a :: l) r on
  = List.map (fun b => (a, b)) (List.filter (on a) r) ++ inner_join l r on.
Proof. reflexivity. Qed.

Lemma inner_join_app (l1 l2 : list A) (r : list B) (on : A -> B -> bool) :
  inner_join (l1 ++ l2) r on = inner_join l1 r on ++ inner_join l2 r on.
Proof. unfold inner_join. apply flat_map_app. Qed.

Lemma in_inner_join (x : A * B) (l : list A) (r : list B) (on : A -> B -> bool) :
  In x (inner_join l r on) <-> In (fst x) l /\ In (snd x) r /\ on (fst x) (snd x) = true.
Proof.
  unfold inner_join. rewrite in_flat_map. split.
  - intros (a & Ha & Hx). apply in_map_iff in Hx as (b & <- & Hb).
    apply filter_In in Hb as [Hb1 Hb2]. simpl. auto.
  - intros (Ha & Hb & Hon). exists (fst x). split; [exact Ha|].
    apply in_map_iff. exists (snd x). split; [destruct x; reflexivity|].
    apply filter_In. auto.
Qed.

Lemma left_join_cons (a : A) (l : list A) (r : list B) (on : A -> B -> bool) :
  left_join (a :: l) r on
  = match List.filter (on a) r with
    | [] => [(a, None)]
    | bs => List.map (fun b => (a, Some b)) bs
    end ++ left_join l r on.
Proof. reflexivity. Qed.

(** A left join on a condition that selects at most one row of the right
    table keeps the left table row for row. *)
Lemma left_join_unique (l : list A) (r : list B) (on : A -> B -> bool) :
  (forall a, In a l -> (List.length (List.filter (on a) r) <= 1)%nat) ->
  left_join l r on = List.map (fun a => (a, hd_error (List.filter (on a) r))) l.
Proof.
  induction l as [|a l IH]; intros H; [reflexivity|].
  rewrite left_join_cons, IH by (intros a' Ha'; apply H; right; exact Ha').
  specialize (H a (or_introl eq_refl)). cbn [List.map].
  destruct (List.filter (on a) r) as [|b [|b' bs]]; simpl in *; try reflexivity; lia.
Qed.

(** An inner join on a condition that selects exactly one row of the right
    table keeps the left table row for row. *)
Lemma inner_join_unique (l : list A) (r : list B) (on : A -> B -> bool) :
  (forall a, In a l -> List.length (List.filter (on a) r) = 1%nat) ->
  List.map fst (inner_join l r on) = l
  /\ forall x, In x (inner_join l r on) -> List.filter (on (fst x)) r = [snd x].
Proof.
  induction l as [|a l IH]; intros H.
  - split; [reflexivity | intros x []].
  - destruct IH as (Hf & Hsel); [intros a' Ha'; apply H; right; exact Ha'|].
    specialize (H a (or_introl eq_refl)) as Ha.
    rewrite inner_join_cons.
    destruct (List.filter (on a) r) as [|b [|b' bs]] eqn:F; simpl in Ha; try lia.
    split.
    + simpl. rewrite Hf. reflexivity.
    + intros x [<- | Hx]; [exact F | apply Hsel; exact Hx].
Qed.

End JoinFacts.

Section OrderFacts.
Context {A : Type} (le : A -> A -> bool).

Lemma insert_sorted_perm (x : A) (l : list A) :
  Permutation (x :: l) (insert_sorted le x l).
Proof.
  induction l as [|y l IH]; simpl; [apply Permutation_refl|].
  destruct (le x y); [apply Permutation_refl|].
  eapply Permutation_trans; [apply perm_swap|].
  apply perm_skip. exact IH.
Qed.

Lemma order_by_perm (l : list A) : Permutation l (order_by le l).
Proof.
  induction l as [|x l IH]; simpl; [apply perm_nil|].
  eapply Permutation_trans; [apply perm_skip; exact IH|].
  apply insert_sorted_perm.
Qed.

Lemma in_order_by (x : A) (l : list A) : In x (order_by le l) <-> In x l.
Proof.
  split; apply Permutation_in; [apply Permutation_sym|]; apply order_by_perm.
Qed.

Hypothesis le_total : forall x y, le x y = true \/ le y x = true.
Hypothesis le_trans : forall x y z, le x y = true -> le y z = true -> le x z = true.

Lemma insert_sorted_sorted (x : A) (l : list A) :
  StronglySorted (fun a b => le a b = true) l ->
  StronglySorted (fun a b => le a b = true) (insert_sorted le x l).
Proof.
  induction 1 as [|y l Hl IH Hy]; simpl.
  - constructor; constructor.
  - destruct (le x y) eqn:E.
    + constructor; [constructor; assumption|].
      constructor; [exact E|].
      rewrite List.Forall_forall in *. intros z Hz. eapply le_trans; eauto.
    + constructor; [exact IH|].
      rewrite List.Forall_forall in *. intros z Hz.
      apply (Permutation_in _ (Permutation_sym (insert_sorted_perm x l))) in Hz.
      destruct Hz as [<- | Hz]; [|auto].
      destruct (le_total x y) as [H | H]; [congruence | exact H].
Qed.

Lemma order_by_sorted (l : list A) :
  StronglySorted (fun a b => le a b = true) (order_by le l).
Proof.
  induction l as [|x l IH]; simpl; [constructor|].
  apply insert_sorted_sorted. exact IH.
Qed.

End OrderFacts.

(** Order of strings, as [ORDER BY] on a text column compares them. *)

Lemma ascii_compare_refl (a : ascii) : Ascii.compare a a = Eq.
Proof. unfold Ascii.compare. apply N.compare_refl. Qed.

Lemma ascii_compare_lt_trans (a b c : ascii) :
  Ascii.compare a b = Lt -> Ascii.compare b c = Lt -> Ascii.compare a c = Lt.
Proof.
  unfold Ascii.compare. rewrite !N.compare_lt_iff. apply N.lt_trans.
Qed.

Lemma string_compare_refl (s : string) : String.compare s s = Eq.
Proof.
  induction s as [|a s IH]; simpl; [reflexivity|].
  rewrite ascii_compare_refl. exact IH.
Qed.

Lemma string_compare_lt_trans (s1 : string) :
  forall s2 s3, String.compare s1 s2 = Lt -> String.compare s2 s3 = Lt ->
                String.compare s1 s3 = Lt.
Proof.
  induction s1 as [|a s1 IH]; intros [|b s2] [|c s3]; simpl; try congruence.
  destruct (Ascii.compare a b) eqn:Eab; try discriminate;
    destruct (Ascii.compare b c) eqn:Ebc; try discriminate; intros H1 H2.
  - apply Ascii.compare_eq_iff in Eab. apply Ascii.compare_eq_iff in Ebc. subst.
    rewrite ascii_compare_refl. eapply IH; eauto.
  - apply Ascii.compare_eq_iff in Eab. subst. rewrite Ebc. reflexivity.
  - apply Ascii.compare_eq_iff in Ebc. subst. rewrite Eab. reflexivity.
  - rewrite (ascii_compare_lt_trans a b c Eab Ebc). reflexivity.
Qed.

Lemma string_compare_gt_lt (s1 s2 : string) :
  String.compare s1 s2 = Gt -> String.compare s2 s1 = Lt.
Proof.
  intros H. rewrite String.compare_antisym, H. reflexivity.
Qed.

Lemma string_not_gt_trans (s1 s2 s3 : string) :
  not_gt (String.compare s1 s2) = true -> not_gt (String.compare s2 s3) = true ->
  not_gt (String.compare s1 s3) = true.
Proof.
  destruct (String.compare s1 s2) eqn:E12; try discriminate;
    destruct (String.compare s2 s3) eqn:E23; try discriminate; intros _ _.
  - apply String.compare_eq_iff in E12. subst. rewrite E23. reflexivity.
  - apply String.compare_eq_iff in E12. subst. rewrite E23. reflexivity.
  - apply String.compare_eq_iff in E23. subst. rewrite E12. reflexivity.
  - rewrite (string_compare_lt_trans _ _ _ E12 E23). reflexivity.
Qed.

(** ** Soft delete *)

Lemma filter_none {A : Type} (P : A -> bool) (l : list A) :
  (forall x, In x l -> P x = false) -> List.filter P l = [].
Proof.
  induction l as [|x l IH]; intros H; simpl; [reflexivity|].
  rewrite (H x (or_introl eq_refl)). apply IH. intros y Hy. apply H. right. exact Hy.
Qed.

Section HiddenRows.
Context {A B C : Type}.
Variables (r1 : list B) (r2 : list C) (on1 : A -> B -> bool) (on2 : A * B -> C -> bool).
Variables (visible hit : A -> bool) (set : A -> A).
Hypothesis hidden : forall a, hit a = true -> visible (set a) = false.

(** Rows marked by an [UPDATE] that makes them invisible contribute to a
    join filtered on visibility what deleted rows contribute: nothing. *)
Lemma joined_update_as_delete (l : list A) :
  List.filter (fun x => visible (fst (fst x)))
    (inner_join (inner_join (update_where hit set l) r1 on1) r2 on2)
  = List.filter (fun x => visible (fst (fst x)))
      (inner_join (inner_join (List.filter (fun a => negb (hit a)) l) r1 on1) r2 on2).
Proof.
  unfold update_where.
  induction l as [|a l IH]; [reflexivity|].
  cbn [List.map List.filter].
  destruct (hit a) eqn:E; cbn [negb].
  - rewrite inner_join_cons, inner_join_app, List.filter_app, IH.
    rewrite filter_none; [reflexivity|].
    intros x Hx. apply in_inner_join in Hx as (Hx & _ & _).
    apply in_map_iff in Hx as (b & Hb & _). rewrite <- Hb. simpl.
    apply hidden. exact E.
  - rewrite !inner_join_cons, !inner_join_app, !List.filter_app, IH. reflexivity.
Qed.

Lemma filtered_update_as_delete (l : list A) :
  List.filter visible (update_where hit set l)
  = List.filter visible (List.filter (fun a => negb (hit a)) l).
Proof.
  unfold update_where.
  induction l as [|a l IH]; [reflexivity|].
  cbn [List.map List.filter].
  destruct (hit a) eqn:E; cbn [negb List.filter].
  - rewrite (hidden a E). exact IH.
  - rewrite IH. reflexivity.
Qed.

End HiddenRows.

Lemma live_transactions_soft_delete (e : Env) (txn : Id) (month : option string) (s : Store) :
  live_transactions month (soft_delete_transaction e txn s)
  = live_transactions month (without_transaction txn s).
Proof.
  unfold live_transactions, soft_delete_transaction, without_transaction.
  cbn [transactions owners categories set_transactions].
  apply (joined_update_as_delete (owners s) (categories s)
           (fun t o => (ow_id o =? txn_owner_id t)%nat)
           (fun tow c => (cat_id c =? txn_category_id (fst tow))%nat)
           (fun t => is_null (txn_deleted_at t) && month_filter month t)
           (fun t => (txn_id t =? txn)%nat)).
  intros a _. reflexivity.
Qed.

Lemma counted_soft_delete (e : Env) (txn : Id) (month : string) (s : Store) :
  counted month (soft_delete_transaction e txn s)
  = counted month (without_transaction txn s).
Proof.
  unfold counted, soft_delete_transaction, without_transaction.
  cbn [transactions set_transactions].
  apply (filtered_update_as_delete
           (fun t => is_null (txn_deleted_at t)
                     && String.eqb (PyStr.prefix 7 (txn_date t)) month)
           (fun t => (txn_id t =? txn)%nat)).
  intros a _. reflexivity.
Qed.

Lemma live_transactions_ids (month : option string) (s : Store)
    (x : Transaction * Owner * Category) :
  In x (live_transactions month s) -> In (fst (fst x)) (transactions s).
Proof.
  unfold live_transactions. intros H.
  apply filter_In in H as [H _].
  apply in_inner_join in H as (H & _ & _).
  apply in_inner_join in H as (H & _ & _). exact H.
Qed.

(** C9.  After [soft_delete_transaction] the results of [get_transactions]
    and [export_transactions_rows] and the rows of [planned_vs_actual] are
    those of the store without the transaction, no row of
    [get_transactions] carries its identifier, and the table has as many
    rows, with the same identifiers, as before. *)
Theorem soft_delete_hides_and_keeps :
  forall (e : Env) (txn : Id) (month : option string) (m : string) (s : Store),
    let s' := soft_delete_transaction e txn s in
    get_transactions month s' = get_transactions month (without_transaction txn s)
    /\ Forall (fun r => tr_id r <> txn) (get_transactions month s')
    /\ export_transactions_rows month s'
       = export_transactions_rows month (without_transaction txn s)
    /\ planned_vs_actual m s' = planned_vs_actual m (without_transaction txn s)
    /\ List.length (transactions s') = List.length (transactions s)
    /\ List.map txn_id (transactions s') = List.map txn_id (transactions s).
Proof.
  intros e txn month m s s'. subst s'.
  assert (Hget : get_transactions month (soft_delete_transaction e txn s)
                 = get_transactions month (without_transaction txn s)).
  { unfold get_transactions. rewrite live_transactions_soft_delete. reflexivity. }
  split; [exact Hget|]. split.
  - rewrite Hget. unfold get_transactions.
    apply List.Forall_forall. intros r Hr.
    apply in_map_iff in Hr as (x & <- & Hx).
    apply in_order_by in Hx. apply live_transactions_ids in Hx.
    unfold without_transaction in Hx. cbn [transactions set_transactions] in Hx.
    apply filter_In in Hx as [_ Hx].
    destruct x as [[t o] c]. simpl in *.
    apply negb_true_iff in Hx. apply Nat.eqb_neq in Hx. exact Hx.
  - split.
    { unfold export_transactions_rows. rewrite live_transactions_soft_delete. reflexivity. }
    split.
    { unfold planned_vs_actual, act. rewrite counted_soft_delete. reflexivity. }
    split.
    { unfold soft_delete_transaction. cbn [transactions set_transactions].
      apply length_update_where. }
    unfold soft_delete_transaction, update_where. cbn [transactions set_transactions].
    rewrite List.map_map. apply map_ext. intros t.
    destruct (txn_id t =? txn)%nat; reflexivity.
Qed.

(** ** Payment rows *)

Lemma blank_payment_key (e : Env) (k : nat) (b : Id) (m : string) :
  bp_key_eqb b m (blank_payment e k b m) = true.
Proof.
  unfold bp_key_eqb, blank_payment. simpl.
  rewrite Nat.eqb_refl, String.eqb_refl. reflexivity.
Qed.

Lemma insert_or_ignore_payment_covers (r : BillPayment) (tbl : list BillPayment) :
  existsb (bp_key_eqb (bp_bill_id r) (bp_month r)) (insert_or_ignore_payment r tbl) = true.
Proof.
  unfold insert_or_ignore_payment.
  destruct (existsb (bp_key_eqb (bp_bill_id r) (bp_month r)) tbl) eqn:E; [exact E|].
  rewrite existsb_app. simpl. unfold bp_key_eqb at 2.
  rewrite Nat.eqb_refl, String.eqb_refl. apply orb_true_r.
Qed.

Lemma ensure_rows_extends (e : Env) (m : string) (bs : list Bill) :
  forall k tbl, exists added, ensure_rows e m k bs tbl = tbl ++ added.
Proof.
  induction bs as [|b bs IH]; intros k tbl; simpl.
  - exists []. symmetry. apply app_nil_r.
  - destruct (IH (S k) (insert_or_ignore_payment (blank_payment e k (bill_id b) m) tbl))
      as [added Hadded].
    rewrite Hadded. unfold insert_or_ignore_payment.
    destruct (existsb _ tbl).
    + exists added. reflexivity.
    + eexists. rewrite <- app_assoc. reflexivity.
Qed.

Lemma ensure_rows_keeps (e : Env) (m : string) (bs : list Bill) (b : Id) :
  forall k tbl,
    existsb (bp_key_eqb b m) tbl = true ->
    existsb (bp_key_eqb b m) (ensure_rows e m k bs tbl) = true.
Proof.
  intros k tbl H. destruct (ensure_rows_extends e m bs k tbl) as [added ->].
  rewrite existsb_app, H. reflexivity.
Qed.

Lemma ensure_rows_covers (e : Env) (m : string) (bs : list Bill) :
  forall k tbl,
    Forall (fun b => existsb (bp_key_eqb (bill_id b) m) (ensure_rows e m k bs tbl) = true) bs.
Proof.
  induction bs as [|b bs IH]; intros k tbl; simpl; constructor.
  - apply ensure_rows_keeps.
    apply (insert_or_ignore_payment_covers (blank_payment e k (bill_id b) m)).
  - apply IH.
Qed.

Lemma ensure_rows_noop (e : Env) (m : string) (bs : list Bill) :
  forall k tbl,
    Forall (fun b => existsb (bp_key_eqb (bill_id b) m) tbl = true) bs ->
    ensure_rows e m k bs tbl = tbl.
Proof.
  induction bs as [|b bs IH]; intros k tbl H; simpl; [reflexivity|].
  inversion H as [|x l Hb Hbs]; subst.
  unfold insert_or_ignore_payment. cbn [bp_bill_id bp_month blank_payment].
  rewrite Hb. apply IH. exact Hbs.
Qed.

(** How many rows a key selects once the rows have been ensured: what it
    selected before when that was at least one, and one when the bill is
    among the bills served. *)
Lemma ensure_rows_count (e : Env) (m : string) (bs : list Bill) (b : Id) :
  forall k tbl,
    List.length (List.filter (bp_key_eqb b m) (ensure_rows e m k bs tbl))
    = if existsb (bp_key_eqb b m) tbl
      then List.length (List.filter (bp_key_eqb b m) tbl)
      else if existsb (fun x => (bill_id x =? b)%nat) bs then 1%nat else 0%nat.
Proof.
  induction bs as [|b0 bs IH]; intros k tbl.
  - simpl. destruct (existsb (bp_key_eqb b m) tbl) eqn:E; [reflexivity|].
    rewrite (filter_nil_of_existsb _ tbl E). reflexivity.
  - cbn [ensure_rows existsb]. rewrite IH. clear IH.
    unfold insert_or_ignore_payment. cbn [bp_bill_id bp_month blank_payment].
    destruct (bill_id b0 =? b)%nat eqn:Eb.
    + apply Nat.eqb_eq in Eb. subst b.
      destruct (existsb (bp_key_eqb (bill_id b0) m) tbl) eqn:E.
      * rewrite E. reflexivity.
      * rewrite existsb_app, List.filter_app. cbn [existsb List.filter].
        rewrite blank_payment_key, orb_true_r.
        rewrite (filter_nil_of_existsb _ tbl E). reflexivity.
    + cbn [orb].
      destruct (existsb (bp_key_eqb (bill_id b0) m) tbl) eqn:E0; [reflexivity|].
      rewrite existsb_app, List.filter_app. cbn [existsb List.filter].
      assert (Hk : bp_key_eqb b m (blank_payment e k (bill_id b0) m) = false).
      { unfold bp_key_eqb, blank_payment. simpl. rewrite Eb. reflexivity. }
      rewrite Hk, orb_false_r, app_nil_r. reflexivity.
Qed.

Lemma active_bills_ensure (e : Env) (m : string) (s : Store) :
  active_bills (ensure_bill_payment_rows e m s) = active_bills s.
Proof. reflexivity. Qed.

Lemma ensure_bill_payment_rows_idem (e1 e2 : Env) (m : string) (s : Store) :
  ensure_bill_payment_rows e2 m (ensure_bill_payment_rows e1 m s)
  = ensure_bill_payment_rows e1 m s.
Proof.
  unfold ensure_bill_payment_rows.
  set (T := ensure_rows e1 (PyStr.strip m) 0 (active_bills s) (bill_payments s)).
  change (active_bills (set_bill_payments s T)) with (active_bills s).
  change (bill_payments (set_bill_payments s T)) with T.
  rewrite (ensure_rows_noop e2 (PyStr.strip m) (active_bills s) 0 T); [reflexivity|].
  subst T. apply ensure_rows_covers.
Qed.

Lemma in_active_bills (b : Bill) (s : Store) :
  In b (active_bills s) -> existsb (fun x => (bill_id x =? bill_id b)%nat) (active_bills s) = true.
Proof.
  intros H. apply existsb_exists. exists b. split; [exact H | apply Nat.eqb_refl].
Qed.

(** C6.  [bills_due_view] leaves a payment row for every active bill and
    the month; the rows stored before are still there, unchanged and in
    place; a second call changes nothing; and after two calls the key of
    an active bill selects one row when it selected none before, as many
    as before otherwise. *)
Theorem bills_due_materializes_once :
  forall (e1 e2 : Env) (m : string) (s : Store),
    let m' := PyStr.strip m in
    let s1 := fst (bills_due_view e1 m s) in
    let s2 := fst (bills_due_view e2 m s1) in
    Forall (fun b => existsb (bp_key_eqb (bill_id b) m') (bill_payments s1) = true)
           (active_bills s)
    /\ (exists added, bill_payments s1 = bill_payments s ++ added)
    /\ s2 = s1
    /\ Forall (fun b =>
                 List.length (List.filter (bp_key_eqb (bill_id b) m') (bill_payments s2))
                 = if existsb (bp_key_eqb (bill_id b) m') (bill_payments s)
                   then List.length (List.filter (bp_key_eqb (bill_id b) m') (bill_payments s))
                   else 1%nat)
              (active_bills s).
Proof.
  intros e1 e2 m s m' s1 s2.
  assert (E1 : s1 = ensure_bill_payment_rows e1 m s).
  { subst s1. unfold bills_due_view. cbn [fst].
    unfold ensure_bill_payment_rows. rewrite strip_idem. reflexivity. }
  assert (E2 : s2 = s1).
  { subst s2. unfold bills_due_view. cbn [fst].
    replace (ensure_bill_payment_rows e2 (PyStr.strip m) s1)
      with (ensure_bill_payment_rows e2 m s1)
      by (unfold ensure_bill_payment_rows; rewrite strip_idem; reflexivity).
    rewrite E1. apply ensure_bill_payment_rows_idem. }
  split; [|split; [|split; [exact E2|]]].
  - rewrite E1. unfold ensure_bill_payment_rows. cbn [bill_payments set_bill_payments].
    apply ensure_rows_covers.
  - rewrite E1. unfold ensure_bill_payment_rows. cbn [bill_payments set_bill_payments].
    apply ensure_rows_extends.
  - rewrite E2, E1. unfold ensure_bill_payment_rows. cbn [bill_payments set_bill_payments].
    apply List.Forall_forall. intros b Hb.
    rewrite ensure_rows_count. fold m'.
    rewrite (in_active_bills b s Hb). reflexivity.
Qed.

(** ** Month closeout *)

Lemma is_month_closed_stripped (m : string) (s : Store) :
  is_month_closed (PyStr.strip m) s = is_month_closed m s.
Proof. unfold is_month_closed. rewrite strip_idem. reflexivity. Qed.

Lemma close_month_closed (e : Env) (m : string) (note : option string) (s : Store) :
  month_check_fails (PyStr.strip m) = false ->
  is_month_closed m s = true ->
  close_month e m note s = Ok s.
Proof.
  intros Hm Hc. unfold close_month.
  rewrite Hm, is_month_closed_stripped, Hc. reflexivity.
Qed.

Lemma close_month_open (e : Env) (m : string) (note : option string) (s : Store) :
  month_check_fails (PyStr.strip m) = false ->
  is_month_closed m s = false ->
  exists row,
    mc_month row = PyStr.strip m
    /\ close_month e m note s
       = Ok (set_month_closings (ensure_bill_payment_rows e m s)
               (month_closings s ++ [row])).
Proof.
  intros Hm Hc. unfold close_month.
  rewrite Hm, is_month_closed_stripped, Hc.
  eexists. split; [|unfold ensure_bill_payment_rows; rewrite strip_idem; reflexivity].
  reflexivity.
Qed.

Lemma is_month_closed_appended (m : string) (s : Store) (row : MonthClosing) :
  mc_month row = PyStr.strip m ->
  is_month_closed m (set_month_closings s (month_closings s ++ [row])) = true.
Proof.
  intros H. unfold is_month_closed. cbn [month_closings set_month_closings].
  rewrite existsb_app. simpl. rewrite H, String.eqb_refl. apply orb_true_r.
Qed.

(** C2.  For a month [m] of the shape YYYY-MM, [close_month] returns, [m]
    is closed in the store it leaves, and closing again changes nothing.
    When [m] was closed already the store is untouched; otherwise the store
    is the one [ensure_bill_payment_rows] leaves, in which every active
    bill has a payment row for [m], with one closing row for [m] added. *)
Theorem close_month_closes :
  forall (e e2 : Env) (m : string) (note note2 : option string) (s : Store),
    is_yyyy_mm m = true ->
    exists s',
      close_month e m note s = Ok s'
      /\ is_month_closed m s' = true
      /\ close_month e2 m note2 s' = Ok s'
      /\ if is_month_closed m s then s' = s
         else Forall (fun b => existsb (bp_key_eqb (bill_id b) m) (bill_payments s') = true)
                     (active_bills s')
              /\ exists row,
                   mc_month row = m
                   /\ s' = set_month_closings (ensure_bill_payment_rows e m s)
                             (month_closings s ++ [row]).
Proof.
  intros e e2 m note note2 s Hm.
  pose proof (yyyy_mm_stripped m Hm) as Hs.
  assert (Hc : month_check_fails (PyStr.strip m) = false)
    by (rewrite Hs; apply yyyy_mm_passes; exact Hm).
  destruct (is_month_closed m s) eqn:E.
  - exists s. rewrite !close_month_closed by assumption. auto.
  - destruct (close_month_open e m note s Hc E) as (row & Hrow & Hclose).
    eexists. split; [exact Hclose|].
    assert (Hclosed : is_month_closed m
                        (set_month_closings (ensure_bill_payment_rows e m s)
                           (month_closings s ++ [row])) = true).
    { apply (is_month_closed_appended m (ensure_bill_payment_rows e m s) row Hrow). }
    split; [exact Hclosed|].
    split; [apply close_month_closed; assumption|].
    split.
    + unfold ensure_bill_payment_rows. rewrite Hs.
      cbn [bill_payments set_month_closings set_bill_payments].
      apply ensure_rows_covers.
    + exists row. rewrite <- Hs at 1. auto.
Qed.

Lemma close_month_closes_witness :
  exists s',
    close_month Sample.env "2026-01" (Some "done") Sample.household = Ok s'
    /\ is_month_closed "2026-01" s' = true
    /\ close_month Sample.env' "2026-01" None s' = Ok s'.
Proof.
  destruct (close_month_closes Sample.env Sample.env' "2026-01" (Some "done") None
              Sample.household eq_refl) as (s' & H1 & H2 & H3 & _).
  exists s'. auto.
Defined.

(** ** Planned versus actual *)

Lemma filter_map_comm {A B : Type} (P : B -> bool) (g : A -> B) (l : list A) :
  List.filter P (List.map g l) = List.map g (List.filter (fun a => P (g a)) l).
Proof.
  induction l as [|a l IH]; simpl; [reflexivity|].
  destruct (P (g a)); simpl; rewrite IH; reflexivity.
Qed.

Lemma filter_filter_and {A : Type} (P Q : A -> bool) (l : list A) :
  List.filter P (List.filter Q l) = List.filter (fun a => Q a && P a) l.
Proof.
  induction l as [|a l IH]; simpl; [reflexivity|].
  destruct (Q a); simpl; [destruct (P a)|]; rewrite IH; reflexivity.
Qed.

Lemma filter_cross_join {A B : Type} (P : B -> bool) (l : list A) (r : list B) :
  List.filter (fun x => P (snd x)) (cross_join l r) = cross_join l (List.filter P r).
Proof.
  unfold cross_join. induction l as [|a l IH]; simpl; [reflexivity|].
  rewrite List.filter_app, IH. f_equal.
  rewrite filter_map_comm. reflexivity.
Qed.

Lemma insert_sorted_map {A B : Type} (le : A -> A -> bool) (le' : B -> B -> bool)
    (g : A -> B) (x : A) (l : list A) :
  (forall a b, le' (g a) (g b) = le a b) ->
  insert_sorted le' (g x) (List.map g l) = List.map g (insert_sorted le x l).
Proof.
  intros H. induction l as [|y l IH]; simpl; [reflexivity|].
  rewrite H. destruct (le x y); simpl; [reflexivity|]. rewrite IH. reflexivity.
Qed.

Lemma order_by_map {A B : Type} (le : A -> A -> bool) (le' : B -> B -> bool)
    (g : A -> B) (l : list A) :
  (forall a b, le' (g a) (g b) = le a b) ->
  order_by le' (List.map g l) = List.map g (order_by le l).
Proof.
  intros H. induction l as [|x l IH]; simpl; [reflexivity|].
  rewrite IH. apply insert_sorted_map. exact H.
Qed.

Lemma pair_eqb_eq (k k' : Id * Id) : pair_eqb k k' = true <-> k = k'.
Proof.
  destruct k as [a b], k' as [a' b']. unfold pair_eqb. simpl.
  rewrite andb_true_iff, !Nat.eqb_eq. split; [intros [-> ->]; reflexivity|].
  intros H. injection H as -> ->. auto.
Qed.

Lemma pair_eqb_sym (k k' : Id * Id) : pair_eqb k k' = pair_eqb k' k.
Proof.
  unfold pair_eqb. rewrite (Nat.eqb_sym (fst k)), (Nat.eqb_sym (snd k)). reflexivity.
Qed.

(** [GROUP BY] produces one group per key that occurs. *)
Lemma distinct_selects (l : list (Id * Id)) (k : Id * Id) :
  List.filter (pair_eqb k) (distinct pair_eqb l)
  = if existsb (pair_eqb k) l then [k] else [].
Proof.
  induction l as [|k1 l IH]; [reflexivity|].
  cbn [distinct existsb List.filter].
  destruct (pair_eqb k k1) eqn:E.
  - apply pair_eqb_eq in E. subst k1. cbn [orb]. f_equal.
    rewrite filter_filter_and. apply filter_none. intros x _.
    rewrite (pair_eqb_sym k x). apply andb_negb_l.
  - cbn [orb]. rewrite <- IH.
    rewrite filter_filter_and. apply filter_ext. intros x.
    destruct (pair_eqb k x) eqn:Ex; [|apply andb_false_r].
    apply pair_eqb_eq in Ex. subst x. rewrite pair_eqb_sym, E. reflexivity.
Qed.

Lemma act_selects (month : string) (s : Store) (o c : Id) :
  List.filter (fun a => (act_owner_id a =? o)%nat && (act_category_id a =? c)%nat)
              (act month s)
  = if existsb (pair_eqb (o, c)) (List.map txn_key (counted month s))
    then [ {| act_owner_id := o; act_category_id := c;
              act_actual := Sum (List.map txn_amount
                                   (List.filter (fun t => pair_eqb (o, c) (txn_key t))
                                                (counted month s))) |} ]
    else [].
Proof.
  unfold act. rewrite filter_map_comm. cbn [act_owner_id act_category_id].
  rewrite (filter_ext _ (pair_eqb (o, c)))
    by (intros k; rewrite (pair_eqb_sym (o, c) k); reflexivity).
  rewrite distinct_selects.
  destruct (existsb (pair_eqb (o, c)) (List.map txn_key (counted month s)));
    reflexivity.
Qed.

Lemma actual_for_counted (month : string) (s : Store) (o c : Id) :
  actual_for month o c s
  = Qsum (List.map txn_amount
            (List.filter (fun t => pair_eqb (o, c) (txn_key t)) (counted month s))).
Proof.
  unfold actual_for, counted. rewrite filter_filter_and.
  do 2 f_equal. apply filter_ext. intros t.
  unfold pair_eqb, txn_key. simpl.
  rewrite (Nat.eqb_sym o), (Nat.eqb_sym c), andb_assoc. reflexivity.
Qed.

Lemma actual_amounts_counted (month : string) (s : Store) (o c : Id) :
  actual_amounts month o c s
  = List.map txn_amount
      (List.filter (fun t => pair_eqb (o, c) (txn_key t)) (counted month s)).
Proof.
  unfold actual_amounts, counted. rewrite filter_filter_and.
  f_equal. apply filter_ext. intros t.
  unfold pair_eqb, txn_key. simpl.
  rewrite (Nat.eqb_sym o), (Nat.eqb_sym c), andb_assoc. reflexivity.
Qed.

(** The actual the query reads off the [act] table is the sum over the
    amounts of the specification, and 0 when the pair has no group. *)
Lemma act_lookup (month : string) (s : Store) (o c : Id) :
  coalesce
    (option_map act_actual
       (hd_error
          (List.filter (fun a => (act_owner_id a =? o)%nat && (act_category_id a =? c)%nat)
                       (act month s))))
    (Val 0)
  = actual_total month o c s.
Proof.
  rewrite act_selects. unfold actual_total. rewrite actual_amounts_counted.
  destruct (existsb (pair_eqb (o, c)) (List.map txn_key (counted month s))) eqn:E.
  - cbn [hd_error option_map coalesce act_actual].
    apply existsb_exists in E as (k & Hk & Ek).
    apply in_map_iff in Hk as (t & <- & Ht).
    assert (Hin : In t (List.filter (fun t => pair_eqb (o, c) (txn_key t)) (counted month s)))
      by (apply filter_In; auto).
    destruct (List.filter (fun t => pair_eqb (o, c) (txn_key t)) (counted month s));
      [destruct Hin | reflexivity].
  - cbn [hd_error option_map coalesce]. rewrite filter_none; [reflexivity|].
    intros t Ht. destruct (pair_eqb (o, c) (txn_key t)) eqn:Et; [|reflexivity].
    assert (Hex : existsb (pair_eqb (o, c)) (List.map txn_key (counted month s)) = true).
    { apply existsb_exists. exists (txn_key t). split; [apply in_map; exact Ht | exact Et]. }
    congruence.
Qed.

Lemma act_unique (month : string) (s : Store) (o c : Id) :
  (List.length
     (List.filter (fun a => (act_owner_id a =? o)%nat && (act_category_id a =? c)%nat)
                  (act month s)) <= 1)%nat.
Proof.
  rewrite act_selects.
  destruct (existsb (pair_eqb (o, c)) (List.map txn_key (counted month s))); simpl; lia.
Qed.

Lemma budget_lookup (month : string) (s : Store) (o c : Id) :
  coalesce
    (option_map bud_planned_amount
       (hd_error (List.filter (bud_key_eqb month o c) (budgets s))))
    0%Q
  = planned_for month o c s.
Proof.
  unfold planned_for.
  destruct (List.filter (bud_key_eqb month o c) (budgets s)); reflexivity.
Qed.

Lemma pva_pair_order_total (x y : Owner * Category) :
  pva_pair_order x y = true \/ pva_pair_order y x = true.
Proof.
  unfold pva_pair_order, pva_compare.
  rewrite (Z.compare_antisym (ow_sort_order (fst x)) (ow_sort_order (fst y))).
  rewrite (String.compare_antisym (cat_name (snd y)) (cat_name (snd x))).
  destruct (Z.compare (ow_sort_order (fst x)) (ow_sort_order (fst y)));
    destruct (String.compare (cat_name (snd x)) (cat_name (snd y)));
    simpl; auto.
Qed.

Lemma pva_pair_order_trans (x y z : Owner * Category) :
  pva_pair_order x y = true -> pva_pair_order y z = true -> pva_pair_order x z = true.
Proof.
  unfold pva_pair_order, pva_compare.
  destruct (Z.compare_spec (ow_sort_order (fst x)) (ow_sort_order (fst y))) as [E1|L1|G1];
    destruct (Z.compare_spec (ow_sort_order (fst y)) (ow_sort_order (fst z))) as [E2|L2|G2];
    cbn [then_by not_gt]; try discriminate; intros H1 H2.
  - rewrite E1, E2, Z.compare_refl. cbn [then_by].
    eapply string_not_gt_trans; eauto.
  - rewrite E1, (proj2 (Z.compare_lt_iff _ _) L2). reflexivity.
  - rewrite <- E2, (proj2 (Z.compare_lt_iff _ _) L1). reflexivity.
  - rewrite (proj2 (Z.compare_lt_iff _ _) (Z.lt_trans _ _ _ L1 L2)). reflexivity.
Qed.

(** The rows of [planned_vs_actual] for a month that passes the test. *)
Lemma planned_vs_actual_rows (m : string) (s : Store) :
  integrity s ->
  month_check_fails (PyStr.strip m) = false ->
  planned_vs_actual m s
  = Ok (List.map (pva_row_for (PyStr.strip m) s)
          (order_by pva_pair_order
             (cross_join (owners s) (List.filter cat_active (categories s))))).
Proof.
  intros Hint Hm. unfold planned_vs_actual. rewrite Hm. f_equal.
  set (month := PyStr.strip m).
  rewrite (left_join_unique (cross_join (owners s) (categories s)) (budgets s))
    by (intros [o c] _; apply (bud_unique s Hint)).
  rewrite left_join_unique
    by (intros [[o c] b] _; apply act_unique).
  rewrite List.map_map.
  rewrite filter_map_comm. cbn [fst snd].
  rewrite (filter_cross_join cat_active).
  rewrite (order_by_map pva_pair_order)
    by (intros [o1 c1] [o2 c2]; reflexivity).
  rewrite List.map_map. apply map_ext. intros [o c].
  unfold pva_select, pva_row_for. cbn [fst snd].
  rewrite act_lookup, budget_lookup. reflexivity.
Qed.

(** C3.  For a month [m] of the shape YYYY-MM, [planned_vs_actual] returns
    one row for each pair of an owner and an active category: the pairs are
    a rearrangement of the full cross product, in order of owner sort order
    and then category name, and the row of a pair has the budget's planned
    amount or 0, as actual [ROUND(x, 2)] of the [SUM] over the amounts of
    the non-deleted transactions of the pair and the month (of 0 if there
    are none), and as variance [ROUND(planned - x, 2)].  A pair without
    budget and without such transactions has the zero row, whose three
    columns are 0 whatever [SUM] computes, [ROUND] leaving 0 as it is. *)
Theorem planned_vs_actual_cross_product :
  forall (m : string) (s : Store),
    integrity s ->
    is_yyyy_mm m = true ->
    exists pairs,
      planned_vs_actual m s = Ok (List.map (pva_row_for m s) pairs)
      /\ Permutation pairs (cross_join (owners s) (List.filter cat_active (categories s)))
      /\ StronglySorted (fun x y => pva_pair_order x y = true) pairs
      /\ (forall oc,
             In oc pairs ->
             List.filter (bud_key_eqb m (ow_id (fst oc)) (cat_id (snd oc))) (budgets s) = [] ->
             actual_amounts m (ow_id (fst oc)) (cat_id (snd oc)) s = [] ->
             pva_row_for m s oc = zero_row oc)
      /\ (forall sum round oc,
             (forall d, round Double.zero d = Double.zero) ->
             pva_planned (zero_row oc) = 0%Q
             /\ eval sum round (pva_actual (zero_row oc)) = Double.zero
             /\ eval sum round (pva_variance (zero_row oc)) = Double.zero).
Proof.
  intros m s Hint Hm.
  pose proof (yyyy_mm_stripped m Hm) as Hs.
  exists (order_by pva_pair_order
            (cross_join (owners s) (List.filter cat_active (categories s)))).
  split; [|split; [|split; [|split]]].
  - rewrite <- Hs at 2. apply planned_vs_actual_rows; [exact Hint|].
    rewrite Hs. apply yyyy_mm_passes. exact Hm.
  - apply Permutation_sym. apply order_by_perm.
  - apply order_by_sorted.
    + apply pva_pair_order_total.
    + apply pva_pair_order_trans.
  - intros [o c] _ Hb Ha. cbn [fst snd] in Hb, Ha.
    unfold pva_row_for, zero_row, planned_for, actual_total. cbn [fst snd].
    rewrite Hb, Ha. reflexivity.
  - intros sum round oc Hround. cbn [zero_row pva_planned pva_actual pva_variance eval].
    split; [reflexivity|]. split.
    + apply Hround.
    + change (Double.sub (Double.of_Q 0) (Double.of_Q 0)) with Double.zero. apply Hround.
Qed.

Lemma planned_vs_actual_cross_product_witness :
  exists pairs,
    planned_vs_actual "2026-01" Sample.household
    = Ok (List.map (pva_row_for "2026-01" Sample.household) pairs)
    /\ Permutation pairs
         (cross_join (owners Sample.household)
            (List.filter cat_active (categories Sample.household)))
    /\ StronglySorted (fun x y => pva_pair_order x y = true) pairs.
Proof.
  destruct (planned_vs_actual_cross_product "2026-01" Sample.household
              household_integrity eq_refl) as (pairs & H1 & H2 & H3 & _).
  exists pairs. auto.
Defined.

(** The pair without budget and without transactions of the specification:
    its row is present, and it is the zero row; the pair with two
    transactions has their sum. *)
Example planned_vs_actual_zero_row :
  exists rows,
    planned_vs_actual "2026-01" Sample.household = Ok rows
    /\ In (zero_row (Sample.owner 3 "person_2" "Person 2" 2, Sample.category 11 "Dining" true))
          rows
    /\ In {| pva_owner := "Shared"; pva_category := "Groceries";
             pva_planned := 0;
             pva_actual := Round (Sum [ (1234 # 100)%Q; (1 # 3)%Q ]) 2;
             pva_variance :=
               Round (Minus (Val 0) (Sum [ (1234 # 100)%Q; (1 # 3)%Q ])) 2 |} rows.
Proof. eexists. split; [reflexivity|]. simpl. intuition. Qed.

(** ** Debt progress *)

Lemma positive_not_zero (y : double) :
  Double.ltb Double.zero y = true -> Double.eqb y Double.zero = false.
Proof. destruct y as [[|]| [|] | |[|] m e]; cbn; congruence. Qed.

(** [round(x, d)] of a finite float is the double nearest to a decimal of
    [d] digits, or a zero of the sign of [x]. *)
Lemma py_round_is_decimal (d : nat) (s : bool) (m : positive) (e : Z) :
  (Z.of_nat d <= 323)%Z ->
  py_round d (S754_finite s m e) = S754_zero s
  \/ exists k : Z, py_round d (S754_finite s m e) = Double.of_Q (k # Z.to_pos (pow10 d)).
Proof.
  intros Hd. unfold py_round.
  destruct (Z.ltb_spec 323 (Z.of_nat d)) as [H|_]; [lia|].
  cbv zeta.
  match goal with |- context [match ?k with Zpos _ => _ | _ => _ end] => destruct k as [|p|p] end.
  - left. reflexivity.
  - right. exists (if s then Zneg p else Zpos p). destruct s; reflexivity.
  - left. reflexivity.
Qed.

(** [pct_used] never divides by zero. *)
Lemma pct_used_spec (r : ProgressRow) :
  pct_used r = Ok (utilization_spec (pr_credit_limit r) (pr_curr_balance r)).
Proof.
  unfold pct_used, utilization_spec, py_div.
  destruct (pr_credit_limit r) as [lim|]; [|reflexivity].
  destruct (is_positive lim) eqn:E.
  - destruct (pr_curr_balance r) as [cb|]; [|reflexivity].
    rewrite (positive_not_zero _ E). reflexivity.
  - destruct (pr_curr_balance r); reflexivity.
Qed.

(** [payoff_pct] never divides by zero. *)
Lemma payoff_pct_spec (r : ProgressRow) :
  payoff_pct r = Ok (payoff_spec (pr_start_balance r) (pr_curr_balance r)).
Proof.
  unfold payoff_pct, payoff_spec, py_div.
  destruct (pr_start_balance r) as [sb|]; [|reflexivity].
  destruct (is_positive sb) eqn:E.
  - destruct (pr_curr_balance r) as [cb|]; [|reflexivity].
    rewrite (positive_not_zero _ E). reflexivity.
  - destruct (pr_curr_balance r); reflexivity.
Qed.

Lemma delta_balance_spec (r : ProgressRow) :
  delta_balance r = delta_spec (pr_curr_balance r) (pr_prev_balance r).
Proof. reflexivity. Qed.

Lemma debt_progress_columns_spec (rows : list ProgressRow) :
  debt_progress_columns rows = Ok (List.map progress_view_spec rows).
Proof.
  induction rows as [|r rows IH]; [reflexivity|].
  cbn [debt_progress_columns List.map].
  rewrite pct_used_spec, payoff_pct_spec, IH. reflexivity.
Qed.

Lemma desc_total (x y : string) :
  not_gt (String.compare y x) = true \/ not_gt (String.compare x y) = true.
Proof.
  rewrite (String.compare_antisym y x).
  destruct (String.compare x y); simpl; auto.
Qed.

Lemma string_leb_not_gt (x y : string) : String.leb x y = not_gt (String.compare x y).
Proof. unfold String.leb. destruct (String.compare x y); reflexivity. Qed.

(** The sub-query of the second left join finds the greatest month below
    the requested one. *)
Lemma prev_month_spec (a : Id) (month : string) (s : Store) :
  match prev_month a month s with
  | Some pm =>
      (exists r, In r (account_snapshots s) /\ snap_account_id r = a
                 /\ snap_month r = pm /\ String.ltb pm month = true)
      /\ forall r', In r' (account_snapshots s) -> snap_account_id r' = a ->
                    String.ltb (snap_month r') month = true ->
                    String.leb (snap_month r') pm = true
  | None =>
      forall r', In r' (account_snapshots s) -> snap_account_id r' = a ->
                 String.ltb (snap_month r') month = false
  end.
Proof.
  unfold prev_month.
  set (below := fun r => (snap_account_id r =? a)%nat && String.ltb (snap_month r) month).
  set (desc := fun x y => not_gt (String.compare y x)).
  set (M := List.map snap_month (List.filter below (account_snapshots s))).
  assert (HinM : forall r', In r' (account_snapshots s) -> snap_account_id r' = a ->
                            String.ltb (snap_month r') month = true ->
                            In (snap_month r') (order_by desc M)).
  { intros r' Hin Ha Hlt. apply in_order_by. apply in_map. apply filter_In.
    split; [exact Hin|]. unfold below. rewrite Ha, Nat.eqb_refl, Hlt. reflexivity. }
  pose proof (order_by_sorted desc desc_total
                (fun x y z H1 H2 => string_not_gt_trans z y x H2 H1) M) as Hsorted.
  destruct (order_by desc M) as [|pm rest] eqn:E; cbn [hd_error].
  - intros r' Hin Ha. destruct (String.ltb (snap_month r') month) eqn:Hlt; [|reflexivity].
    destruct (HinM r' Hin Ha Hlt).
  - split.
    + assert (Hpm : In pm M) by (apply (in_order_by desc); rewrite E; left; reflexivity).
      apply in_map_iff in Hpm as (r & Hr & Hf).
      apply filter_In in Hf as [Hin Hb]. unfold below in Hb.
      apply andb_true_iff in Hb as [Hb1 Hb2]. apply Nat.eqb_eq in Hb1.
      exists r. rewrite <- Hr. auto.
    + intros r' Hin Ha Hlt. rewrite string_leb_not_gt.
      destruct (HinM r' Hin Ha Hlt) as [<- | Hrest].
      * rewrite string_compare_refl. reflexivity.
      * inversion Hsorted as [|x l _ Hall]; subst.
        rewrite List.Forall_forall in Hall. apply (Hall _ Hrest).
Qed.

Lemma previous_snapshot_correct (a : Id) (month : string) (s : Store) :
  previous_snapshot_of a month s (previous_snapshot a month s).
Proof.
  unfold previous_snapshot. pose proof (prev_month_spec a month s) as H.
  destruct (prev_month a month s) as [pm|]; [|exact H].
  destruct H as ((r & Hin & Ha & Hm & Hlt) & Hmax).
  destruct (List.filter (snap_key_eqb a pm) (account_snapshots s)) as [|r0 rs] eqn:F.
  - exfalso.
    assert (Hr : In r (List.filter (snap_key_eqb a pm) (account_snapshots s))).
    { apply filter_In. split; [exact Hin|].
      unfold snap_key_eqb. rewrite Ha, Hm, Nat.eqb_refl, String.eqb_refl. reflexivity. }
    rewrite F in Hr. destruct Hr.
  - cbn [hd_error previous_snapshot_of].
    assert (Hr0 : In r0 (List.filter (snap_key_eqb a pm) (account_snapshots s)))
      by (rewrite F; left; reflexivity).
    apply filter_In in Hr0 as [Hin0 Hk]. unfold snap_key_eqb in Hk.
    apply andb_true_iff in Hk as [Hk1 Hk2].
    apply Nat.eqb_eq in Hk1. apply String.eqb_eq in Hk2.
    rewrite Hk2. auto.
Qed.

Lemma previous_join_filter (a : Id) (month : string) (s : Store) :
  List.filter (fun p => match prev_month a month s with
                        | Some pm => snap_key_eqb a pm p
                        | None => false
                        end) (account_snapshots s)
  = match prev_month a month s with
    | Some pm => List.filter (snap_key_eqb a pm) (account_snapshots s)
    | None => []
    end.
Proof.
  destruct (prev_month a month s); [reflexivity|].
  apply filter_none. reflexivity.
Qed.

Lemma previous_join_head (a : Id) (month : string) (s : Store) :
  hd_error (List.filter (fun p => match prev_month a month s with
                                  | Some pm => snap_key_eqb a pm p
                                  | None => false
                                  end) (account_snapshots s))
  = previous_snapshot a month s.
Proof.
  rewrite previous_join_filter. unfold previous_snapshot.
  destruct (prev_month a month s); reflexivity.
Qed.

(** The rows of [latest_snapshot_by_account]: one per active account and
    its owner. *)
Lemma latest_snapshot_rows (m : string) (s : Store) :
  integrity s ->
  latest_snapshot_by_account m s
  = List.map (progress_row_for (PyStr.strip m) s)
      (order_by progress_pair_order
         (List.filter (fun ao => acc_active (fst ao))
            (inner_join (accounts s) (owners s)
               (fun a o => (ow_id o =? acc_owner_id a)%nat)))).
Proof.
  intros Hint. unfold latest_snapshot_by_account.
  set (month := PyStr.strip m).
  set (J := inner_join (accounts s) (owners s)
              (fun a o => (ow_id o =? acc_owner_id a)%nat)).
  rewrite (left_join_unique J (account_snapshots s))
    by (intros [a o] _; apply (snap_unique s Hint)).
  rewrite left_join_unique.
  2:{ intros [[a o] c] _. cbn [fst]. rewrite previous_join_filter.
      destruct (prev_month (acc_id a) month s); [apply (snap_unique s Hint) | simpl; lia]. }
  rewrite List.map_map, filter_map_comm. cbn [fst snd].
  rewrite (order_by_map progress_pair_order)
    by (intros [a1 o1] [a2 o2]; reflexivity).
  rewrite List.map_map. apply map_ext. intros [a o].
  cbn [fst snd]. rewrite previous_join_head. reflexivity.
Qed.

Lemma Forall2_map_both {A B C : Type} (R : B -> C -> Prop) (f : A -> B) (g : A -> C)
    (l : list A) :
  (forall x, In x l -> R (f x) (g x)) -> Forall2 R (List.map f l) (List.map g l).
Proof.
  induction l as [|x l IH]; intros H; simpl; constructor.
  - apply H. left. reflexivity.
  - apply IH. intros y Hy. apply H. right. exact Hy.
Qed.

Lemma progress_view_for_row (month : string) (s : Store) (a : Account) (o : Owner) :
  progress_view_for month s a (progress_view_spec (progress_row_for month s (a, o))).
Proof.
  unfold progress_view_for, progress_view_spec, progress_row_for. cbn.
  repeat split.
  exists (previous_snapshot (acc_id a) month s).
  split; [apply previous_snapshot_correct | reflexivity].
Qed.

(** C5.  For every month and every store with integrity, the debt-progress
    derivation returns (it raises nothing, so it never divides by zero) one
    view per active account.  The view of an account carries the balance of
    its snapshot for exactly that month, or null; as previous balance the
    balance of its snapshot with the greatest month strictly below, or null
    when there is none; and the three derived columns: 100 * current /
    limit and 100 * (start - current) / start rounded to one decimal,
    current - previous rounded to two, each computed on doubles as Python
    computes it, and null when an input is missing or not positive. *)
Theorem debt_progress_per_account :
  forall (m : string) (s : Store),
    integrity s ->
    exists accs views,
      debt_progress m s = Ok views
      /\ Permutation accs (List.filter acc_active (accounts s))
      /\ Forall2 (progress_view_for (PyStr.strip m) s) accs views.
Proof.
  intros m s Hint.
  set (J := inner_join (accounts s) (owners s)
              (fun a o => (ow_id o =? acc_owner_id a)%nat)).
  set (L := order_by progress_pair_order
              (List.filter (fun ao => acc_active (fst ao)) J)).
  exists (List.map fst L).
  exists (List.map (fun ao => progress_view_spec (progress_row_for (PyStr.strip m) s ao)) L).
  split; [|split].
  - unfold debt_progress. rewrite (latest_snapshot_rows m s Hint).
    rewrite debt_progress_columns_spec, List.map_map. reflexivity.
  - destruct (inner_join_unique (accounts s) (owners s)
                (fun a o => (ow_id o =? acc_owner_id a)%nat) (acc_owner s Hint))
      as [Hfst _].
    fold J in Hfst. rewrite <- Hfst.
    rewrite (filter_map_comm acc_active fst J).
    apply Permutation_map. apply Permutation_sym. apply order_by_perm.
  - apply Forall2_map_both. intros [a o] _. apply progress_view_for_row.
Qed.

Lemma debt_progress_per_account_witness :
  exists accs views,
    debt_progress "2026-01" Sample.household = Ok views
    /\ Permutation accs (List.filter acc_active (accounts Sample.household))
    /\ Forall2 (progress_view_for "2026-01" Sample.household) accs views.
Proof.
  exact (debt_progress_per_account "2026-01" Sample.household household_integrity).
Defined.

(** The account of the specification: start balance 1000, limit 500,
    balance 400 in 2026-01 and 600 in 2025-12 (and 700 in 2025-10); and an
    account without any snapshot. *)
Example debt_progress_household :
  List.map (fun v => (pr_account (pv_row v), pv_utilization v, pv_payoff v, pv_balance_delta v))
           (after (debt_progress "2026-01" Sample.household) [])
  = [ ("B", None, None, None);
      ("A", Some (Double.of_Q 80), Some (Double.of_Q 60), Some (Double.of_Q (-200 # 1))) ].
Proof. vm_compute. reflexivity. Qed.

(** The columns are those of Python's doubles: 100.0 * 7 / 2000 lies just
    below 0.35 and is rounded to 0.3, 100.0 * 9 / 2000 lies just above 0.45
    and is rounded to 0.5; 2.675 - 0 lies below 2.675 and is rounded to
    2.67. *)
Example debt_progress_on_doubles :
  utilization_spec (Some 2000%Q) (Some 7%Q) = Some (Double.of_Q (3 # 10))
  /\ utilization_spec (Some 2000%Q) (Some 9%Q) = Some (Double.of_Q (5 # 10))
  /\ payoff_spec (Some 2000%Q) (Some 1993%Q) = Some (Double.of_Q (3 # 10))
  /\ delta_spec (Some (2675 # 1000)%Q) (Some 0%Q) = Some (Double.of_Q (267 # 100)).
Proof. vm_compute. repeat split. Qed.

(** Months may have gaps: in 2025-11 the previous balance of the account
    is that of 2025-10. *)
Example debt_progress_gap :
  List.map (fun v => (pr_account (pv_row v), pr_curr_balance (pv_row v),
                      pr_prev_balance (pv_row v)))
           (after (debt_progress "2025-11" Sample.household) [])
  = [ ("B", None, None); ("A", None, Some 700%Q) ].
Proof. reflexivity. Qed.

(** ** The confirmation protocol *)

Lemma button_excl (ev : Event) (k1 k2 : string) :
  button ev k1 = true -> String.eqb k1 k2 = false -> button ev k2 = false.
Proof.
  destruct ev as [|k]; simpl; [discriminate|].
  intros H1 H2. apply String.eqb_eq in H1. subst k. exact H2.
Qed.

Lemma gate_shape_db (on_confirm on_save : Script unit) (w : Store -> Result Store)
    (ev : Event) (month action save_key : string) (a : App) :
  PyStr.strip month = month ->
  (forall a', db (snd (on_confirm a')) = commit w (db a')) ->
  (forall a', db (snd (on_save a')) = commit w (db a')) ->
  String.eqb (confirm_key action month) save_key = false ->
  db (snd (gate_shape on_confirm on_save ev month action save_key a))
  = if is_month_closed month (db a)
    then if button ev (confirm_key action month)
            && default false (session_state a !! pending_key action month)
         then commit w (db a) else db a
    else if button ev save_key then commit w (db a) else db a.
Proof.
  intros Hs Hc Hsv Hne.
  unfold gate_shape, confirm_bar_if_pending, arm_two_step_if_closed, bind,
    month_closed, get_flag, set_flag, pop_flag, ret, st_rerun.
  rewrite Hs.
  destruct (is_month_closed month (db a)) eqn:Ec; cbn [negb fst snd db session_state].
  - destruct (default false (session_state a !! pending_key action month)) eqn:Ep;
      cbn [negb].
    + destruct (button ev (confirm_key action month)) eqn:Bc; cbn [andb].
      * rewrite (button_excl ev _ _ Bc Hne).
        match goal with |- context [on_confirm ?x] =>
          pose proof (Hc x) as Hx; destruct (on_confirm x) as [[u| |ex] a''] end;
          cbn [snd db] in *; exact Hx.
      * destruct (button ev (cancel_key action month)); cbn [snd db]; [reflexivity|].
        destruct (button ev save_key); cbn [snd db]; [|reflexivity].
        rewrite Ec. cbn. rewrite Ec. reflexivity.
    + rewrite andb_false_r.
      destruct (button ev save_key); cbn [snd db]; [|reflexivity].
      rewrite Ec. cbn. rewrite Ec. reflexivity.
  - destruct (button ev save_key); cbn [snd db]; [|reflexivity].
    rewrite Ec. cbn [snd db].
    match goal with |- context [on_save ?x] =>
      pose proof (Hsv x) as Hx; destruct (on_save x) as [[u| |ex] a''] end;
      cbn [snd db] in *; exact Hx.
Qed.

Lemma gate_shape_arms (on_confirm on_save : Script unit) (month action save_key : string)
    (a : App) :
  PyStr.strip month = month ->
  is_month_closed month (db a) = true ->
  String.eqb save_key (confirm_key action month) = false ->
  String.eqb save_key (cancel_key action month) = false ->
  default false
    (session_state (snd (gate_shape on_confirm on_save (Pressed save_key) month action save_key a))
       !! pending_key action month) = true.
Proof.
  intros Hs Ec Hn1 Hn2.
  unfold gate_shape, confirm_bar_if_pending, arm_two_step_if_closed, bind,
    month_closed, get_flag, set_flag, pop_flag, ret, st_rerun, button.
  rewrite Hs, Ec, Hn1, Hn2, String.eqb_refl. cbn [negb].
  destruct (default false (session_state a !! pending_key action month));
    cbn [negb snd db session_state]; rewrite Ec; cbn [snd db session_state];
    rewrite Ec; cbn [snd session_state]; rewrite lookup_insert_eq; reflexivity.
Qed.

Lemma gate_shape_disarms (on_confirm on_save : Script unit) (month action save_key : string)
    (a : App) :
  PyStr.strip month = month ->
  is_month_closed month (db a) = true ->
  default false (session_state a !! pending_key action month) = true ->
  (forall a', session_state (snd (on_confirm a')) = session_state a') ->
  String.eqb (confirm_key action month) save_key = false ->
  default false
    (session_state
       (snd (gate_shape on_confirm on_save (Pressed (confirm_key action month))
               month action save_key a))
       !! pending_key action month) = false.
Proof.
  intros Hs Ec Ep Hsess Hne.
  unfold gate_shape, confirm_bar_if_pending, arm_two_step_if_closed, bind,
    month_closed, get_flag, set_flag, pop_flag, ret, st_rerun, button.
  rewrite Hs, Ec. cbn [negb snd db session_state]. rewrite Ep, String.eqb_refl, Hne.
  cbn [negb].
  match goal with |- context [on_confirm ?x] =>
    pose proof (Hsess x) as Hx; destruct (on_confirm x) as [[u| |ex] a''] end;
    cbn [snd session_state] in *; rewrite Hx, lookup_insert_eq; reflexivity.
Qed.

Lemma db_try_write (w : Store -> Result Store) (a : App) :
  db (snd (try_write w a)) = commit w (db a).
Proof. unfold try_write, commit. destruct (w (db a)); reflexivity. Qed.

Lemma db_do_write (w : Store -> Result Store) (a : App) :
  db (snd (do_write w a)) = commit w (db a).
Proof. unfold do_write, commit. destruct (w (db a)); reflexivity. Qed.

Lemma session_try_write (w : Store -> Result Store) (a : App) :
  session_state (snd (try_write w a)) = session_state a.
Proof. unfold try_write. destruct (w (db a)); reflexivity. Qed.

Lemma session_do_write (w : Store -> Result Store) (a : App) :
  session_state (snd (do_write w a)) = session_state a.
Proof. unfold do_write. destruct (w (db a)); reflexivity. Qed.

Lemma txn_month_stripped (d : Date) :
  PyStr.strip (PyStr.prefix 7 (isoformat d)) = PyStr.prefix 7 (isoformat d).
Proof. apply yyyy_mm_stripped. apply txn_month_yyyy_mm. Qed.

Lemma existsb_filter_shape {A : Type} (f : A -> bool) (l : list A) :
  existsb f l = match List.filter f l with [] => false | _ :: _ => true end.
Proof.
  induction l as [|x l IH]; simpl; [reflexivity|].
  destruct (f x); simpl; [reflexivity | exact IH].
Qed.

Lemma csv_import_db (e : Env) (ev : Event) (rows : list TxnInput) (a : App) :
  db (snd (csv_import e ev rows a))
  = if existsb (fun mm => is_month_closed mm (db a)) (months_touched rows)
    then if button ev "csv_confirm"
            && default false (session_state a !! csv_pending_key rows)
         then bulk_add_transactions e rows (db a) else db a
    else if button ev "csv_import_btn2" then bulk_add_transactions e rows (db a) else db a.
Proof.
  unfold csv_import. rewrite existsb_filter_shape.
  destruct (List.filter (fun mm => is_month_closed mm (db a)) (months_touched rows)).
  - unfold bind, ret, st_rerun. destruct (button ev "csv_import_btn2"); reflexivity.
  - unfold bind, ret, st_rerun, set_flag, get_flag.
    destruct (button ev "csv_import_btn") eqn:B1.
    + rewrite (button_excl ev _ "csv_confirm" B1 eq_refl). reflexivity.
    + cbn [snd db session_state].
      destruct (default false (session_state a !! csv_pending_key rows));
        [|rewrite andb_false_r; reflexivity].
      destruct (button ev "csv_confirm"); cbn [andb snd db]; [reflexivity|].
      destruct (button ev "csv_cancel"); reflexivity.
Qed.

Lemma csv_import_arms (e : Env) (rows : list TxnInput) (a : App) :
  existsb (fun mm => is_month_closed mm (db a)) (months_touched rows) = true ->
  default false
    (session_state (snd (csv_import e (Pressed "csv_import_btn") rows a))
       !! csv_pending_key rows) = true.
Proof.
  unfold csv_import. rewrite existsb_filter_shape.
  destruct (List.filter (fun mm => is_month_closed mm (db a)) (months_touched rows));
    [discriminate|]. intros _.
  unfold bind, ret, st_rerun, set_flag, get_flag, button.
  cbn [String.eqb Ascii.eqb Bool.eqb andb snd session_state].
  rewrite lookup_insert_eq. reflexivity.
Qed.

Lemma csv_import_disarms (e : Env) (rows : list TxnInput) (a : App) :
  existsb (fun mm => is_month_closed mm (db a)) (months_touched rows) = true ->
  default false (session_state a !! csv_pending_key rows) = true ->
  default false
    (session_state (snd (csv_import e (Pressed "csv_confirm") rows a))
       !! csv_pending_key rows) = false.
Proof.
  unfold csv_import. rewrite existsb_filter_shape.
  destruct (List.filter (fun mm => is_month_closed mm (db a)) (months_touched rows));
    [discriminate|]. intros _ Hp.
  unfold bind, ret, st_rerun, set_flag, get_flag, button.
  cbn [String.eqb Ascii.eqb Bool.eqb andb snd db session_state].
  rewrite Hp. cbn [snd db session_state].
  rewrite lookup_insert_eq. reflexivity.
Qed.

(** What one run of a tab does to the database. *)
Lemma run_tab_db (g : GatedWrite) (e : Env) (ev : Event) (a : App) :
  db (after_run g e ev a)
  = if target_closed g (db a)
    then if button ev (confirm_button g) && is_pending g a
         then commit (write_of g e) (db a) else db a
    else if button ev (save_button g false)
         then commit (write_of g e) (db a) else db a.
Proof.
  unfold after_run, is_pending.
  destruct g as [d o c amt desc | sel o c planned | sel bill paid amt pd note
                 | sel acc bal pay | rows].
  - exact (gate_shape_db _ _ (add_transaction e (isoformat d) o c amt desc) ev
             (PyStr.prefix 7 (isoformat d)) "add_expense" "Save expense" a
             (txn_month_stripped d) (db_try_write _) (db_try_write _) eq_refl).
  - exact (gate_shape_db _ _ (upsert_budget e (PyStr.strip sel) o c planned) ev
             (PyStr.strip sel) "save_budget" "bud_save" a
             (strip_idem sel) (db_try_write _) (db_try_write _) eq_refl).
  - exact (gate_shape_db _ _ (write_of (SaveBillPayment sel bill paid amt pd note) e) ev
             (PyStr.strip sel) "save_bill_payment" "bill_save" a
             (strip_idem sel) (db_do_write _) (db_do_write _) eq_refl).
  - exact (gate_shape_db _ _ (upsert_snapshot e acc (PyStr.strip sel) bal pay) ev
             (PyStr.strip sel) "save_snapshot" "snap_save" a
             (strip_idem sel) (db_do_write _) (db_try_write _) eq_refl).
  - apply csv_import_db.
Qed.

(** Pressing the save button on a closed month raises the pending flag. *)
Lemma run_tab_arms (g : GatedWrite) (e : Env) (a : App) :
  target_closed g (db a) = true ->
  is_pending g (after_run g e (Pressed (save_button g true)) a) = true.
Proof.
  unfold after_run, is_pending.
  destruct g as [d o c amt desc | sel o c planned | sel bill paid amt pd note
                 | sel acc bal pay | rows]; intros Hc.
  - exact (gate_shape_arms _ _ (PyStr.prefix 7 (isoformat d)) "add_expense" "Save expense" a
             (txn_month_stripped d) Hc eq_refl eq_refl).
  - exact (gate_shape_arms _ _ (PyStr.strip sel) "save_budget" "bud_save" a
             (strip_idem sel) Hc eq_refl eq_refl).
  - exact (gate_shape_arms _ _ (PyStr.strip sel) "save_bill_payment" "bill_save" a
             (strip_idem sel) Hc eq_refl eq_refl).
  - exact (gate_shape_arms _ _ (PyStr.strip sel) "save_snapshot" "snap_save" a
             (strip_idem sel) Hc eq_refl eq_refl).
  - apply csv_import_arms. exact Hc.
Qed.

(** Pressing the confirm button lowers it. *)
Lemma run_tab_disarms (g : GatedWrite) (e : Env) (a : App) :
  target_closed g (db a) = true ->
  is_pending g a = true ->
  is_pending g (after_run g e (Pressed (confirm_button g)) a) = false.
Proof.
  unfold after_run, is_pending.
  destruct g as [d o c amt desc | sel o c planned | sel bill paid amt pd note
                 | sel acc bal pay | rows]; intros Hc Hp.
  - exact (gate_shape_disarms
             (try_write (add_transaction e (isoformat d) o c amt desc))
             (try_write (add_transaction e (isoformat d) o c amt desc))
             (PyStr.prefix 7 (isoformat d)) "add_expense" "Save expense" a
             (txn_month_stripped d) Hc Hp (session_try_write _) eq_refl).
  - exact (gate_shape_disarms
             (try_write (upsert_budget e (PyStr.strip sel) o c planned))
             (try_write (upsert_budget e (PyStr.strip sel) o c planned))
             (PyStr.strip sel) "save_budget" "bud_save" a
             (strip_idem sel) Hc Hp (session_try_write _) eq_refl).
  - exact (gate_shape_disarms
             (do_write (write_of (SaveBillPayment sel bill paid amt pd note) e))
             (do_write (write_of (SaveBillPayment sel bill paid amt pd note) e))
             (PyStr.strip sel) "save_bill_payment" "bill_save" a
             (strip_idem sel) Hc Hp (session_do_write _) eq_refl).
  - exact (gate_shape_disarms
             (do_write (upsert_snapshot e acc (PyStr.strip sel) bal pay))
             (try_write (upsert_snapshot e acc (PyStr.strip sel) bal pay))
             (PyStr.strip sel) "save_snapshot" "snap_save" a
             (strip_idem sel) Hc Hp (session_do_write _) eq_refl).
  - apply csv_import_disarms; assumption.
Qed.

(** No gated write touches the closings. *)
Lemma write_keeps_closings (g : GatedWrite) (e : Env) (s : Store) :
  month_closings (commit (write_of g e) s) = month_closings s.
Proof.
  unfold commit.
  destruct g as [d o c amt desc | sel o c planned | sel bill paid amt pd note
                 | sel acc bal pay | rows]; cbn [write_of].
  - unfold add_transaction. destruct (Qle_bool amt 0); reflexivity.
  - unfold upsert_budget. destruct (month_check_fails _); reflexivity.
  - reflexivity.
  - unfold upsert_snapshot. destruct (month_check_fails _); reflexivity.
  - reflexivity.
Qed.

Lemma is_month_closed_closings (m : string) (s1 s2 : Store) :
  month_closings s1 = month_closings s2 -> is_month_closed m s1 = is_month_closed m s2.
Proof. unfold is_month_closed. intros ->. reflexivity. Qed.

Lemma write_keeps_closed (g : GatedWrite) (e : Env) (s : Store) :
  target_closed g (commit (write_of g e) s) = target_closed g s.
Proof.
  pose proof (write_keeps_closings g e s) as H.
  destruct g; cbn [target_closed]; try (apply is_month_closed_closings; exact H).
  induction (months_touched prepared_rows) as [|mm l IH]; [reflexivity|].
  cbn [existsb]. rewrite IH, (is_month_closed_closings mm _ _ H). reflexivity.
Qed.

Lemma save_is_not_confirm (g : GatedWrite) (closed : bool) :
  button (Pressed (save_button g closed)) (confirm_button g) = false.
Proof. destruct g; try reflexivity. destruct closed; reflexivity. Qed.

Lemma button_pressed (k : string) : button (Pressed k) k = true.
Proof. apply String.eqb_refl. Qed.

(** C1.  A gated write (transaction insert, budget upsert, bill-payment
    update, snapshot upsert, bulk import) asked for on a closed month leaves
    the database as it was and raises the pending flag; the confirm button
    then performs the write once and lowers the flag; after that neither a
    second confirm, nor the save button, nor an idle run changes the
    database; and as long as the month is closed no event but a confirm on a
    raised flag changes it.  On an open month the save button performs the
    write at once. *)
Theorem two_step_confirmation :
  forall (g : GatedWrite) (e1 e2 e3 : Env) (a : App),
    let closed := target_closed g (db a) in
    let save := Pressed (save_button g closed) in
    let confirm := Pressed (confirm_button g) in
    let a1 := after_run g e1 save a in
    let a2 := after_run g e2 confirm a1 in
    if closed
    then db a1 = db a
         /\ is_pending g a1 = true
         /\ db a2 = commit (write_of g e2) (db a)
         /\ is_pending g a2 = false
         /\ db (after_run g e3 confirm a2) = db a2
         /\ db (after_run g e3 save a2) = db a2
         /\ db (after_run g e3 Idle a2) = db a2
         /\ (forall ev,
               db (after_run g e3 ev a)
               = if button ev (confirm_button g) && is_pending g a
                 then commit (write_of g e3) (db a) else db a)
    else db a1 = commit (write_of g e1) (db a).
Proof.
  intros g e1 e2 e3 a closed save confirm a1 a2.
  destruct closed eqn:Ec; subst closed.
  - assert (H1 : db a1 = db a).
    { subst a1 save. rewrite run_tab_db, Ec, save_is_not_confirm. reflexivity. }
    assert (P1 : is_pending g a1 = true).
    { subst a1 save. apply run_tab_arms. exact Ec. }
    assert (C1 : target_closed g (db a1) = true) by (rewrite H1; exact Ec).
    assert (H2 : db a2 = commit (write_of g e2) (db a)).
    { subst a2 confirm. rewrite run_tab_db, C1, button_pressed, P1, H1. reflexivity. }
    assert (P2 : is_pending g a2 = false).
    { subst a2 confirm. apply run_tab_disarms; assumption. }
    assert (C2 : target_closed g (db a2) = true).
    { rewrite H2, write_keeps_closed. exact Ec. }
    repeat split; try assumption.
    + subst confirm. rewrite run_tab_db, C2, P2, andb_false_r. reflexivity.
    + subst save. rewrite run_tab_db, C2, save_is_not_confirm. reflexivity.
    + rewrite run_tab_db, C2. reflexivity.
    + intros ev. rewrite run_tab_db, Ec. reflexivity.
  - subst a1 save. rewrite run_tab_db, Ec, button_pressed. reflexivity.
Qed.

(** An expense dated in the closed month: save, confirm, confirm again. *)
Example expense_on_closed_month :
  let a1 := after_run Sample.expense Sample.env (Pressed "Save expense") Sample.start in
  let a2 := after_run Sample.expense Sample.env'
              (Pressed (confirm_button Sample.expense)) a1 in
  let a3 := after_run Sample.expense Sample.env'
              (Pressed (confirm_button Sample.expense)) a2 in
  target_closed Sample.expense (db Sample.start) = true
  /\ List.length (transactions (db Sample.start)) = 3%nat
  /\ List.length (transactions (db a1)) = 3%nat /\ is_pending Sample.expense a1 = true
  /\ List.length (transactions (db a2)) = 4%nat /\ is_pending Sample.expense a2 = false
  /\ List.length (transactions (db a3)) = 4%nat.
Proof. vm_compute. repeat split. Qed.

(** An import that touches the closed month and an open one: one
    confirmation for the whole batch. *)
Example import_on_closed_month :
  let b1 := after_run Sample.import Sample.env (Pressed "csv_import_btn") Sample.start in
  let b2 := after_run Sample.import Sample.env' (Pressed "csv_confirm") b1 in
  pending_flag Sample.import = "pending_csv_import_2026-01_2026-02"
  /\ List.length (transactions (db b1)) = 3%nat /\ is_pending Sample.import b1 = true
  /\ List.length (transactions (db b2)) = 5%nat /\ is_pending Sample.import b2 = false.
Proof. vm_compute. repeat split. Qed.

(** ** Amounts of stored transactions: every path *)


Lemma bad_amt_cons (r : CsvRow) (df : list CsvRow) :
  bad_amt (r :: df) = [] ->
  (exists x, csv_amount r = Some x /\ (0 < x)%Q) /\ bad_amt df = [].
Proof.
  unfold bad_amt. cbn [List.filter].
  destruct (csv_amount r) as [x|]; [|discriminate].
  destruct (Qle_bool x 0) eqn:E; [discriminate|].
  intros H. split; [|exact H].
  exists x. split; [reflexivity|].
  apply Qnot_le_lt. intros Hle. apply Qle_bool_iff in Hle. congruence.
Qed.


(** On a frame without bad amounts the loop ends with no other error than
    that of [get_or_create_category_id]. *)
Lemma csv_prepare_meets_every_amount (df : list CsvRow) :
  forall (e : Env) (a a' : App) (x : Exn),
    bad_amt df = [] ->
    csv_prepare e df a = (Failed x, a') ->
    x = ValueError "Category name cannot be empty.".
Proof.
  induction df as [|r rest IH]; intros e a a' x Hb; cbn [csv_prepare]; [discriminate|].
  apply bad_amt_cons in Hb as [(y & Hy & _) Hrest]. rewrite Hy.
  destruct (owner_id_from_label_or_key (csv_owner r) (db a)) as [o|].
  - destruct (get_or_create_category_id e (csv_category r) (db a)) as [[c s']|x0] eqn:G.
    + match goal with
      | |- context [csv_prepare ?e1 rest ?a1] =>
          pose proof (IH e1 a1) as IH'; destruct (csv_prepare e1 rest a1) as [[[u p]| |x'] a2]
      end; try discriminate.
      intros H. injection H as <- _. apply (IH' a2 x' Hrest). reflexivity.
    + intros H. injection H as <- _.
      revert G. unfold get_or_create_category_id.
      destruct (is_blank (PyStr.strip (csv_category r))).
      * intros G. injection G as <-. reflexivity.
      * destruct (hd_error _); discriminate.
  - pose proof (IH e a) as IH'. destruct (csv_prepare e rest a) as [[[u p]| |x'] a2];
      try discriminate.
    intros H. injection H as <- _. apply (IH' a2 x' Hrest). reflexivity.
Qed.







(** One run of the import on the frame without the refund creates the
    category Travel and stores the two rows. *)
Example csv_upload_imports :
  let a := snd (csv_upload (fun _ => true) Sample.env (Pressed "csv_import_btn2")
                  Sample.frame {| db := Sample.household; session_state := ∅ |}) in
  List.map cat_name (categories (db a)) = ["Groceries"; "Dining"; "Old"; "Travel"]
  /\ List.map (fun t => (txn_id t, txn_date t, txn_category_id t, txn_amount t))
              (skipn 3 (transactions (db a)))
     = [ (101%nat, "2026-02-03", 10%nat, 4%Q); (102%nat, "2026-02-15", 100%nat, 5%Q) ].
Proof. split; reflexivity. Qed.

(** ** Integrity is kept

    The empty database has integrity and the modelled mutations keep it, so
    the stores the theorems above assume are the stores the application
    reaches (accounts and owners are not written by these mutations). *)

Section KeyedTables.
Context {R K : Type} (keyof : R -> K) (matches : K -> R -> bool).
Hypothesis matches_iff : forall k r, matches k r = true <-> keyof r = k.

Lemma matches_same_key (k : K) (r r' : R) : keyof r = keyof r' -> matches k r = matches k r'.
Proof.
  intros H. destruct (matches k r') eqn:E.
  - apply matches_iff. apply matches_iff in E. congruence.
  - destruct (matches k r) eqn:E'; [|reflexivity].
    apply matches_iff in E'. rewrite H in E'. apply matches_iff in E'. congruence.
Qed.

Lemma update_where_count (cond : R -> bool) (set : R -> R) (k : K) (tbl : list R) :
  (forall r, keyof (set r) = keyof r) ->
  List.length (List.filter (matches k) (update_where cond set tbl))
  = List.length (List.filter (matches k) tbl).
Proof.
  intros Hset. unfold update_where.
  induction tbl as [|r tbl IH]; [reflexivity|].
  cbn [List.map List.filter].
  assert (E : matches k (if cond r then set r else r) = matches k r).
  { destruct (cond r); [|reflexivity]. apply matches_same_key. apply Hset. }
  rewrite E. destruct (matches k r); cbn [List.length]; rewrite IH; reflexivity.
Qed.

Lemma append_unique (new : R) (tbl : list R) :
  (forall k, (List.length (List.filter (matches k) tbl) <= 1)%nat) ->
  existsb (matches (keyof new)) tbl = false ->
  forall k, (List.length (List.filter (matches k) (tbl ++ [new])) <= 1)%nat.
Proof.
  intros Huniq Hfree k. rewrite List.filter_app, length_app. cbn [List.filter].
  destruct (matches k new) eqn:E; cbn [List.length].
  - apply matches_iff in E. subst k.
    rewrite (filter_nil_of_existsb _ tbl Hfree). simpl. lia.
  - specialize (Huniq k). lia.
Qed.

Lemma insert_or_update_unique (set : R -> R) (new : R) (tbl : list R) :
  (forall k, (List.length (List.filter (matches k) tbl) <= 1)%nat) ->
  (forall r, keyof (set r) = keyof r) ->
  forall k,
    (List.length
       (List.filter (matches k) (insert_or_update (matches (keyof new)) set new tbl)) <= 1)%nat.
Proof.
  intros Huniq Hset k. unfold insert_or_update.
  destruct (existsb (matches (keyof new)) tbl) eqn:E.
  - rewrite update_where_count by exact Hset. apply Huniq.
  - apply append_unique; assumption.
Qed.

End KeyedTables.

Lemma bp_key_iff (k : Id * string) (r : BillPayment) :
  bp_key_eqb (fst k) (snd k) r = true <-> (bp_bill_id r, bp_month r) = k.
Proof.
  split; [apply bp_key_sound|]. intros <-. unfold bp_key_eqb. simpl.
  rewrite Nat.eqb_refl, String.eqb_refl. reflexivity.
Qed.

Lemma snap_key_iff (k : Id * string) (r : AccountSnapshot) :
  snap_key_eqb (fst k) (snd k) r = true <-> (snap_account_id r, snap_month r) = k.
Proof.
  split; [apply snap_key_sound|]. intros <-. unfold snap_key_eqb. simpl.
  rewrite Nat.eqb_refl, String.eqb_refl. reflexivity.
Qed.

Lemma bud_key_iff (k : string * Id * Id) (r : Budget) :
  bud_key_eqb (fst (fst k)) (snd (fst k)) (snd k) r = true
  <-> (bud_month r, bud_owner_id r, bud_category_id r) = k.
Proof.
  split; [apply bud_key_sound|]. intros <-. unfold bud_key_eqb. simpl.
  rewrite String.eqb_refl, !Nat.eqb_refl. reflexivity.
Qed.

Lemma integrity_empty : integrity empty_store.
Proof. constructor; simpl; try lia; intros a []. Qed.

Lemma integrity_set_transactions (s : Store) (l : list Transaction) :
  integrity s -> integrity (set_transactions s l).
Proof. intros [H1 H2 H3 H4]. constructor; assumption. Qed.

Lemma integrity_set_month_closings (s : Store) (l : list MonthClosing) :
  integrity s -> integrity (set_month_closings s l).
Proof. intros [H1 H2 H3 H4]. constructor; assumption. Qed.

Lemma ensure_rows_unique (e : Env) (m : string) (bs : list Bill) :
  forall k tbl,
    (forall b m', (List.length (List.filter (bp_key_eqb b m') tbl) <= 1)%nat) ->
    forall b m', (List.length (List.filter (bp_key_eqb b m') (ensure_rows e m k bs tbl)) <= 1)%nat.
Proof.
  induction bs as [|b0 bs IH]; intros k tbl H; [exact H|].
  cbn [ensure_rows]. apply IH. intros b m'.
  unfold insert_or_ignore_payment.
  destruct (existsb _ tbl) eqn:E; [apply H|].
  apply (append_unique (fun r => (bp_bill_id r, bp_month r))
           (fun k => bp_key_eqb (fst k) (snd k)) bp_key_iff _ tbl
           (fun k => H (fst k) (snd k)) E (b, m')).
Qed.

Lemma integrity_ensure_bill_payment_rows (e : Env) (m : string) (s : Store) :
  integrity s -> integrity (ensure_bill_payment_rows e m s).
Proof.
  intros [H1 H2 H3 H4]. constructor; try assumption.
  unfold ensure_bill_payment_rows. cbn [bill_payments set_bill_payments].
  apply ensure_rows_unique. exact H1.
Qed.

Lemma integrity_set_bill_paid (e : Env) (m : string) (bill : Id) (paid : bool)
    (amount : option Q) (date note : option string) (s : Store) :
  integrity s -> integrity (set_bill_paid e m bill paid amount date note s).
Proof.
  intros H. apply (integrity_ensure_bill_payment_rows e (PyStr.strip m)) in H.
  destruct H as [H1 H2 H3 H4]. constructor; try assumption.
  intros b m'. unfold set_bill_paid. cbn [bill_payments set_bill_payments].
  rewrite (update_where_count (fun r => (bp_bill_id r, bp_month r))
             (fun k => bp_key_eqb (fst k) (snd k)) bp_key_iff _ _ (b, m'))
    by reflexivity.
  apply H1.
Qed.

Lemma integrity_upsert_budget (e : Env) (m : string) (o c : Id) (v : Q) (s s' : Store) :
  integrity s -> upsert_budget e m o c v s = Ok s' -> integrity s'.
Proof.
  intros [H1 H2 H3 H4]. unfold upsert_budget.
  destruct (month_check_fails (PyStr.strip m)); [discriminate|].
  intros E. injection E as <-. constructor; try assumption.
  intros m' o' c'. cbn [budgets set_budgets].
  match goal with
  | |- context [insert_or_update _ ?set ?new (budgets s)] =>
      apply (insert_or_update_unique
               (fun r => (bud_month r, bud_owner_id r, bud_category_id r))
               (fun k => bud_key_eqb (fst (fst k)) (snd (fst k)) (snd k)) bud_key_iff
               set new (budgets s) (fun k => H3 (fst (fst k)) (snd (fst k)) (snd k))
               (fun r => eq_refl) (m', o', c'))
  end.
Qed.

Lemma integrity_upsert_snapshot (e : Env) (a : Id) (m : string) (b p : Q) (s s' : Store) :
  integrity s -> upsert_snapshot e a m b p s = Ok s' -> integrity s'.
Proof.
  intros [H1 H2 H3 H4]. unfold upsert_snapshot.
  destruct (month_check_fails (PyStr.strip m)); [discriminate|].
  intros E. injection E as <-. constructor; try assumption.
  intros a' m'. cbn [account_snapshots set_account_snapshots].
  match goal with
  | |- context [insert_or_update _ ?set ?new (account_snapshots s)] =>
      apply (insert_or_update_unique (fun r => (snap_account_id r, snap_month r))
               (fun k => snap_key_eqb (fst k) (snd k)) snap_key_iff
               set new (account_snapshots s) (fun k => H2 (fst k) (snd k))
               (fun r => eq_refl) (a', m'))
  end.
Qed.

Lemma integrity_close_month (e : Env) (m : string) (note : option string) (s s' : Store) :
  integrity s -> close_month e m note s = Ok s' -> integrity s'.
Proof.
  intros H. unfold close_month.
  destruct (month_check_fails (PyStr.strip m)); [discriminate|].
  destruct (is_month_closed (PyStr.strip m) s); intros E; injection E as <-; [exact H|].
  apply integrity_set_month_closings. apply integrity_ensure_bill_payment_rows. exact H.
Qed.

(** Every gated write keeps the integrity of the store. *)
Lemma integrity_write (g : GatedWrite) (e : Env) (s : Store) :
  integrity s -> integrity (commit (write_of g e) s).
Proof.
  intros H. unfold commit.
  destruct g as [d o c amt desc | sel o c planned | sel bill paid amt pd note
                 | sel acc bal pay | rows]; cbn [write_of after].
  - unfold add_transaction. destruct (Qle_bool amt 0); [exact H|].
    apply integrity_set_transactions. exact H.
  - destruct (upsert_budget e (PyStr.strip sel) o c planned s) eqn:E; [|exact H].
    eapply integrity_upsert_budget; eauto.
  - apply integrity_set_bill_paid. exact H.
  - destruct (upsert_snapshot e acc (PyStr.strip sel) bal pay s) eqn:E; [|exact H].
    eapply integrity_upsert_snapshot; eauto.
  - apply integrity_set_transactions. exact H.
Qed.

(** ** Owners *)

Lemma insert_or_ignore_owner_covers (r : Owner) (tbl : list Owner) :
  existsb (fun o => String.eqb (ow_system_key o) (ow_system_key r))
          (insert_or_ignore_owner r tbl) = true.
Proof.
  unfold insert_or_ignore_owner.
  destruct (existsb _ tbl) eqn:E; [exact E|].
  rewrite existsb_app. simpl. rewrite String.eqb_refl. apply orb_true_r.
Qed.

Lemma seed_owners_extends (e : Env) (l : list (string * string * Z)) :
  forall k tbl, exists added, seed_owners e k l tbl = tbl ++ added.
Proof.
  induction l as [|[[key name] order] l IH]; intros k tbl; simpl.
  - exists []. symmetry. apply app_nil_r.
  - match goal with |- context [seed_owners e (S k) l ?t] =>
      destruct (IH (S k) t) as [added Hadded] end.
    rewrite Hadded. unfold insert_or_ignore_owner.
    destruct (existsb _ tbl).
    + exists added. reflexivity.
    + eexists. rewrite <- app_assoc. reflexivity.
Qed.

Lemma seed_owners_covers (e : Env) (l : list (string * string * Z)) :
  forall k tbl,
    Forall (fun sd => existsb (fun o => String.eqb (ow_system_key o) (fst (fst sd)))
                              (seed_owners e k l tbl) = true) l.
Proof.
  induction l as [|[[key name] order] l IH]; intros k tbl; simpl; constructor.
  - match goal with |- context [seed_owners e (S k) l ?t] =>
      destruct (seed_owners_extends e l (S k) t) as [added ->];
      pose proof (insert_or_ignore_owner_covers
                    {| ow_id := uid e k; ow_system_key := key; ow_display_name := name;
                       ow_sort_order := order; ow_created_at := now e (2 * k);
                       ow_updated_at := now e (2 * k + 1) |} tbl) as H
    end.
    rewrite existsb_app. simpl in *. rewrite H. reflexivity.
  - apply IH.
Qed.

Lemma seed_owners_noop (e : Env) (l : list (string * string * Z)) :
  forall k tbl,
    Forall (fun sd => existsb (fun o => String.eqb (ow_system_key o) (fst (fst sd))) tbl
                      = true) l ->
    seed_owners e k l tbl = tbl.
Proof.
  induction l as [|[[key name] order] l IH]; intros k tbl H; simpl; [reflexivity|].
  inversion H as [|x l' Hb Hbs]; subst. simpl in Hb.
  unfold insert_or_ignore_owner. cbn [ow_system_key]. rewrite Hb. apply IH. exact Hbs.
Qed.

Lemma seed_owners_count (e : Env) (l : list (string * string * Z)) (key : string) :
  forall k tbl,
    List.length (List.filter (fun o => String.eqb (ow_system_key o) key)
                             (seed_owners e k l tbl))
    = if existsb (fun o => String.eqb (ow_system_key o) key) tbl
      then List.length (List.filter (fun o => String.eqb (ow_system_key o) key) tbl)
      else if existsb (fun sd => String.eqb (fst (fst sd)) key) l then 1%nat else 0%nat.
Proof.
  induction l as [|[[key0 name] order] l IH]; intros k tbl.
  - simpl. destruct (existsb _ tbl) eqn:E; [reflexivity|].
    rewrite (filter_nil_of_existsb _ tbl E). reflexivity.
  - cbn [seed_owners existsb fst]. rewrite IH. clear IH.
    unfold insert_or_ignore_owner. cbn [ow_system_key].
    destruct (String.eqb key0 key) eqn:Ek.
    + apply String.eqb_eq in Ek. subst key0.
      destruct (existsb (fun o => String.eqb (ow_system_key o) key) tbl) eqn:E.
      * rewrite E. reflexivity.
      * rewrite existsb_app, List.filter_app. cbn [existsb List.filter ow_system_key].
        rewrite String.eqb_refl, orb_true_r.
        rewrite (filter_nil_of_existsb _ tbl E). reflexivity.
    + cbn [orb].
      destruct (existsb (fun o => String.eqb (ow_system_key o) key0) tbl) eqn:E0;
        [reflexivity|].
      rewrite existsb_app, List.filter_app. cbn [existsb List.filter ow_system_key].
      rewrite Ek, orb_false_r, app_nil_r. reflexivity.
Qed.

(** X1.  [init_db] can run at every start: the owners stored before are
    kept as they are, renamed or not; every seed key has an owner
    afterwards, exactly one when it had none before; and a second run
    changes nothing. *)
Theorem init_db_reseeds_nothing :
  forall (e1 e2 : Env) (s : Store),
    (exists added, owners (init_db e1 s) = owners s ++ added)
    /\ Forall (fun sd =>
                 List.length (List.filter (fun o => String.eqb (ow_system_key o) (fst (fst sd)))
                                          (owners (init_db e1 s)))
                 = if existsb (fun o => String.eqb (ow_system_key o) (fst (fst sd))) (owners s)
                   then List.length
                          (List.filter (fun o => String.eqb (ow_system_key o) (fst (fst sd)))
                                       (owners s))
                   else 1%nat) seeds
    /\ init_db e2 (init_db e1 s) = init_db e1 s
    /\ List.map or_display_name (get_owners (init_db e1 empty_store))
       = ["Shared"; "Person 1"; "Person 2"].
Proof.
  intros e1 e2 s. split; [|split; [|split]].
  - apply seed_owners_extends.
  - apply List.Forall_forall. intros sd Hsd.
    unfold init_db. cbn [owners set_owners]. rewrite seed_owners_count.
    destruct (existsb _ (owners s)); [reflexivity|].
    assert (H : existsb (fun sd0 => String.eqb (fst (fst sd0)) (fst (fst sd))) seeds = true).
    { apply existsb_exists. exists sd. split; [exact Hsd | apply String.eqb_refl]. }
    rewrite H. reflexivity.
  - unfold init_db.
    set (T := seed_owners e1 0 seeds (owners s)).
    change (owners (set_owners s T)) with T.
    rewrite (seed_owners_noop e2 seeds 0 T); [reflexivity|].
    subst T. apply seed_owners_covers.
  - reflexivity.
Qed.

Lemma is_blank_eq (s : string) : is_blank s = true -> s = "".
Proof. destruct s; [reflexivity | discriminate]. Qed.

(** X2.  [rename_owner] refuses a name that is blank once stripped, and
    otherwise changes the display name of the owners with the given
    identifier and nothing else: identifiers, system keys, sort orders, the
    other owners and the other tables are as before. *)
Theorem rename_owner_keeps_identity :
  forall (e : Env) (owner : Id) (new_name : string) (s : Store),
    if is_blank (PyStr.strip new_name)
    then rename_owner e owner new_name s = Raise (ValueError "Name cannot be empty.")
    else exists s',
        rename_owner e owner new_name s = Ok s'
        /\ List.map ow_id (owners s') = List.map ow_id (owners s)
        /\ List.map ow_system_key (owners s') = List.map ow_system_key (owners s)
        /\ List.map ow_sort_order (owners s') = List.map ow_sort_order (owners s)
        /\ Forall2 (fun o o' =>
                      if (ow_id o =? owner)%nat
                      then ow_display_name o' = PyStr.strip new_name
                      else o' = o) (owners s) (owners s')
        /\ set_owners s' (owners s) = s.
Proof.
  intros e owner new_name s. unfold rename_owner.
  destruct (is_blank (PyStr.strip new_name)); [reflexivity|].
  eexists. split; [reflexivity|]. cbn [owners set_owners]. unfold update_where.
  repeat split.
  - rewrite List.map_map. apply map_ext. intros o. destruct (ow_id o =? owner)%nat; reflexivity.
  - rewrite List.map_map. apply map_ext. intros o. destruct (ow_id o =? owner)%nat; reflexivity.
  - rewrite List.map_map. apply map_ext. intros o. destruct (ow_id o =? owner)%nat; reflexivity.
  - induction (owners s) as [|o l IH]; simpl; constructor; [|exact IH].
    destruct (ow_id o =? owner)%nat; reflexivity.
  - destruct s; reflexivity.
Qed.

Lemma sql_lower_blank (s : string) : is_blank (sql_lower s) = is_blank s.
Proof. destruct s; reflexivity. Qed.

Lemma same_folded_blank (a b : string) :
  same_folded a b = true -> is_blank a = is_blank b.
Proof.
  unfold same_folded. intros H. apply String.eqb_eq in H.
  rewrite <- (sql_lower_blank a), <- (sql_lower_blank b), H. reflexivity.
Qed.

Lemma same_folded_right (a b c : string) :
  same_folded a b = true -> same_folded c a = same_folded c b.
Proof.
  unfold same_folded. intros H. apply String.eqb_eq in H. rewrite H. reflexivity.
Qed.

(** X3.  [owner_id_from_label_or_key] answers with the identifier of a
    stored owner whose display name or system key equals the stripped label
    up to the case of ASCII letters; it answers nothing only for a blank
    label or when no owner matches; and two labels equal up to case get the
    same answer. *)
Theorem owner_lookup_ignores_case :
  forall (label label' : string) (s : Store),
    match owner_id_from_label_or_key label s with
    | Some i =>
        exists o, In o (owners s) /\ ow_id o = i
                  /\ (same_folded (ow_display_name o) (PyStr.strip label) = true
                      \/ same_folded (ow_system_key o) (PyStr.strip label) = true)
    | None =>
        is_blank (PyStr.strip label) = true
        \/ Forall (fun o => owner_matches (PyStr.strip label) o = false) (owners s)
    end
    /\ (if same_folded (PyStr.strip label) (PyStr.strip label')
        then owner_id_from_label_or_key label' s = owner_id_from_label_or_key label s
        else True).
Proof.
  intros label label' s. split.
  - unfold owner_id_from_label_or_key.
    destruct (is_blank (PyStr.strip label)) eqn:B; [left; reflexivity|].
    destruct (List.filter (owner_matches (PyStr.strip label)) (owners s)) as [|o os] eqn:F;
      cbn [hd_error option_map].
    + right. apply List.Forall_forall. intros o Ho.
      destruct (owner_matches (PyStr.strip label) o) eqn:M; [|reflexivity].
      assert (Hin : In o (List.filter (owner_matches (PyStr.strip label)) (owners s)))
        by (apply filter_In; auto).
      rewrite F in Hin. destruct Hin.
    + assert (Hin : In o (List.filter (owner_matches (PyStr.strip label)) (owners s)))
        by (rewrite F; left; reflexivity).
      apply filter_In in Hin as [Hin M]. exists o. split; [exact Hin|]. split; [reflexivity|].
      unfold owner_matches in M. apply orb_true_iff in M. exact M.
  - destruct (same_folded (PyStr.strip label) (PyStr.strip label')) eqn:E; [|exact I].
    unfold owner_id_from_label_or_key.
    rewrite (same_folded_blank _ _ E).
    destruct (is_blank (PyStr.strip label')); [reflexivity|].
    do 2 f_equal. apply filter_ext. intros o. unfold owner_matches.
    rewrite !(same_folded_right _ _ _ E). reflexivity.
Qed.

(** ** Categories *)

Lemma same_folded_refl (a : string) : same_folded a a = true.
Proof. apply String.eqb_refl. Qed.

Lemma folded_filter_ext (a b : string) (l : list Category) :
  same_folded a b = true ->
  List.filter (fun c => same_folded (cat_name c) b) l
  = List.filter (fun c => same_folded (cat_name c) a) l.
Proof.
  intros H. apply filter_ext. intros c. symmetry. apply same_folded_right. exact H.
Qed.

Lemma hd_error_filter_in {A : Type} (P : A -> bool) (l : list A) (x : A) :
  hd_error (List.filter P l) = Some x -> In x l /\ P x = true.
Proof.
  intros H. destruct (List.filter P l) as [|y ys] eqn:F; [discriminate|].
  injection H as ->.
  apply filter_In. rewrite F. left. reflexivity.
Qed.

Lemma hd_error_filter_none {A : Type} (P : A -> bool) (l : list A) :
  hd_error (List.filter P l) = None -> existsb P l = false.
Proof.
  intros H. destruct (existsb P l) eqn:E; [|reflexivity].
  apply existsb_exists in E as (x & Hx & Px).
  assert (Hin : In x (List.filter P l)) by (apply filter_In; auto).
  destruct (List.filter P l); [destruct Hin | discriminate].
Qed.

(** X4.  [get_or_create_category_id] returns the identifier of a stored
    category whose name equals the stripped argument up to case; it writes
    only when no such category exists, and then one active category with the
    stripped name; asked again, also with another spelling of the case, it
    returns the same identifier and writes nothing. *)
Theorem get_or_create_category_id_is_stable :
  forall (e1 e2 : Env) (name name' : string) (s : Store),
    is_blank (PyStr.strip name) = false ->
    same_folded (PyStr.strip name) (PyStr.strip name') = true ->
    exists i s1,
      get_or_create_category_id e1 name s = Ok (i, s1)
      /\ get_or_create_category_id e2 name' s1 = Ok (i, s1)
      /\ (exists c, In c (categories s1) /\ cat_id c = i
                    /\ same_folded (cat_name c) (PyStr.strip name) = true)
      /\ if existsb (fun c => same_folded (cat_name c) (PyStr.strip name)) (categories s)
         then s1 = s
         else exists c, s1 = set_categories s (categories s ++ [c])
                        /\ cat_id c = i /\ cat_name c = PyStr.strip name
                        /\ cat_active c = true.
Proof.
  intros e1 e2 name name' s Hb Hf.
  assert (Hb' : is_blank (PyStr.strip name') = false)
    by (rewrite <- (same_folded_blank _ _ Hf); exact Hb).
  unfold get_or_create_category_id. rewrite Hb, Hb'.
  destruct (hd_error (List.filter (fun c => same_folded (cat_name c) (PyStr.strip name))
                                  (categories s))) as [row|] eqn:H.
  - exists (cat_id row), s. split; [reflexivity|].
    rewrite (folded_filter_ext _ _ _ Hf), H. split; [reflexivity|].
    apply hd_error_filter_in in H as [Hin Hrow]. split; [exists row; auto|].
    assert (E : existsb (fun c => same_folded (cat_name c) (PyStr.strip name)) (categories s)
                = true) by (apply existsb_exists; exists row; auto).
    rewrite E. reflexivity.
  - pose proof (hd_error_filter_none _ _ H) as E. rewrite E.
    eexists. eexists. split; [reflexivity|].
    cbn [categories set_categories].
    rewrite (folded_filter_ext _ _ _ Hf), List.filter_app.
    rewrite (filter_nil_of_existsb _ _ E). cbn [List.filter cat_name app].
    rewrite same_folded_refl. cbn [hd_error].
    split; [reflexivity|]. split.
    + eexists. split; [apply in_or_app; right; left; reflexivity|].
      split; [reflexivity | apply same_folded_refl].
    + eexists. repeat split.
Qed.

Lemma get_or_create_category_id_is_stable_witness :
  exists i s1,
    get_or_create_category_id Sample.env " groceries " Sample.household = Ok (i, s1)
    /\ get_or_create_category_id Sample.env' "GROCERIES" s1 = Ok (i, s1)
    /\ i = 10%nat /\ s1 = Sample.household.
Proof.
  destruct (get_or_create_category_id_is_stable Sample.env Sample.env'
              " groceries " "GROCERIES" Sample.household eq_refl eq_refl)
    as (i & s1 & H1 & H2 & _ & H4).
  exists i, s1. split; [exact H1|]. split; [exact H2|].
  vm_compute in H4. subst s1. vm_compute in H1. injection H1 as <-. split; reflexivity.
Defined.

Lemma insert_or_ignore_category_present (r : Category) (tbl : list Category) :
  existsb (fun c => same_folded (cat_name c) (cat_name r)) tbl = true ->
  insert_or_ignore_category r tbl = tbl.
Proof. intros H. unfold insert_or_ignore_category. rewrite H. reflexivity. Qed.

(** X5.  [add_category] adds at most one row, after the rows stored before;
    a name that equals a stored one up to case is ignored, so adding twice,
    or adding a name and asking [get_or_create_category_id] for it, leaves
    one category of that name. *)
Theorem add_category_ignores_duplicates :
  forall (e1 e2 : Env) (name name' : string) (s : Store),
    is_blank (PyStr.strip name) = false ->
    same_folded (PyStr.strip name) (PyStr.strip name') = true ->
    exists s1,
      add_category e1 name s = Ok s1
      /\ (exists added, categories s1 = categories s ++ added
                        /\ (List.length added <= 1)%nat)
      /\ existsb (fun c => same_folded (cat_name c) (PyStr.strip name)) (categories s1) = true
      /\ add_category e2 name' s1 = Ok s1
      /\ exists i, get_or_create_category_id e2 name' s1 = Ok (i, s1).
Proof.
  intros e1 e2 name name' s Hb Hf.
  assert (Hb' : is_blank (PyStr.strip name') = false)
    by (rewrite <- (same_folded_blank _ _ Hf); exact Hb).
  unfold add_category. rewrite Hb, Hb'.
  eexists. split; [reflexivity|]. cbn [categories set_categories].
  set (new := {| cat_id := uid e1 0; cat_name := PyStr.strip name; cat_active := true;
                 cat_created_at := now e1 0; cat_updated_at := now e1 1 |}).
  assert (Hcov : existsb (fun c => same_folded (cat_name c) (PyStr.strip name))
                   (insert_or_ignore_category new (categories s)) = true).
  { unfold insert_or_ignore_category. cbn [cat_name new].
    destruct (existsb _ (categories s)) eqn:E; [exact E|].
    rewrite existsb_app. cbn [existsb cat_name new].
    rewrite same_folded_refl. rewrite orb_true_r. reflexivity. }
  assert (Hcov' : existsb (fun c => same_folded (cat_name c) (PyStr.strip name'))
                    (insert_or_ignore_category new (categories s)) = true).
  { rewrite <- Hcov. clear Hcov.
    induction (insert_or_ignore_category new (categories s)) as [|c l IH];
      [reflexivity|].
    cbn [existsb]. rewrite IH, (same_folded_right _ _ (cat_name c) Hf). reflexivity. }
  split; [|split; [exact Hcov|split]].
  - unfold insert_or_ignore_category. destruct (existsb _ (categories s)).
    + exists []. rewrite app_nil_r. split; [reflexivity | simpl; lia].
    + exists [new]. split; [reflexivity | simpl; lia].
  - match goal with
    | |- context [insert_or_ignore_category ?r (insert_or_ignore_category new ?t)] =>
        rewrite (insert_or_ignore_category_present r (insert_or_ignore_category new t) Hcov')
    end.
    destruct s; reflexivity.
  - unfold get_or_create_category_id. rewrite Hb'. cbn [categories set_categories].
    destruct (hd_error (List.filter (fun c => same_folded (cat_name c) (PyStr.strip name'))
                                    (insert_or_ignore_category new (categories s))))
      as [row|] eqn:H.
    + eexists. reflexivity.
    + apply hd_error_filter_none in H. congruence.
Qed.

Lemma add_category_ignores_duplicates_witness :
  exists s1,
    add_category Sample.env "Travel" Sample.household = Ok s1
    /\ List.length (categories s1) = 4%nat
    /\ add_category Sample.env' " travel" s1 = Ok s1.
Proof.
  destruct (add_category_ignores_duplicates Sample.env Sample.env' "Travel" " travel"
              Sample.household eq_refl eq_refl) as (s1 & H1 & _ & _ & H4 & _).
  exists s1. split; [exact H1|]. split; [|exact H4].
  vm_compute in H1. injection H1 as <-. reflexivity.
Defined.

(** Updating columns a join does not read commutes with the join. *)
Lemma inner_join_map_r {A B : Type} (g : B -> B) (l : list A) (r : list B)
    (on : A -> B -> bool) :
  (forall a b, on a (g b) = on a b) ->
  inner_join l (List.map g r) on
  = List.map (fun x => (fst x, g (snd x))) (inner_join l r on).
Proof.
  intros H. unfold inner_join. induction l as [|a l IH]; [reflexivity|].
  cbn [flat_map]. rewrite List.map_app, IH. f_equal.
  rewrite filter_map_comm, !List.map_map.
  rewrite (filter_ext (fun b => on a (g b)) (on a)) by (intros b; apply H).
  reflexivity.
Qed.

Lemma inner_join_map_l {A B : Type} (g : A -> A) (l : list A) (r : list B)
    (on : A -> B -> bool) :
  (forall a b, on (g a) b = on a b) ->
  inner_join (List.map g l) r on
  = List.map (fun x => (g (fst x), snd x)) (inner_join l r on).
Proof.
  intros H. unfold inner_join. induction l as [|a l IH]; [reflexivity|].
  cbn [List.map flat_map]. rewrite List.map_app, IH. f_equal.
  rewrite List.map_map.
  rewrite (filter_ext (on (g a)) (on a)) by (intros b; apply H).
  reflexivity.
Qed.

Lemma integrity_set_categories (s : Store) (l : list Category) :
  integrity s -> integrity (set_categories s l).
Proof. intros [H1 H2 H3 H4]. constructor; assumption. Qed.

Lemma planned_vs_actual_categories (m : string) (s : Store) (l1 l2 : list Category) :
  integrity s ->
  List.filter cat_active l1 = List.filter cat_active l2 ->
  planned_vs_actual m (set_categories s l1) = planned_vs_actual m (set_categories s l2).
Proof.
  intros Hint Hl.
  destruct (month_check_fails (PyStr.strip m)) eqn:Hm.
  - unfold planned_vs_actual. rewrite Hm. reflexivity.
  - rewrite !planned_vs_actual_rows
      by (try apply integrity_set_categories; assumption).
    cbn [categories owners set_categories]. rewrite Hl. reflexivity.
Qed.

Lemma live_transactions_categories (month : option string) (s : Store)
    (g : Category -> Category) :
  (forall c, cat_id (g c) = cat_id c) ->
  live_transactions month (set_categories s (List.map g (categories s)))
  = List.map (fun x => (fst x, g (snd x))) (live_transactions month s).
Proof.
  intros Hg. unfold live_transactions. cbn [transactions owners categories set_categories].
  rewrite inner_join_map_r by (intros a b; rewrite Hg; reflexivity).
  rewrite filter_map_comm. reflexivity.
Qed.

(** X6.  Deactivating a category hides it from budgeting and keeps its
    history: it leaves the active list of [get_categories] and
    [planned_vs_actual] answers as if the category did not exist, while the
    full list of [get_categories] still names it and [get_transactions] and
    [export_transactions_rows] return what they returned before. *)
Theorem deactivated_category_is_hidden :
  forall (e : Env) (c : Id) (m : string) (month : option string) (s : Store),
    integrity s ->
    let s' := set_category_active e c false s in
    Forall (fun r => cr_id r <> c) (get_categories true s')
    /\ List.map cr_id (get_categories false s') = List.map cr_id (get_categories false s)
    /\ List.map cr_name (get_categories false s') = List.map cr_name (get_categories false s)
    /\ planned_vs_actual m s' = planned_vs_actual m (without_category c s)
    /\ get_transactions month s' = get_transactions month s
    /\ export_transactions_rows month s' = export_transactions_rows month s.
Proof.
  intros e c m month s Hint s'. subst s'.
  set (g := fun x : Category =>
              if (cat_id x =? c)%nat
              then {| cat_id := cat_id x; cat_name := cat_name x; cat_active := false;
                      cat_created_at := cat_created_at x; cat_updated_at := now e 0 |}
              else x).
  assert (Hs : set_category_active e c false s = set_categories s (List.map g (categories s)))
    by reflexivity.
  assert (Hid : forall x, cat_id (g x) = cat_id x)
    by (intros x; unfold g; destruct (cat_id x =? c)%nat; reflexivity).
  assert (Hname : forall x, cat_name (g x) = cat_name x)
    by (intros x; unfold g; destruct (cat_id x =? c)%nat; reflexivity).
  rewrite Hs. split; [|split; [|split; [|split; [|split]]]].
  - unfold get_categories. cbn [categories set_categories].
    apply List.Forall_forall. intros r Hr.
    apply in_map_iff in Hr as (x & <- & Hx). cbn [cr_id].
    apply in_order_by in Hx. apply filter_In in Hx as [Hx Hact].
    apply in_map_iff in Hx as (y & <- & _). unfold g in *.
    destruct (cat_id y =? c)%nat eqn:E; [discriminate|].
    apply Nat.eqb_neq. exact E.
  - unfold get_categories. cbn [categories set_categories].
    rewrite (order_by_map (fun x y => not_gt (String.compare (cat_name x) (cat_name y))))
      by (intros a b; rewrite !Hname; reflexivity).
    rewrite !List.map_map. apply map_ext. intros x. apply Hid.
  - unfold get_categories. cbn [categories set_categories].
    rewrite (order_by_map (fun x y => not_gt (String.compare (cat_name x) (cat_name y))))
      by (intros a b; rewrite !Hname; reflexivity).
    rewrite !List.map_map. apply map_ext. intros x. apply Hname.
  - unfold without_category. apply planned_vs_actual_categories; [exact Hint|].
    apply (filtered_update_as_delete cat_active (fun x => (cat_id x =? c)%nat)).
    reflexivity.
  - unfold get_transactions. rewrite (live_transactions_categories month s g Hid).
    rewrite (order_by_map
               (fun x y : Transaction * Owner * Category =>
                  not_gt (String.compare (txn_date (fst (fst y))) (txn_date (fst (fst x))))))
      by reflexivity.
    rewrite List.map_map. apply map_ext. intros [[t o] x]. cbn [fst snd].
    rewrite Hname. reflexivity.
  - unfold export_transactions_rows. rewrite (live_transactions_categories month s g Hid).
    rewrite (order_by_map
               (fun x y : Transaction * Owner * Category =>
                  not_gt (String.compare (txn_date (fst (fst x))) (txn_date (fst (fst y))))))
      by reflexivity.
    rewrite List.map_map. apply map_ext. intros [[t o] x]. cbn [fst snd].
    rewrite Hname. reflexivity.
Qed.

Lemma deactivated_category_is_hidden_witness :
  Forall (fun r => cr_id r <> 10%nat)
         (get_categories true (set_category_active Sample.env 10 false Sample.household))
  /\ get_transactions None (set_category_active Sample.env 10 false Sample.household)
     = get_transactions None Sample.household.
Proof.
  destruct (deactivated_category_is_hidden Sample.env 10 "2026-01" None Sample.household
              household_integrity) as (H1 & _ & _ & _ & H5 & _).
  split; [exact H1 | exact H5].
Defined.

(** ** Bills *)

Lemma existsb_update_where {R : Type} (P cond : R -> bool) (set : R -> R) (tbl : list R) :
  (forall r, P (set r) = P r) ->
  existsb P (update_where cond set tbl) = existsb P tbl.
Proof.
  intros H. unfold update_where. induction tbl as [|r tbl IH]; [reflexivity|].
  cbn [List.map existsb]. rewrite IH.
  destruct (cond r); [rewrite H|]; reflexivity.
Qed.

Lemma ensure_rows_bill_ids (e : Env) (m : string) (bs bs' : list Bill) :
  List.map bill_id bs = List.map bill_id bs' ->
  forall k tbl, ensure_rows e m k bs tbl = ensure_rows e m k bs' tbl.
Proof.
  revert bs'. induction bs as [|b bs IH]; intros [|b' bs'] H k tbl;
    try discriminate; [reflexivity|].
  cbn [List.map] in H. injection H as Hb Hbs.
  cbn [ensure_rows]. rewrite Hb. apply IH. exact Hbs.
Qed.

Lemma bills_due_rows_payment (m : string) (s : Store) (row : BillsDueRow) :
  In row (bills_due_query m s) ->
  exists bp, In bp (bill_payments s) /\ bp_key_eqb (bd_bill_id row) m bp = true
             /\ bd_paid row = bp_paid bp /\ bd_paid_amount row = bp_paid_amount bp
             /\ bd_paid_date row = bp_paid_date bp /\ bd_note row = bp_note bp
             /\ exists b, In b (active_bills s) /\ bill_id b = bd_bill_id row.
Proof.
  unfold bills_due_query. intros H.
  apply in_map_iff in H as ([[b o] bp] & <- & Hx).
  apply in_order_by in Hx. apply filter_In in Hx as [Hx Hact].
  apply in_inner_join in Hx as (Hbo & Hbp & Hkey).
  apply in_inner_join in Hbo as (Hb & _ & _).
  cbn [fst snd] in *. exists bp. repeat split; try assumption.
  exists b. split; [|reflexivity]. apply filter_In. auto.
Qed.

Lemma bills_due_view_store (e : Env) (m : string) (s : Store) :
  fst (bills_due_view e m s) = ensure_bill_payment_rows e m s.
Proof.
  unfold bills_due_view. cbn [fst]. unfold ensure_bill_payment_rows.
  rewrite strip_idem. reflexivity.
Qed.

Lemma bills_due_view_rows (e : Env) (m : string) (s : Store) :
  snd (bills_due_view e m s)
  = bills_due_query (PyStr.strip m) (ensure_bill_payment_rows e m s).
Proof.
  unfold bills_due_view. cbn [snd]. unfold ensure_bill_payment_rows.
  rewrite strip_idem. reflexivity.
Qed.

Lemma bills_due_view_covers (e : Env) (m : string) (s : Store) (b : Bill) :
  In b (active_bills s) ->
  existsb (bp_key_eqb (bill_id b) (PyStr.strip m))
    (bill_payments (fst (bills_due_view e m s))) = true.
Proof.
  intros Hb. rewrite bills_due_view_store.
  unfold ensure_bill_payment_rows. cbn [bill_payments set_bill_payments].
  pose proof (ensure_rows_covers e (PyStr.strip m) (active_bills s) 0 (bill_payments s)) as H.
  rewrite List.Forall_forall in H. apply H. exact Hb.
Qed.

Lemma in_active_appended (s : Store) (b : Bill) :
  bill_active b = true -> In b (active_bills (set_bills s (bills s ++ [b]))).
Proof.
  intros Hb. unfold active_bills. cbn [bills set_bills]. rewrite List.filter_app.
  apply in_or_app. right. cbn [List.filter]. rewrite Hb. left. reflexivity.
Qed.

(** X7.  [add_bill] refuses a blank name and a due day outside 1..31;
    otherwise it appends one active bill with the stripped name and the
    given due day, owner and amount, and leaves the rest of the store; the
    bill then gets its payment row in any month that is viewed. *)
Theorem add_bill_stores_valid_bill :
  forall (e e2 : Env) (o : Id) (name m : string) (d : option Z) (amt : option Q) (s : Store),
    if is_blank (PyStr.strip name)
    then add_bill e o name d amt s = Raise (ValueError "Bill name cannot be empty.")
    else if match d with
            | Some x => negb ((1 <=? x)%Z && (x <=? 31)%Z)
            | None => false
            end
    then add_bill e o name d amt s = Raise (ValueError "Due day must be 1..31.")
    else exists b,
        add_bill e o name d amt s = Ok (set_bills s (bills s ++ [b]))
        /\ bill_name b = PyStr.strip name /\ bill_owner_id b = o
        /\ bill_due_day b = d /\ due_day_ok d
        /\ bill_default_amount b = amt /\ bill_active b = true
        /\ existsb (bp_key_eqb (bill_id b) (PyStr.strip m))
             (bill_payments (fst (bills_due_view e2 m (set_bills s (bills s ++ [b]))))) = true.
Proof.
  intros e e2 o name m d amt s. unfold add_bill.
  destruct (is_blank (PyStr.strip name)); [reflexivity|].
  destruct d as [x|].
  - destruct ((1 <=? x)%Z && (x <=? 31)%Z) eqn:E; cbn [negb]; [|reflexivity].
    apply andb_true_iff in E as [E1 E2]. apply Z.leb_le in E1. apply Z.leb_le in E2.
    assert (E0 : (x =? 0)%Z = false) by (apply Z.eqb_neq; lia).
    rewrite E0. eexists. split; [reflexivity|].
    cbn [bill_name bill_owner_id bill_due_day bill_default_amount bill_active due_day_ok].
    repeat split; try lia.
    apply bills_due_view_covers, in_active_appended. reflexivity.
  - eexists. split; [reflexivity|].
    cbn [bill_name bill_owner_id bill_due_day bill_default_amount bill_active due_day_ok].
    repeat split.
    apply bills_due_view_covers, in_active_appended. reflexivity.
Qed.

Lemma set_bill_paid_ensured (e e2 : Env) (m : string) (b : Id) (paid : bool)
    (amt : option Q) (date note : option string) (s : Store) :
  ensure_bill_payment_rows e2 m (set_bill_paid e m b paid amt date note s)
  = set_bill_paid e m b paid amt date note s.
Proof.
  unfold set_bill_paid.
  set (s1 := ensure_bill_payment_rows e (PyStr.strip m) s).
  match goal with |- context [update_where ?c ?f (bill_payments s1)] =>
    set (T := update_where c f (bill_payments s1)) end.
  unfold ensure_bill_payment_rows at 1.
  change (active_bills (set_bill_payments s1 T)) with (active_bills s).
  change (bill_payments (set_bill_payments s1 T)) with T.
  rewrite (ensure_rows_noop e2 (PyStr.strip m) (active_bills s) 0 T); [reflexivity|].
  apply List.Forall_forall. intros x Hx. subst T.
  rewrite existsb_update_where by reflexivity.
  subst s1. unfold ensure_bill_payment_rows. cbn [bill_payments set_bill_payments].
  rewrite strip_idem.
  pose proof (ensure_rows_covers e (PyStr.strip m) (active_bills s) 0 (bill_payments s)) as H.
  rewrite List.Forall_forall in H. apply H. exact Hx.
Qed.

(** X8.  What [set_bill_paid] records is what [bills_due_view] shows: every
    payment row of the bill and the month carries the new status, amount,
    date and cleaned note; the rows of other keys are the ones
    [ensure_bill_payment_rows] leaves; viewing the month afterwards writes
    nothing; and the row of the bill in the view shows the recorded
    values. *)
Theorem set_bill_paid_is_shown :
  forall (e e2 : Env) (m : string) (b : Id) (paid : bool) (amt : option Q)
         (date note : option string) (s : Store),
    let m' := PyStr.strip m in
    let s' := set_bill_paid e m b paid amt date note s in
    Forall (fun r => if bp_key_eqb b m' r
                     then bp_paid r = paid /\ bp_paid_amount r = amt
                          /\ bp_paid_date r = date /\ bp_note r = clean_note note
                     else True) (bill_payments s')
    /\ List.filter (fun r => negb (bp_key_eqb b m' r)) (bill_payments s')
       = List.filter (fun r => negb (bp_key_eqb b m' r))
                     (bill_payments (ensure_bill_payment_rows e m s))
    /\ (if existsb (fun x => (bill_id x =? b)%nat) (active_bills s)
        then existsb (bp_key_eqb b m') (bill_payments s') = true else True)
    /\ fst (bills_due_view e2 m s') = s'
    /\ Forall (fun row => if (bd_bill_id row =? b)%nat
                          then bd_paid row = paid /\ bd_paid_amount row = amt
                               /\ bd_paid_date row = date /\ bd_note row = clean_note note
                          else True) (snd (bills_due_view e2 m s')).
Proof.
  intros e e2 m b paid amt date note s m' s'. subst m'.
  assert (H1 : Forall (fun r => if bp_key_eqb b (PyStr.strip m) r
                                then bp_paid r = paid /\ bp_paid_amount r = amt
                                     /\ bp_paid_date r = date /\ bp_note r = clean_note note
                                else True) (bill_payments s')).
  { subst s'. unfold set_bill_paid. cbn [bill_payments set_bill_payments].
    unfold update_where. apply List.Forall_forall. intros r Hr.
    apply in_map_iff in Hr as (r0 & <- & _).
    destruct (bp_key_eqb b (PyStr.strip m) r0) eqn:E.
    - change (bp_key_eqb b (PyStr.strip m) _) with (bp_key_eqb b (PyStr.strip m) r0). rewrite E. repeat split.
    - rewrite E. exact I. }
  assert (H4 : fst (bills_due_view e2 m s') = s').
  { rewrite bills_due_view_store. apply set_bill_paid_ensured. }
  split; [exact H1|]. split; [|split; [|split; [exact H4|]]].
  - subst s'. unfold set_bill_paid. cbn [bill_payments set_bill_payments].
    unfold ensure_bill_payment_rows. rewrite ?strip_idem.
    cbn [bill_payments set_bill_payments].
    unfold update_where.
    induction (ensure_rows e (PyStr.strip m) 0 (active_bills s) (bill_payments s)) as [|r l IH];
      [reflexivity|].
    cbn [List.map List.filter].
    destruct (bp_key_eqb b (PyStr.strip m) r) eqn:E.
    + change (bp_key_eqb b (PyStr.strip m) _) with (bp_key_eqb b (PyStr.strip m) r) at 1. rewrite E. exact IH.
    + rewrite E. cbn [negb]. rewrite IH. reflexivity.
  - destruct (existsb (fun x => (bill_id x =? b)%nat) (active_bills s)) eqn:E; [|exact I].
    apply existsb_exists in E as (x & Hx & Hb). apply Nat.eqb_eq in Hb. subst b.
    subst s'. unfold set_bill_paid. cbn [bill_payments set_bill_payments].
    rewrite existsb_update_where by reflexivity.
    unfold ensure_bill_payment_rows. rewrite ?strip_idem.
    cbn [bill_payments set_bill_payments].
    pose proof (ensure_rows_covers e (PyStr.strip m) (active_bills s) 0 (bill_payments s)) as H.
    rewrite List.Forall_forall in H. apply H. exact Hx.
  - rewrite bills_due_view_rows.
    rewrite <- bills_due_view_store, H4.
    apply List.Forall_forall. intros row Hrow.
    destruct (bd_bill_id row =? b)%nat eqn:E; [|exact I].
    apply Nat.eqb_eq in E.
    apply bills_due_rows_payment in Hrow
      as (bp & Hbp & Hkey & -> & -> & -> & -> & _).
    rewrite E in Hkey. rewrite List.Forall_forall in H1.
    specialize (H1 bp Hbp). rewrite Hkey in H1. exact H1.
Qed.

Lemma bills_due_query_map (g : Bill -> Bill) (m : string) (s : Store) :
  (forall b, bill_id (g b) = bill_id b) ->
  (forall b, bill_owner_id (g b) = bill_owner_id b) ->
  (forall b, bill_name (g b) = bill_name b) ->
  (forall b, bill_due_day (g b) = bill_due_day b) ->
  (forall b, bill_default_amount (g b) = bill_default_amount b) ->
  (forall b, In b (bills s) -> bill_active (g b) = bill_active b) ->
  bills_due_query m (set_bills s (List.map g (bills s))) = bills_due_query m s.
Proof.
  intros Hid Hown Hname Hdue Hamt Hact. unfold bills_due_query.
  cbn [bills owners bill_payments set_bills].
  assert (Hj1 : forall x, In x (inner_join (bills s) (owners s)
                                  (fun b o => (ow_id o =? bill_owner_id b)%nat)) ->
                          In (fst x) (bills s)).
  { intros [b o] Hx. apply in_inner_join in Hx as (Hb & _ & _). exact Hb. }
  rewrite (inner_join_map_l g) by (intros a b; rewrite Hown; reflexivity).
  rewrite (inner_join_map_l (fun x : Bill * Owner => (g (fst x), snd x)))
    by (intros a b; cbn [fst]; rewrite Hid; reflexivity).
  rewrite filter_map_comm. cbn [fst snd].
  set (J := inner_join _ (bill_payments s) _).
  assert (HJ : forall x, In x J -> In (fst (fst x)) (bills s)).
  { intros [[b o] bp] Hx. subst J. apply in_inner_join in Hx as (Hbo & _ & _).
    apply (Hj1 (b, o)). exact Hbo. }
  assert (Hf : List.filter (fun a : Bill * Owner * BillPayment => bill_active (g (fst (fst a)))) J
               = List.filter (fun x => bill_active (fst (fst x))) J).
  { clear - HJ Hact. induction J as [|x J IH]; [reflexivity|].
    cbn [List.filter]. rewrite Hact by (apply HJ; left; reflexivity).
    rewrite IH by (intros y Hy; apply HJ; right; exact Hy). reflexivity. }
  rewrite Hf.
  rewrite (order_by_map bills_due_order bills_due_order).
  - rewrite List.map_map. apply map_ext. intros [[b o] bp]. cbn [fst snd].
    rewrite Hid, Hname, Hdue, Hamt. reflexivity.
  - intros [[b1 o1] p1] [[b2 o2] p2]. unfold bills_due_order. cbn [fst snd].
    rewrite !Hdue, !Hname. reflexivity.
Qed.

Lemma filter_map_same {A : Type} (P : A -> bool) (g : A -> A) (l : list A) :
  (forall a, In a l -> P (g a) = P a) ->
  List.filter P (List.map g l) = List.map g (List.filter P l).
Proof.
  intros H. induction l as [|a l IH]; [reflexivity|].
  cbn [List.map List.filter]. rewrite H by (left; reflexivity).
  rewrite IH by (intros x Hx; apply H; right; exact Hx).
  destruct (P a); reflexivity.
Qed.

Lemma bills_due_view_map (g : Bill -> Bill) (e : Env) (m : string) (s : Store) :
  (forall b, bill_id (g b) = bill_id b) ->
  (forall b, bill_owner_id (g b) = bill_owner_id b) ->
  (forall b, bill_name (g b) = bill_name b) ->
  (forall b, bill_due_day (g b) = bill_due_day b) ->
  (forall b, bill_default_amount (g b) = bill_default_amount b) ->
  (forall b, In b (bills s) -> bill_active (g b) = bill_active b) ->
  bill_payments (fst (bills_due_view e m (set_bills s (List.map g (bills s)))))
  = bill_payments (fst (bills_due_view e m s))
  /\ snd (bills_due_view e m (set_bills s (List.map g (bills s))))
     = snd (bills_due_view e m s).
Proof.
  intros Hid Hown Hname Hdue Hamt Hact.
  assert (He : ensure_bill_payment_rows e m (set_bills s (List.map g (bills s)))
               = set_bills (ensure_bill_payment_rows e m s)
                   (List.map g (bills (ensure_bill_payment_rows e m s)))).
  { unfold ensure_bill_payment_rows, active_bills.
    cbn [bills bill_payments set_bills set_bill_payments].
    rewrite (filter_map_same bill_active g) by exact Hact.
    rewrite (ensure_rows_bill_ids e (PyStr.strip m)
               (List.map g (List.filter bill_active (bills s)))
               (List.filter bill_active (bills s))).
    - reflexivity.
    - rewrite List.map_map. apply map_ext. exact Hid. }
  rewrite !bills_due_view_store, !bills_due_view_rows, He. split; [reflexivity|].
  apply bills_due_query_map; assumption.
Qed.

(** X9.  Deactivating a bill keeps every payment row, takes the bill out of
    the monthly view, and is undone by reactivating it: if the bill was
    active, the view and the payment rows of any month are then the ones of
    the store before. *)
Theorem deactivated_bill_leaves_the_view :
  forall (e1 e2 e : Env) (m : string) (b : Id) (s : Store),
    let s0 := set_bill_active e1 b false s in
    bill_payments s0 = bill_payments s
    /\ Forall (fun row => bd_bill_id row <> b) (snd (bills_due_view e m s0))
    /\ (if forallb (fun x => negb (bill_id x =? b)%nat || bill_active x) (bills s)
        then bill_payments (fst (bills_due_view e m (set_bill_active e2 b true s0)))
             = bill_payments (fst (bills_due_view e m s))
             /\ snd (bills_due_view e m (set_bill_active e2 b true s0))
                = snd (bills_due_view e m s)
        else True).
Proof.
  intros e1 e2 e m b s s0. split; [reflexivity|]. split.
  - apply List.Forall_forall. intros row Hrow Hb.
    rewrite bills_due_view_rows in Hrow.
    apply bills_due_rows_payment in Hrow as (_ & _ & _ & _ & _ & _ & _ & x & Hx & Hid).
    unfold active_bills in Hx. apply filter_In in Hx as [Hx Hact].
    unfold ensure_bill_payment_rows in Hx. cbn [bills set_bill_payments] in Hx.
    subst s0. unfold set_bill_active in Hx. cbn [bills set_bills] in Hx.
    unfold update_where in Hx. apply in_map_iff in Hx as (y & Hy & _).
    destruct (bill_id y =? b)%nat eqn:E.
    + subst x. cbn [bill_active] in Hact. discriminate.
    + subst x. apply Nat.eqb_neq in E. congruence.
  - destruct (forallb _ (bills s)) eqn:E; [|exact I].
    rewrite forallb_forall in E.
    set (g := fun x : Bill =>
                if (bill_id x =? b)%nat
                then {| bill_id := bill_id x; bill_owner_id := bill_owner_id x;
                        bill_name := bill_name x; bill_due_day := bill_due_day x;
                        bill_default_amount := bill_default_amount x; bill_active := true;
                        bill_created_at := bill_created_at x; bill_updated_at := now e2 0 |}
                else x).
    assert (Hs : set_bill_active e2 b true s0 = set_bills s (List.map g (bills s))).
    { subst s0. unfold set_bill_active. cbn [bills set_bills]. unfold update_where.
      rewrite List.map_map. unfold set_bills.
      cbn [owners categories bills bill_payments accounts account_snapshots
           transactions budgets month_closings].
      f_equal. apply map_ext. intros x. unfold g.
      destruct (bill_id x =? b)%nat eqn:Ex; cbn [bill_id]; rewrite Ex; reflexivity. }
    rewrite Hs.
    apply bills_due_view_map; intros x; unfold g;
      try (destruct (bill_id x =? b)%nat; reflexivity).
    intros Hx. specialize (E x Hx).
    destruct (bill_id x =? b)%nat; cbn [negb orb] in E; [rewrite E|]; reflexivity.
Qed.

(** ** Snapshots and budgets *)

Section UpsertFacts.
Context {R : Type} (key : R -> bool) (set : R -> R) (new : R).

Lemma insert_or_update_head (tbl : list R) :
  (forall r, key r = true -> key (set r) = true) ->
  key new = true ->
  exists r, hd_error (List.filter key (insert_or_update key set new tbl)) = Some r
            /\ (r = new \/ exists r0, r = set r0).
Proof.
  intros Hset Hnew. unfold insert_or_update.
  destruct (existsb key tbl) eqn:E.
  - rewrite (filter_update_where key set tbl Hset).
    destruct (List.filter key tbl) as [|r0 rs] eqn:F.
    + apply existsb_exists in E as (x & Hin & Hx).
      assert (Hf : In x (List.filter key tbl)) by (apply filter_In; auto).
      rewrite F in Hf. destruct Hf.
    + exists (set r0). split; [reflexivity|]. right. exists r0. reflexivity.
  - rewrite List.filter_app, (filter_nil_of_existsb key tbl E).
    cbn [List.filter app]. rewrite Hnew. exists new. split; [reflexivity|]. left. reflexivity.
Qed.

Lemma insert_or_update_other (P : R -> bool) (tbl : list R) :
  (forall r, P (set r) = P r) ->
  (forall r, P r = true -> key r = false) ->
  P new = false ->
  List.filter P (insert_or_update key set new tbl) = List.filter P tbl.
Proof.
  intros Hset Hdis Hnew. unfold insert_or_update.
  destruct (existsb key tbl).
  - unfold update_where. induction tbl as [|r tbl IH]; [reflexivity|].
    cbn [List.map List.filter]. rewrite IH.
    destruct (P r) eqn:E.
    + rewrite (Hdis r E), E. reflexivity.
    + destruct (key r); [rewrite Hset|]; rewrite E; reflexivity.
  - rewrite List.filter_app. cbn [List.filter]. rewrite Hnew. apply app_nil_r.
Qed.

End UpsertFacts.

Lemma left_join_filters {A B : Type} (l : list A) (r r' : list B) (on : A -> B -> bool) :
  (forall a, In a l -> List.filter (on a) r = List.filter (on a) r') ->
  left_join l r on = left_join l r' on.
Proof.
  intros H. unfold left_join. induction l as [|a l IH]; [reflexivity|].
  cbn [flat_map]. rewrite (H a) by (left; reflexivity).
  rewrite IH by (intros x Hx; apply H; right; exact Hx). reflexivity.
Qed.

Lemma string_ltb_irrefl (x : string) : String.ltb x x = false.
Proof. unfold String.ltb. rewrite string_compare_refl. reflexivity. Qed.

Lemma string_ltb_neq (x y : string) : String.ltb x y = true -> String.eqb x y = false.
Proof.
  intros H. destruct (String.eqb x y) eqn:E; [|reflexivity].
  apply String.eqb_eq in E. subst y. rewrite string_ltb_irrefl in H. discriminate.
Qed.

Section SnapshotUpsert.
Variables (e : Env) (a : Id) (m : string) (b p : Q) (s : Store).
Hypothesis month_ok : month_check_fails (PyStr.strip m) = false.

Lemma upserted_current :
  exists r, current_snapshot a (PyStr.strip m) (after (upsert_snapshot e a m b p s) s) = Some r
            /\ snap_balance r = b /\ snap_payment r = p.
Proof.
  unfold current_snapshot, upsert_snapshot. rewrite month_ok.
  cbn [after account_snapshots set_account_snapshots].
  match goal with
  | |- context [insert_or_update ?k ?f ?n ?t] =>
      destruct (insert_or_update_head k f n t) as (r & Hr & Hcase)
  end.
  - intros r Hr. rewrite snap_key_kept. exact Hr.
  - unfold snap_key_eqb. cbn [snap_account_id snap_month].
    rewrite Nat.eqb_refl, String.eqb_refl. reflexivity.
  - exists r. split; [exact Hr|].
    destruct Hcase as [-> | (r0 & ->)]; split; reflexivity.
Qed.

Lemma upserted_other (a' : Id) (m' : string) :
  (a' =? a)%nat && String.eqb m' (PyStr.strip m) = false ->
  List.filter (snap_key_eqb a' m') (account_snapshots (after (upsert_snapshot e a m b p s) s))
  = List.filter (snap_key_eqb a' m') (account_snapshots s).
Proof.
  intros Hne. unfold upsert_snapshot. rewrite month_ok.
  cbn [after account_snapshots set_account_snapshots].
  apply insert_or_update_other.
  - intros r. reflexivity.
  - intros r Hr. unfold snap_key_eqb in *.
    apply andb_true_iff in Hr as [Ha Hm].
    apply Nat.eqb_eq in Ha. apply String.eqb_eq in Hm. rewrite Ha, Hm.
    exact Hne.
  - unfold snap_key_eqb. cbn [snap_account_id snap_month].
    rewrite (Nat.eqb_sym a a'), (String.eqb_sym (PyStr.strip m) m'). exact Hne.
Qed.

Lemma upserted_prev_month (a' : Id) :
  prev_month a' (PyStr.strip m) (after (upsert_snapshot e a m b p s) s)
  = prev_month a' (PyStr.strip m) s.
Proof.
  unfold prev_month, upsert_snapshot. rewrite month_ok.
  cbn [after account_snapshots set_account_snapshots].
  rewrite insert_or_update_other; [reflexivity| | |].
  - intros r. reflexivity.
  - intros r Hr. apply andb_true_iff in Hr as [_ Hlt].
    unfold snap_key_eqb. rewrite (string_ltb_neq _ _ Hlt). apply andb_false_r.
  - cbn [snap_account_id snap_month]. rewrite string_ltb_irrefl. apply andb_false_r.
Qed.

Lemma upserted_previous (a' : Id) :
  previous_snapshot a' (PyStr.strip m) (after (upsert_snapshot e a m b p s) s)
  = previous_snapshot a' (PyStr.strip m) s.
Proof.
  unfold previous_snapshot. rewrite upserted_prev_month.
  pose proof (prev_month_spec a' (PyStr.strip m) s) as H.
  destruct (prev_month a' (PyStr.strip m) s) as [pm|]; [|reflexivity].
  destruct H as ((r & _ & _ & _ & Hlt) & _).
  rewrite upserted_other; [reflexivity|].
  rewrite (string_ltb_neq _ _ Hlt). apply andb_false_r.
Qed.

Lemma upserted_row (ao : Account * Owner) :
  progress_row_for (PyStr.strip m) (after (upsert_snapshot e a m b p s) s) ao
  = (fun r => if (pr_account_id r =? a)%nat then with_current b p r else r)
      (progress_row_for (PyStr.strip m) s ao).
Proof.
  destruct ao as [a0 o]. cbv beta. unfold progress_row_for.
  cbn [pr_account_id]. rewrite upserted_previous.
  destruct (acc_id a0 =? a)%nat eqn:E.
  - apply Nat.eqb_eq in E. rewrite E.
    destruct upserted_current as (r & -> & <- & <-). reflexivity.
  - unfold current_snapshot. rewrite upserted_other; [reflexivity|].
    rewrite E. reflexivity.
Qed.

End SnapshotUpsert.

(** X11.  A snapshot saved by [upsert_snapshot] is the one read back for its
    account and month; the snapshots of every other account or month are
    the ones stored before; and in the debt view of that month the save
    changes the current balance and payment of that account's row and
    nothing else. *)
Theorem upsert_snapshot_is_shown :
  forall (e : Env) (a : Id) (m : string) (b p : Q) (s : Store),
    integrity s ->
    month_check_fails (PyStr.strip m) = false ->
    exists s',
      upsert_snapshot e a m b p s = Ok s'
      /\ option_map snap_balance (current_snapshot a (PyStr.strip m) s') = Some b
      /\ option_map snap_payment (current_snapshot a (PyStr.strip m) s') = Some p
      /\ (forall a' m', (a' =? a)%nat && String.eqb m' (PyStr.strip m) = false ->
                        current_snapshot a' m' s' = current_snapshot a' m' s)
      /\ latest_snapshot_by_account m s'
         = List.map (fun r => if (pr_account_id r =? a)%nat then with_current b p r else r)
                    (latest_snapshot_by_account m s).
Proof.
  intros e a m b p s Hint Hm.
  destruct (upsert_snapshot e a m b p s) as [s'|x] eqn:E;
    [|unfold upsert_snapshot in E; rewrite Hm in E; discriminate].
  pose proof (integrity_upsert_snapshot e a m b p s s' Hint E) as Hint'.
  assert (Es : s' = after (upsert_snapshot e a m b p s) s) by (rewrite E; reflexivity).
  exists s'. split; [reflexivity|].
  destruct (upserted_current e a m b p s Hm) as (r & Hr & Hb & Hp).
  rewrite <- Es in Hr.
  split; [rewrite Hr, <- Hb; reflexivity|].
  split; [rewrite Hr, <- Hp; reflexivity|].
  split.
  - intros a' m' Hne. unfold current_snapshot. rewrite Es.
    rewrite (upserted_other e a m b p s Hm a' m' Hne). reflexivity.
  - rewrite (latest_snapshot_rows m _ Hint'), (latest_snapshot_rows m s Hint).
    assert (Ea : accounts s' = accounts s /\ owners s' = owners s).
    { rewrite Es. unfold upsert_snapshot. rewrite Hm. split; reflexivity. }
    destruct Ea as [-> ->].
    rewrite List.map_map. apply map_ext. intros ao. rewrite Es.
    apply (upserted_row e a m b p s Hm ao).
Qed.

Lemma upsert_snapshot_is_shown_witness :
  exists s',
    upsert_snapshot Sample.env 30 " 2026-01 " 350%Q 50%Q Sample.household = Ok s'
    /\ option_map snap_balance (current_snapshot 30 "2026-01" s') = Some 350%Q.
Proof.
  destruct (upsert_snapshot_is_shown Sample.env 30 " 2026-01 " 350%Q 50%Q Sample.household
              household_integrity eq_refl) as (s' & H1 & H2 & _).
  exists s'. split; [exact H1 | exact H2].
Defined.

Section BudgetUpsert.
Variables (e : Env) (m : string) (o c : Id) (v : Q) (s : Store).
Hypothesis month_ok : month_check_fails (PyStr.strip m) = false.

Lemma upserted_planned :
  planned_for (PyStr.strip m) o c (after (upsert_budget e m o c v s) s) = v.
Proof.
  unfold planned_for, upsert_budget. rewrite month_ok. cbn [after budgets set_budgets].
  match goal with
  | |- context [insert_or_update ?k ?f ?n ?t] =>
      destruct (insert_or_update_head k f n t) as (r & Hr & Hcase)
  end.
  - intros r Hr. rewrite bud_key_kept. exact Hr.
  - unfold bud_key_eqb. cbn [bud_month bud_owner_id bud_category_id].
    rewrite String.eqb_refl, !Nat.eqb_refl. reflexivity.
  - destruct (List.filter _ _) as [|r1 rs]; [discriminate|].
    cbn [hd_error] in Hr. injection Hr as ->.
    destruct Hcase as [-> | (r0 & ->)]; reflexivity.
Qed.

Lemma upserted_budget_other (m' : string) (o' c' : Id) :
  String.eqb m' (PyStr.strip m) && (o' =? o)%nat && (c' =? c)%nat = false ->
  List.filter (bud_key_eqb m' o' c') (budgets (after (upsert_budget e m o c v s) s))
  = List.filter (bud_key_eqb m' o' c') (budgets s).
Proof.
  intros Hne. unfold upsert_budget. rewrite month_ok. cbn [after budgets set_budgets].
  apply insert_or_update_other.
  - intros r. reflexivity.
  - intros r Hr. unfold bud_key_eqb in *.
    apply andb_true_iff in Hr as [Hr Hc]. apply andb_true_iff in Hr as [Hm Ho].
    apply String.eqb_eq in Hm. apply Nat.eqb_eq in Ho. apply Nat.eqb_eq in Hc.
    rewrite Hm, Ho, Hc. exact Hne.
  - unfold bud_key_eqb. cbn [bud_month bud_owner_id bud_category_id].
    rewrite (Nat.eqb_sym o o'), (Nat.eqb_sym c c'), (String.eqb_sym (PyStr.strip m) m').
    exact Hne.
Qed.

End BudgetUpsert.

(** X12.  A planned amount saved by [upsert_budget] is the one read back for
    its month, owner and category; the planned amount of every other key
    and every actual stay as they were; and the planned-versus-actual
    report of any other month is unchanged. *)
Theorem upsert_budget_is_read_back :
  forall (e : Env) (m : string) (o c : Id) (v : Q) (s : Store),
    month_check_fails (PyStr.strip m) = false ->
    exists s',
      upsert_budget e m o c v s = Ok s'
      /\ planned_for (PyStr.strip m) o c s' = v
      /\ (forall m' o' c',
             String.eqb m' (PyStr.strip m) && (o' =? o)%nat && (c' =? c)%nat = false ->
             planned_for m' o' c' s' = planned_for m' o' c' s)
      /\ (forall m' o' c', actual_for m' o' c' s' = actual_for m' o' c' s)
      /\ (forall m2, String.eqb (PyStr.strip m2) (PyStr.strip m) = false ->
                     planned_vs_actual m2 s' = planned_vs_actual m2 s).
Proof.
  intros e m o c v s Hm.
  assert (E : upsert_budget e m o c v s = Ok (after (upsert_budget e m o c v s) s)).
  { unfold upsert_budget. rewrite Hm. reflexivity. }
  exists (after (upsert_budget e m o c v s) s). split; [exact E|].
  split; [apply upserted_planned; exact Hm|].
  split.
  { intros m' o' c' Hne. unfold planned_for.
    rewrite (upserted_budget_other e m o c v s Hm m' o' c' Hne). reflexivity. }
  split.
  { intros m' o' c'. unfold upsert_budget. rewrite Hm. reflexivity. }
  intros m2 Hne. unfold planned_vs_actual.
  destruct (month_check_fails (PyStr.strip m2)); [reflexivity|].
  assert (Ef : owners (after (upsert_budget e m o c v s) s) = owners s
               /\ categories (after (upsert_budget e m o c v s) s) = categories s
               /\ act (PyStr.strip m2) (after (upsert_budget e m o c v s) s)
                  = act (PyStr.strip m2) s).
  { unfold upsert_budget. rewrite Hm. repeat split. }
  destruct Ef as (-> & -> & ->).
  f_equal. f_equal. f_equal. f_equal. f_equal.
  apply left_join_filters. intros [o' c'] _. cbn [fst snd].
  apply (upserted_budget_other e m o c v s Hm).
  rewrite Hne. reflexivity.
Qed.

Lemma upsert_budget_is_read_back_witness :
  exists s',
    upsert_budget Sample.env "2026-01" 1 10 300%Q Sample.household = Ok s'
    /\ planned_for "2026-01" 1 10 s' = 300%Q.
Proof.
  destruct (upsert_budget_is_read_back Sample.env "2026-01" 1 10 300%Q Sample.household
              eq_refl) as (s' & H1 & H2 & _).
  exists s'. split; [exact H1 | exact H2].
Defined.

(** ** Transactions *)






Lemma bulk_rows_later (e : Env) (rows : list TxnInput) :
  forall k, bulk_rows e (S k) rows = bulk_rows (later 1 e) k rows.
Proof.
  induction rows as [|r rows IH]; intros k; [reflexivity|].
  cbn [bulk_rows]. rewrite IH. f_equal.
  unfold later. cbn [uid now].
  replace (2 * S k)%nat with (2 * 1 + 2 * k)%nat by lia.
  replace (2 * S k + 1)%nat with (2 * 1 + (2 * k + 1))%nat by lia.
  reflexivity.
Qed.



(** X14.  [bulk_add_transactions] of a list that starts with a row of
    positive amount is [add_transaction] of that row followed by
    [bulk_add_transactions] of the rest, with the identifiers and
    timestamps that come next. *)
Theorem bulk_add_transactions_is_repeated_add :
  forall (e : Env) (r : TxnInput) (rows : list TxnInput) (s : Store),
    (0 < in_amount r)%Q ->
    exists s1,
      add_transaction e (in_txn_date r) (in_owner_id r) (in_category_id r)
        (in_amount r) (coalesce (in_description r) "") s = Ok s1
      /\ bulk_add_transactions e (r :: rows) s
         = bulk_add_transactions (later 1 e) rows s1.
Proof.
  intros e r rows s Hpos. unfold add_transaction.
  assert (E : Qle_bool (in_amount r) 0 = false).
  { destruct (Qle_bool (in_amount r) 0) eqn:E; [|reflexivity].
    apply Qle_bool_iff in E. exfalso. apply (Qlt_not_le _ _ Hpos E). }
  rewrite E. eexists. split; [reflexivity|].
  unfold bulk_add_transactions. cbn [transactions set_transactions bulk_rows].
  rewrite <- app_assoc. cbn [app]. rewrite bulk_rows_later.
  unfold set_transactions.
  cbn [owners categories bills bill_payments accounts account_snapshots
       transactions budgets month_closings].
  reflexivity.
Qed.

Lemma bulk_add_transactions_is_repeated_add_witness :
  exists s1,
    add_transaction Sample.env "2026-01-03" 1 10 4%Q "" Sample.household = Ok s1
    /\ bulk_add_transactions Sample.env
         [Sample.import_row "2026-01-03" 4%Q; Sample.import_row "2026-02-03" 5%Q]
         Sample.household
       = bulk_add_transactions (later 1 Sample.env) [Sample.import_row "2026-02-03" 5%Q] s1.
Proof.
  exact (bulk_add_transactions_is_repeated_add Sample.env
           (Sample.import_row "2026-01-03" 4%Q) [Sample.import_row "2026-02-03" 5%Q]
           Sample.household eq_refl).
Defined.


(** ** Months *)

Section Distinct.
Context {K : Type} (eqb : K -> K -> bool).
Hypothesis eqb_eq : forall x y, eqb x y = true <-> x = y.

Lemma in_distinct (l : list K) (x : K) : In x (distinct eqb l) <-> In x l.
Proof.
  induction l as [|k l IH]; [reflexivity|].
  cbn [distinct In]. rewrite filter_In, IH. split.
  - intros [H | [H _]]; auto.
  - intros [H | H]; [left; exact H|].
    destruct (eqb k x) eqn:E.
    + left. apply eqb_eq. exact E.
    + right. split; [exact H | reflexivity].
Qed.

Lemma distinct_nodup (l : list K) : List.NoDup (distinct eqb l).
Proof.
  induction l as [|k l IH]; cbn [distinct]; constructor.
  - intros H. apply filter_In in H as [_ H].
    assert (E : eqb k k = true) by (apply eqb_eq; reflexivity).
    rewrite E in H. discriminate.
  - apply List.NoDup_filter. exact IH.
Qed.

End Distinct.

Lemma in_firstn {A : Type} (n : nat) (l : list A) (x : A) : In x (firstn n l) -> In x l.
Proof.
  intros H. rewrite <- (firstn_skipn n l). apply in_or_app. left. exact H.
Qed.

Lemma sorted_app_order {A : Type} (R : A -> A -> Prop) (l1 l2 : list A) :
  StronglySorted R (l1 ++ l2) ->
  StronglySorted R l1 /\ forall x y, In x l1 -> In y l2 -> R x y.
Proof.
  induction l1 as [|a l1 IH]; cbn [app]; intros H.
  - split; [constructor|]. intros x y [].
  - inversion H as [|x l Hs Hall]; subst. destruct (IH Hs) as [IH1 IH2].
    rewrite List.Forall_forall in Hall. split.
    + constructor; [exact IH1|]. apply List.Forall_forall. intros y Hy.
      apply Hall. apply in_or_app. left. exact Hy.
    + intros x y [<- | Hx] Hy.
      * apply Hall. apply in_or_app. right. exact Hy.
      * apply IH2; assumption.
Qed.

Lemma descending_strict (l : list string) :
  StronglySorted (fun x y => not_gt (String.compare y x) = true) l ->
  List.NoDup l ->
  StronglySorted (fun x y => String.ltb y x = true) l.
Proof.
  induction 1 as [|a l Hs IH Hall]; intros Hnd; constructor.
  - apply IH. inversion Hnd; assumption.
  - inversion Hnd as [|x l' Hnotin _]; subst.
    rewrite List.Forall_forall in *. intros y Hy. specialize (Hall y Hy).
    unfold String.ltb. destruct (String.compare y a) eqn:E; [|reflexivity|discriminate].
    apply String.compare_eq_iff in E. subst y. contradiction.
Qed.

Lemma string_ltb_asym (x y : string) : String.ltb x y = true -> String.ltb y x = false.
Proof.
  unfold String.ltb. rewrite (String.compare_antisym x y).
  destruct (String.compare y x); cbn [CompOpp]; congruence.
Qed.

(** X16.  [get_known_months] lists months of seven characters that occur in
    the data, each once and in strictly descending order.  Without a limit
    it lists all of them; with a limit it lists at most that many, and
    they are the latest ones. *)
Theorem get_known_months_are_the_latest :
  forall (limit : Z) (income_months : list string) (s : Store),
    let known := month_columns income_months s in
    let ms := get_known_months limit income_months s in
    List.NoDup ms
    /\ StronglySorted (fun x y => String.ltb y x = true) ms
    /\ Forall (fun m => String.length m = 7%nat /\ In m known) ms
    /\ (if (limit <? 0)%Z
        then forall m, In m known -> String.length m = 7%nat -> In m ms
        else (Z.of_nat (List.length ms) <= limit)%Z
             /\ forall m m', In m ms -> In m' known -> String.length m' = 7%nat ->
                             String.ltb m m' = true -> In m' ms).
Proof.
  intros limit inc s known ms. subst ms. unfold get_known_months.
  set (L := order_by (fun x y => not_gt (String.compare y x))
              (List.filter (fun m => (String.length m =? 7)%nat)
                 (distinct String.eqb known))).
  assert (HinL : forall m, In m L <-> In m known /\ String.length m = 7%nat).
  { intros m. subst L. rewrite in_order_by, filter_In, (in_distinct String.eqb String.eqb_eq).
    rewrite Nat.eqb_eq. reflexivity. }
  assert (Hnd : List.NoDup L).
  { subst L. eapply Permutation_NoDup; [apply order_by_perm|].
    apply List.NoDup_filter. apply (distinct_nodup String.eqb String.eqb_eq). }
  assert (Hsorted : StronglySorted (fun x y => String.ltb y x = true) L).
  { apply descending_strict; [|exact Hnd]. subst L.
    apply (order_by_sorted _ desc_total
             (fun x y z H1 H2 => string_not_gt_trans z y x H2 H1)). }
  unfold sql_limit. destruct (limit <? 0)%Z eqn:El.
  - split; [exact Hnd|]. split; [exact Hsorted|]. split.
    + apply List.Forall_forall. intros m Hm. apply HinL in Hm. tauto.
    + intros m Hk Hlen. apply HinL. tauto.
  - apply Z.ltb_ge in El.
    pose proof (firstn_skipn (Z.to_nat limit) L) as Hsplit.
    rewrite <- Hsplit in Hnd, Hsorted.
    apply sorted_app_order in Hsorted as [Hs1 Hs2].
    split; [apply (List.NoDup_app_remove_r _ _ Hnd)|]. split; [exact Hs1|]. split; [|split].
    + apply List.Forall_forall. intros m Hm. apply in_firstn in Hm. apply HinL in Hm. tauto.
    + pose proof (firstn_le_length (Z.to_nat limit) L) as Hle.
      unfold L, known in Hle. lia.
    + intros m m' Hm Hk Hlen Hlt.
      assert (Hm' : In m' L) by (apply HinL; tauto).
      rewrite <- Hsplit in Hm'. apply in_app_or in Hm' as [H|H]; [exact H|].
      specialize (Hs2 m m' Hm H). cbv beta in Hs2.
      rewrite (string_ltb_asym _ _ Hlt) in Hs2. discriminate.
Qed.

(** X17.  [get_month_closings] lists every closing row, latest month first,
    and a month is closed exactly when the list has a row for it. *)
Theorem get_month_closings_lists_closed_months :
  forall (m : string) (s : Store),
    is_month_closed m s
    = existsb (fun r => String.eqb (cl_month r) (PyStr.strip m)) (get_month_closings s)
    /\ List.length (get_month_closings s) = List.length (month_closings s)
    /\ StronglySorted (fun x y => String.leb (cl_month y) (cl_month x) = true)
         (get_month_closings s)
    /\ forall r, In r (month_closings s) ->
                 In {| cl_month := mc_month r; cl_closed_at := mc_closed_at r;
                       cl_note := mc_note r |} (get_month_closings s).
Proof.
  intros m s. unfold get_month_closings, is_month_closed.
  set (le := fun x y : MonthClosing => not_gt (String.compare (mc_month y) (mc_month x))).
  split; [|split; [|split]].
  - destruct (existsb (fun r => String.eqb (mc_month r) (PyStr.strip m)) (month_closings s)) eqn:E.
    + symmetry. apply existsb_exists in E as (r & Hr & Hm).
      apply existsb_exists. eexists. split.
      * apply in_map. apply in_order_by. exact Hr.
      * exact Hm.
    + symmetry. destruct (existsb _ (List.map _ _)) eqn:E'; [|reflexivity].
      apply existsb_exists in E' as (r & Hr & Hm).
      apply in_map_iff in Hr as (r0 & <- & Hr0). apply in_order_by in Hr0.
      cbn [cl_month] in Hm.
      assert (existsb (fun r => String.eqb (mc_month r) (PyStr.strip m)) (month_closings s) = true)
        by (apply existsb_exists; eauto).
      congruence.
  - rewrite length_map. symmetry. apply Permutation_length. apply order_by_perm.
  - assert (Hs : StronglySorted (fun x y => le x y = true) (order_by le (month_closings s))).
    { apply order_by_sorted.
      - intros x y. apply desc_total.
      - intros x y z H1 H2. unfold le in *. eapply string_not_gt_trans; eauto. }
    induction Hs as [|a l Hs IH Hall]; cbn [List.map]; constructor; [exact IH|].
    rewrite List.Forall_forall in *. intros y Hy.
    apply in_map_iff in Hy as (y0 & <- & Hy0). cbn [cl_month].
    rewrite string_leb_not_gt. apply (Hall y0 Hy0).
  - intros r Hr.
    apply (in_map (fun r => {| cl_month := mc_month r; cl_closed_at := mc_closed_at r;
                               cl_note := mc_note r |})).
    apply in_order_by. exact Hr.
Qed.

Lemma ensure_rows_other_months (e : Env) (m : string) (P : BillPayment -> bool)
    (bs : list Bill) :
  (forall r, bp_month r = m -> P r = false) ->
  forall k tbl, List.filter P (ensure_rows e m k bs tbl) = List.filter P tbl.
Proof.
  intros HP. induction bs as [|b bs IH]; intros k tbl; [reflexivity|].
  cbn [ensure_rows]. rewrite IH. unfold insert_or_ignore_payment.
  destruct (existsb _ tbl); [reflexivity|].
  rewrite List.filter_app. cbn [List.filter].
  rewrite HP by reflexivity. apply app_nil_r.
Qed.

(** X18.  A call of [close_month] that returns changes the closed status of
    no other month, no row of a table other than [bill_payments] and
    [month_closings], and no payment row of another month; the closing rows
    listed before are still listed, and a month that was open is listed
    with the cleaned note. *)
Theorem close_month_touches_only_its_month :
  forall (e : Env) (m : string) (note : option string) (s s' : Store),
    close_month e m note s = Ok s' ->
    (forall m2, String.eqb (PyStr.strip m2) (PyStr.strip m) = false ->
                is_month_closed m2 s' = is_month_closed m2 s)
    /\ (owners s' = owners s /\ categories s' = categories s /\ bills s' = bills s
        /\ accounts s' = accounts s /\ account_snapshots s' = account_snapshots s
        /\ transactions s' = transactions s /\ budgets s' = budgets s)
    /\ (forall b m2, String.eqb m2 (PyStr.strip m) = false ->
                     List.filter (bp_key_eqb b m2) (bill_payments s')
                     = List.filter (bp_key_eqb b m2) (bill_payments s))
    /\ (forall r, In r (get_month_closings s) -> In r (get_month_closings s'))
    /\ (if is_month_closed m s then s' = s
        else In {| cl_month := PyStr.strip m;
                   cl_closed_at := now e (2 * List.length (active_bills s));
                   cl_note := clean_note note |} (get_month_closings s')).
Proof.
  intros e m note s s'. unfold close_month.
  destruct (month_check_fails (PyStr.strip m)); [discriminate|].
  rewrite is_month_closed_stripped.
  destruct (is_month_closed m s) eqn:Ec; intros E; injection E as <-.
  { repeat split; auto. }
  split; [|split; [|split; [|split]]].
  - intros m2 Hne. unfold is_month_closed.
    cbn [month_closings set_month_closings ensure_bill_payment_rows set_bill_payments].
    rewrite existsb_app. cbn [existsb mc_month].
    rewrite (String.eqb_sym (PyStr.strip m) (PyStr.strip m2)), Hne. cbn [orb].
    apply orb_false_r.
  - repeat split.
  - intros b m2 Hne.
    unfold ensure_bill_payment_rows.
    cbn [bill_payments set_month_closings set_bill_payments].
    apply ensure_rows_other_months. intros r Hr.
    unfold bp_key_eqb. rewrite Hr, strip_idem, (String.eqb_sym (PyStr.strip m) m2), Hne.
    apply andb_false_r.
  - intros r Hr. unfold get_month_closings in *.
    apply in_map_iff in Hr as (r0 & <- & Hr0). apply in_order_by in Hr0.
    apply (in_map (fun r => {| cl_month := mc_month r; cl_closed_at := mc_closed_at r;
                               cl_note := mc_note r |})).
    apply in_order_by.
    cbn [month_closings set_month_closings ensure_bill_payment_rows set_bill_payments].
    apply in_or_app. left. exact Hr0.
  - unfold get_month_closings.
    match goal with
    | |- In ?row _ =>
        change row with
          ((fun r => {| cl_month := mc_month r; cl_closed_at := mc_closed_at r;
                        cl_note := mc_note r |})
             {| mc_id := uid e (List.length (active_bills s)); mc_month := PyStr.strip m;
                mc_closed_at := now e (2 * List.length (active_bills s));
                mc_note := clean_note note |})
    end.
    apply in_map. apply in_order_by.
    cbn [month_closings set_month_closings ensure_bill_payment_rows set_bill_payments].
    apply in_or_app. right. left. reflexivity.
Qed.

Lemma close_month_touches_only_its_month_witness :
  is_month_closed "2026-02" Sample.closed_household = is_month_closed "2026-02" Sample.household
  /\ transactions Sample.closed_household = transactions Sample.household.
Proof.
  destruct (close_month_touches_only_its_month Sample.env "2026-01" None Sample.household
              Sample.closed_household eq_refl) as (H1 & (_ & _ & _ & _ & _ & H2 & _) & _).
  split; [apply H1; reflexivity | exact H2].
Defined.

(** ** Accounts *)

Lemma integrity_appended_account (s : Store) (a : Account) :
  integrity s ->
  List.length (List.filter (fun o => (ow_id o =? acc_owner_id a)%nat) (owners s)) = 1%nat ->
  integrity (set_accounts s (accounts s ++ [a])).
Proof.
  intros [H1 H2 H3 H4] Ho. constructor; try assumption.
  cbn [accounts owners set_accounts]. intros x Hx.
  apply in_app_or in Hx as [Hx | [<- | []]]; [apply H4; exact Hx | exact Ho].
Qed.

Lemma progress_row_for_accounts (m : string) (s : Store) (l : list Account)
    (ao : Account * Owner) :
  progress_row_for m (set_accounts s l) ao = progress_row_for m s ao.
Proof. destruct ao. reflexivity. Qed.

Lemma fresh_account_has_no_snapshot (a : Id) (m : string) (s : Store) :
  Forall (fun r => snap_account_id r <> a) (account_snapshots s) ->
  current_snapshot a m s = None /\ previous_snapshot a m s = None.
Proof.
  intros Hfresh. rewrite List.Forall_forall in Hfresh. split.
  - unfold current_snapshot. rewrite filter_none; [reflexivity|].
    intros r Hr. unfold snap_key_eqb.
    destruct (snap_account_id r =? a)%nat eqn:E; [|reflexivity].
    apply Nat.eqb_eq in E. destruct (Hfresh r Hr E).
  - unfold previous_snapshot, prev_month. rewrite filter_none; [reflexivity|].
    intros r Hr.
    destruct (snap_account_id r =? a)%nat eqn:E; [|reflexivity].
    apply Nat.eqb_eq in E. destruct (Hfresh r Hr E).
Qed.

(** X10.  [add_account] with a name that is not blank, one of the two
    account types and an existing owner stores an account that the debt
    view of any month lists at once, with the given limit and start
    balance and with no current and no previous balance; the rows listed
    before stay, and the store keeps its integrity. *)
Theorem add_account_is_listed_without_balance :
  forall (e : Env) (o : Id) (name ty : string) (apr lim start : option Q)
         (m : string) (s : Store),
    integrity s ->
    List.length (List.filter (fun x => (ow_id x =? o)%nat) (owners s)) = 1%nat ->
    Forall (fun r => snap_account_id r <> uid e 0) (account_snapshots s) ->
    is_blank (PyStr.strip name) = false ->
    ty = "CREDIT_CARD" \/ ty = "LOAN" ->
    exists s',
      add_account e o name ty apr lim start s = Ok s'
      /\ integrity s'
      /\ (exists r, In r (latest_snapshot_by_account m s')
                    /\ pr_account_id r = uid e 0 /\ pr_account r = PyStr.strip name
                    /\ pr_type r = ty /\ pr_credit_limit r = lim
                    /\ pr_start_balance r = start
                    /\ pr_curr_balance r = None /\ pr_prev_balance r = None)
      /\ (forall r, In r (latest_snapshot_by_account m s) ->
                    In r (latest_snapshot_by_account m s'))
      /\ List.length (latest_snapshot_by_account m s')
         = S (List.length (latest_snapshot_by_account m s)).
Proof.
  intros e o name ty apr lim start m s Hint Ho Hfresh Hname Hty.
  unfold add_account. rewrite Hname.
  assert (Et : negb (String.eqb ty "CREDIT_CARD" || String.eqb ty "LOAN") = false)
    by (destruct Hty as [-> | ->]; reflexivity).
  rewrite Et.
  set (new := {| acc_id := uid e 0; acc_owner_id := o; acc_name := PyStr.strip name;
                 acc_type := ty; acc_apr := apr; acc_credit_limit := lim;
                 acc_start_balance := start; acc_active := true;
                 acc_created_at := now e 0; acc_updated_at := now e 1 |}).
  assert (Hint' : integrity (set_accounts s (accounts s ++ [new])))
    by (apply integrity_appended_account; assumption).
  eexists. split; [reflexivity|]. split; [exact Hint'|].
  rewrite (latest_snapshot_rows m _ Hint'), (latest_snapshot_rows m s Hint).
  cbn [accounts owners set_accounts].
  rewrite inner_join_app, List.filter_app.
  set (on := fun (a : Account) (x : Owner) => (ow_id x =? acc_owner_id a)%nat).
  set (J := List.filter (fun ao : Account * Owner => acc_active (fst ao))
              (inner_join (accounts s) (owners s) on)).
  destruct (List.filter (fun x => (ow_id x =? o)%nat) (owners s)) as [|ow [|? ?]] eqn:Eo;
    try discriminate.
  assert (EJ : List.filter (fun ao : Account * Owner => acc_active (fst ao))
                 (inner_join [new] (owners s) on) = [(new, ow)]).
  { unfold inner_join. cbn [flat_map]. rewrite app_nil_r.
    unfold on at 1. cbn [acc_owner_id new]. rewrite Eo. reflexivity. }
  rewrite EJ.
  split; [|split].
  - exists (progress_row_for (PyStr.strip m) s (new, ow)).
    split.
    + rewrite (map_ext _ _ (progress_row_for_accounts (PyStr.strip m) s _)).
      apply in_map. apply in_order_by. apply in_or_app. right. left. reflexivity.
    + destruct (fresh_account_has_no_snapshot (uid e 0) (PyStr.strip m) s Hfresh) as [Hc Hp].
      unfold progress_row_for. cbn [acc_id new]. rewrite Hc, Hp.
      repeat split.
  - intros r Hr. apply in_map_iff in Hr as (ao & <- & Hao). apply in_order_by in Hao.
    rewrite (map_ext _ _ (progress_row_for_accounts (PyStr.strip m) s _)).
    apply in_map. apply in_order_by. apply in_or_app. left. exact Hao.
  - rewrite !length_map.
    rewrite <- (Permutation_length (order_by_perm progress_pair_order (J ++ [(new, ow)]))).
    rewrite <- (Permutation_length (order_by_perm progress_pair_order J)).
    rewrite length_app. cbn [List.length]. lia.
Qed.

Lemma add_account_is_listed_without_balance_witness :
  exists s',
    add_account Sample.env 1 " Car " "LOAN" None None (Some 9000%Q) Sample.household = Ok s'
    /\ List.length (latest_snapshot_by_account "2026-01" s') = 3%nat.
Proof.
  destruct (add_account_is_listed_without_balance Sample.env 1 " Car " "LOAN" None None
              (Some 9000%Q) "2026-01" Sample.household household_integrity)
    as (s' & H1 & _ & _ & _ & H2).
  - reflexivity.
  - repeat constructor; cbn; lia.
  - reflexivity.
  - right. reflexivity.
  - exists s'. split; [exact H1 | exact H2].
Defined.

(** ** The cancel button *)

Lemma cancel_is_not_confirm_key (action month : string) :
  String.eqb (cancel_key action month) (confirm_key action month) = false.
Proof. reflexivity. Qed.

Lemma gate_shape_cancels (on_confirm on_save : Script unit) (month action save_key : string)
    (a : App) :
  PyStr.strip month = month ->
  is_month_closed month (db a) = true ->
  String.eqb (cancel_key action month) save_key = false ->
  default false
    (session_state
       (snd (gate_shape on_confirm on_save (Pressed (cancel_key action month))
               month action save_key a))
       !! pending_key action month) = false.
Proof.
  intros Hs Ec Hne.
  unfold gate_shape, confirm_bar_if_pending, arm_two_step_if_closed, bind,
    month_closed, get_flag, set_flag, pop_flag, ret, st_rerun, button.
  rewrite Hs, Ec. cbn [negb snd db session_state].
  rewrite cancel_is_not_confirm_key, String.eqb_refl, Hne.
  destruct (default false (session_state a !! pending_key action month)) eqn:Ep;
    cbn [negb snd db session_state].
  - rewrite lookup_insert_eq. reflexivity.
  - exact Ep.
Qed.

Lemma csv_import_cancels (e : Env) (rows : list TxnInput) (a : App) :
  existsb (fun mm => is_month_closed mm (db a)) (months_touched rows) = true ->
  default false
    (session_state (snd (csv_import e (Pressed "csv_cancel") rows a))
       !! csv_pending_key rows) = false.
Proof.
  unfold csv_import. rewrite existsb_filter_shape.
  destruct (List.filter (fun mm => is_month_closed mm (db a)) (months_touched rows));
    [discriminate|]. intros _.
  unfold bind, ret, st_rerun, set_flag, get_flag, button.
  cbn [String.eqb Ascii.eqb Bool.eqb andb snd db session_state].
  destruct (default false (session_state a !! csv_pending_key rows)) eqn:Ep;
    cbn [snd db session_state].
  - rewrite lookup_insert_eq. reflexivity.
  - exact Ep.
Qed.

Lemma cancel_is_not_confirm (g : GatedWrite) :
  button (Pressed (cancel_button g)) (confirm_button g) = false.
Proof. destruct g; reflexivity. Qed.

Lemma run_tab_cancels (g : GatedWrite) (e : Env) (a : App) :
  target_closed g (db a) = true ->
  is_pending g (after_run g e (Pressed (cancel_button g)) a) = false.
Proof.
  unfold after_run, is_pending.
  destruct g as [d o c amt desc | sel o c planned | sel bill paid amt pd note
                 | sel acc bal pay | rows]; intros Hc.
  - exact (gate_shape_cancels
             (try_write (add_transaction e (isoformat d) o c amt desc))
             (try_write (add_transaction e (isoformat d) o c amt desc))
             (PyStr.prefix 7 (isoformat d)) "add_expense" "Save expense" a
             (txn_month_stripped d) Hc eq_refl).
  - exact (gate_shape_cancels
             (try_write (upsert_budget e (PyStr.strip sel) o c planned))
             (try_write (upsert_budget e (PyStr.strip sel) o c planned))
             (PyStr.strip sel) "save_budget" "bud_save" a
             (strip_idem sel) Hc eq_refl).
  - exact (gate_shape_cancels
             (do_write (write_of (SaveBillPayment sel bill paid amt pd note) e))
             (do_write (write_of (SaveBillPayment sel bill paid amt pd note) e))
             (PyStr.strip sel) "save_bill_payment" "bill_save" a
             (strip_idem sel) Hc eq_refl).
  - exact (gate_shape_cancels
             (do_write (upsert_snapshot e acc (PyStr.strip sel) bal pay))
             (try_write (upsert_snapshot e acc (PyStr.strip sel) bal pay))
             (PyStr.strip sel) "save_snapshot" "snap_save" a
             (strip_idem sel) Hc eq_refl).
  - apply csv_import_cancels. exact Hc.
Qed.

(** X19.  On a closed month the cancel button of the confirmation bar
    writes nothing and lowers the pending flag, so that a confirm pressed
    afterwards writes nothing either. *)
Theorem cancel_discards_the_pending_write :
  forall (g : GatedWrite) (e e2 : Env) (a : App),
    target_closed g (db a) = true ->
    let a1 := after_run g e (Pressed (cancel_button g)) a in
    db a1 = db a
    /\ is_pending g a1 = false
    /\ db (after_run g e2 (Pressed (confirm_button g)) a1) = db a.
Proof.
  intros g e e2 a Hc a1.
  assert (H1 : db a1 = db a).
  { subst a1. rewrite run_tab_db, Hc, cancel_is_not_confirm. reflexivity. }
  assert (H2 : is_pending g a1 = false) by (apply run_tab_cancels; exact Hc).
  split; [exact H1|]. split; [exact H2|].
  rewrite run_tab_db, H1, Hc, H2, andb_false_r. reflexivity.
Qed.

Lemma cancel_discards_the_pending_write_witness :
  let armed := after_run Sample.expense Sample.env (Pressed "Save expense") Sample.start in
  db (after_run Sample.expense Sample.env'
        (Pressed (cancel_button Sample.expense)) armed) = db armed.
Proof.
  intros armed.
  destruct (cancel_discards_the_pending_write Sample.expense Sample.env' Sample.env armed)
    as (H & _).
  - reflexivity.
  - exact H.
Defined.

(** ** Names *)

Lemma lstrip_spaces (s : string) :
  forallb PyStr.is_space (list_ascii_of_string s) = true -> PyStr.lstrip s = "".
Proof.
  induction s as [|c s IH]; [reflexivity|].
  cbn [list_ascii_of_string forallb PyStr.lstrip]. intros H.
  apply andb_true_iff in H as [Hc Hs]. rewrite Hc. apply IH. exact Hs.
Qed.

Lemma lstrip_blank_spaces (s : string) :
  PyStr.lstrip s = "" -> forallb PyStr.is_space (list_ascii_of_string s) = true.
Proof.
  induction s as [|c s IH]; [reflexivity|].
  cbn [list_ascii_of_string forallb PyStr.lstrip].
  destruct (PyStr.is_space c); [exact IH | discriminate].
Qed.

Lemma rstrip_blank (s : string) :
  PyStr.rstrip s = "" -> forallb PyStr.is_space (list_ascii_of_string s) = true.
Proof.
  induction s as [|c s IH]; [reflexivity|].
  cbn [list_ascii_of_string forallb PyStr.rstrip].
  destruct (PyStr.rstrip s); [|discriminate].
  destruct (PyStr.is_space c); [intros _; apply IH; reflexivity | discriminate].
Qed.

Lemma strip_blank_iff (s : string) :
  is_blank (PyStr.strip s) = true
  <-> forallb PyStr.is_space (list_ascii_of_string s) = true.
Proof.
  unfold PyStr.strip. split.
  - intros H. apply is_blank_eq in H.
    induction s as [|c s IH]; [reflexivity|].
    cbn [list_ascii_of_string forallb PyStr.lstrip] in *.
    destruct (PyStr.is_space c) eqn:E; [apply IH; exact H|].
    apply rstrip_blank in H. cbn [list_ascii_of_string forallb] in H.
    rewrite E in H. discriminate.
  - intros H. rewrite (lstrip_spaces s H). reflexivity.
Qed.

(** X20.  A name made of white space only is refused by every operation
    that stores a name, before any other argument is looked at, and names
    no owner. *)
Theorem names_of_spaces_are_refused :
  forall (e : Env) (name : string) (s : Store),
    forallb PyStr.is_space (list_ascii_of_string name) = true ->
    (forall o, rename_owner e o name s = Raise (ValueError "Name cannot be empty."))
    /\ add_category e name s = Raise (ValueError "Category name cannot be empty.")
    /\ get_or_create_category_id e name s
       = Raise (ValueError "Category name cannot be empty.")
    /\ (forall o d amt,
           add_bill e o name d amt s = Raise (ValueError "Bill name cannot be empty."))
    /\ (forall o ty apr lim start,
           add_account e o name ty apr lim start s
           = Raise (ValueError "Account name cannot be empty."))
    /\ owner_id_from_label_or_key name s = None.
Proof.
  intros e name s H. apply strip_blank_iff in H.
  unfold rename_owner, add_category, get_or_create_category_id, add_bill, add_account,
    owner_id_from_label_or_key.
  rewrite H. repeat split.
Qed.

Lemma names_of_spaces_are_refused_witness :
  add_category Sample.env "   " Sample.household
  = Raise (ValueError "Category name cannot be empty.").
Proof.
  destruct (names_of_spaces_are_refused Sample.env "   " Sample.household eq_refl)
    as (_ & H & _).
  exact H.
Defined.

(** ** Integrity, through every mutation *)

Lemma integrity_set_bills (s : Store) (l : list Bill) :
  integrity s -> integrity (set_bills s l).
Proof. intros [H1 H2 H3 H4]. constructor; assumption. Qed.

Lemma owner_id_iff (k : Id) (o : Owner) : (ow_id o =? k)%nat = true <-> ow_id o = k.
Proof. apply Nat.eqb_eq. Qed.

Lemma integrity_rename_owner (e : Env) (o : Id) (name : string) (s : Store) :
  integrity s -> integrity (commit (rename_owner e o name) s).
Proof.
  intros H. unfold commit, rename_owner.
  destruct (is_blank (PyStr.strip name)); [exact H|]. cbn [after].
  destruct H as [H1 H2 H3 H4]. constructor; try assumption.
  cbn [accounts owners set_owners]. intros a Ha.
  rewrite (update_where_count ow_id (fun k x => (ow_id x =? k)%nat) owner_id_iff)
    by reflexivity.
  apply H4. exact Ha.
Qed.

(** X21.  The integrity of the store (one payment row per bill and month,
    one snapshot per account and month, one budget per month, owner and
    category, one owner per account) is kept by every gated write, by
    closing a month, by viewing the bills of a month, and by the soft
    delete, the activation switches, renaming an owner and adding a
    category or a bill. *)
Theorem integrity_is_kept :
  forall (e : Env) (s : Store),
    integrity s ->
    (forall g, integrity (commit (write_of g e) s))
    /\ (forall m note, integrity (commit (close_month e m note) s))
    /\ (forall m, integrity (fst (bills_due_view e m s)))
    /\ (forall t, integrity (soft_delete_transaction e t s))
    /\ (forall b active, integrity (set_bill_active e b active s))
    /\ (forall c active, integrity (set_category_active e c active s))
    /\ (forall o name, integrity (commit (rename_owner e o name) s))
    /\ (forall name, integrity (commit (add_category e name) s))
    /\ (forall o name d amt, integrity (commit (add_bill e o name d amt) s)).
Proof.
  intros e s H.
  refine (conj _ (conj _ (conj _ (conj _ (conj _ (conj _ (conj _ (conj _ _)))))))).
  - intros g. apply integrity_write. exact H.
  - intros m note. unfold commit.
    destruct (close_month e m note s) eqn:E; cbn [after]; [|exact H].
    eapply integrity_close_month; eauto.
  - intros m. rewrite bills_due_view_store. apply integrity_ensure_bill_payment_rows. exact H.
  - intros t. apply integrity_set_transactions. exact H.
  - intros b active. apply integrity_set_bills. exact H.
  - intros c active. apply integrity_set_categories. exact H.
  - intros o name. apply integrity_rename_owner. exact H.
  - intros name. unfold commit, add_category.
    destruct (is_blank (PyStr.strip name)); cbn [after]; [exact H|].
    apply integrity_set_categories. exact H.
  - intros o name d amt. unfold commit, add_bill.
    destruct (is_blank (PyStr.strip name)); cbn [after]; [exact H|].
    destruct (match d with Some x => _ | None => _ end); cbn [after]; [exact H|].
    apply integrity_set_bills. exact H.
Qed.

Lemma integrity_is_kept_witness :
  integrity (fst (bills_due_view Sample.env "2026-03" Sample.household)).
Proof.
  destruct (integrity_is_kept Sample.env Sample.household household_integrity)
    as (_ & _ & H & _).
  exact (H "2026-03").
Defined.

(** ** First run *)

Lemma length_eqb_zero {A : Type} (l : list A) :
  l <> [] -> (List.length l =? 0)%nat = false.
Proof. destruct l; [congruence | reflexivity]. Qed.

(** X22.  [is_first_run] does not count the owners, so seeding them keeps
    its answer; the empty database is a first run, and a category, bill,
    account or transaction that has been stored ends it. *)
Theorem is_first_run_ends_with_data :
  forall (e e2 : Env) (name ty date desc : string) (o c : Id) (d : option Z)
         (amt apr lim start : option Q) (q : Q) (s : Store),
    is_first_run (init_db e s) = is_first_run s
    /\ is_first_run (init_db e empty_store) = true
    /\ match add_category e2 name s with
       | Ok s' => is_first_run s' = false
       | Raise _ => True
       end
    /\ match add_bill e2 o name d amt s with
       | Ok s' => is_first_run s' = false
       | Raise _ => True
       end
    /\ match add_account e2 o name ty apr lim start s with
       | Ok s' => is_first_run s' = false
       | Raise _ => True
       end
    /\ match add_transaction e2 date o c q desc s with
       | Ok s' => is_first_run s' = false
       | Raise _ => True
       end.
Proof.
  intros e e2 name ty date desc o c d amt apr lim start q s.
  split; [reflexivity|]. split; [reflexivity|].
  unfold is_first_run. repeat split.
  - unfold add_category. destruct (is_blank (PyStr.strip name)); [exact I|].
    cbn [categories set_categories]. unfold insert_or_ignore_category.
    destruct (existsb _ (categories s)) eqn:E.
    + rewrite length_eqb_zero; [reflexivity|].
      intros Hnil. rewrite Hnil in E. discriminate.
    + rewrite length_eqb_zero; [reflexivity|].
      intros Hnil. apply app_eq_nil in Hnil as [_ Hnil]. discriminate.
  - unfold add_bill. destruct (is_blank (PyStr.strip name)); [exact I|].
    destruct (match d with Some x => _ | None => _ end); [exact I|].
    cbn [categories bills set_bills].
    rewrite (length_eqb_zero (bills s ++ _)); [rewrite ?andb_false_r; reflexivity|].
    intros Hnil. apply app_eq_nil in Hnil as [_ Hnil]. discriminate.
  - unfold add_account. destruct (is_blank (PyStr.strip name)); [exact I|].
    destruct (negb _); [exact I|].
    cbn [categories bills accounts set_accounts].
    rewrite (length_eqb_zero (accounts s ++ _)); [rewrite ?andb_false_r; reflexivity|].
    intros Hnil. apply app_eq_nil in Hnil as [_ Hnil]. discriminate.
  - unfold add_transaction. destruct (Qle_bool q 0); [exact I|].
    cbn [categories bills accounts transactions set_transactions].
    rewrite (length_eqb_zero (transactions s ++ _)); [rewrite ?andb_false_r; reflexivity|].
    intros Hnil. apply app_eq_nil in Hnil as [_ Hnil]. discriminate.
Qed.

(** ** The lists and the views of one store *)

Lemma filter_inner_join_l {A B : Type} (p : A -> bool) (l : list A) (r : list B)
    (on : A -> B -> bool) :
  List.filter (fun x => p (fst x)) (inner_join l r on) = inner_join (List.filter p l) r on.
Proof.
  induction l as [|a l IH]; [reflexivity|].
  rewrite inner_join_cons, List.filter_app, IH. cbn [List.filter].
  destruct (p a) eqn:E.
  - rewrite inner_join_cons. f_equal.
    induction (List.filter (on a) r) as [|b bs IHb]; [reflexivity|].
    cbn [List.map List.filter fst]. rewrite E, IHb. reflexivity.
  - rewrite filter_none; [reflexivity|].
    intros x Hx. apply in_map_iff in Hx as (b & <- & _). exact E.
Qed.

(** X23.  In a store with integrity the debt view of any month has the rows
    of [get_accounts] for the active accounts, in the same order and with
    the same account, owner, type, limit and start balance. *)
Theorem debt_view_follows_get_accounts :
  forall (m : string) (s : Store),
    integrity s ->
    Forall2 (fun r a =>
               pr_account_id r = ar_id a /\ pr_account r = ar_name a
               /\ pr_owner r = ar_owner a /\ pr_type r = ar_type a
               /\ pr_apr r = ar_apr a /\ pr_credit_limit r = ar_credit_limit a
               /\ pr_start_balance r = ar_start_balance a /\ ar_active a = true)
            (latest_snapshot_by_account m s) (get_accounts true s).
Proof.
  intros m s Hint. rewrite (latest_snapshot_rows m s Hint). unfold get_accounts.
  change account_order with progress_pair_order.
  set (J := List.filter (fun ao : Account * Owner => acc_active (fst ao)) _).
  assert (HJ : forall x, In x (order_by progress_pair_order J) -> acc_active (fst x) = true).
  { intros x Hx. apply in_order_by in Hx. apply filter_In in Hx as [_ Hx]. exact Hx. }
  induction (order_by progress_pair_order J) as [|[a o] l IH]; cbn [List.map]; constructor.
  - cbn. repeat split. apply (HJ (a, o)). left. reflexivity.
  - apply IH. intros x Hx. apply HJ. right. exact Hx.
Qed.

Lemma debt_view_follows_get_accounts_witness :
  List.length (latest_snapshot_by_account "2026-01" Sample.household)
  = List.length (get_accounts true Sample.household).
Proof.
  eapply List.Forall2_length.
  exact (debt_view_follows_get_accounts "2026-01" Sample.household household_integrity).
Defined.

Lemma payment_row_of_active_bill (e : Env) (m : string) (s : Store) (x : Bill * Owner) :
  integrity s ->
  In (fst x) (bills s) -> bill_active (fst x) = true ->
  List.length
    (List.filter (fun bp => bp_key_eqb (bill_id (fst x)) (PyStr.strip m) bp)
       (bill_payments (ensure_bill_payment_rows e m s))) = 1%nat.
Proof.
  intros Hint Hin Hact.
  pose proof (bp_unique _ (integrity_ensure_bill_payment_rows e m s Hint)
                (bill_id (fst x)) (PyStr.strip m)) as Hle.
  assert (Hex : existsb (bp_key_eqb (bill_id (fst x)) (PyStr.strip m))
                  (bill_payments (ensure_bill_payment_rows e m s)) = true).
  { rewrite <- bills_due_view_store. apply bills_due_view_covers.
    unfold active_bills. apply filter_In. auto. }
  apply existsb_exists in Hex as (bp & Hbp & Hkey).
  assert (Hf : In bp (List.filter (bp_key_eqb (bill_id (fst x)) (PyStr.strip m))
                        (bill_payments (ensure_bill_payment_rows e m s))))
    by (apply filter_In; auto).
  destruct (List.filter _ _) as [|r [|r' rs]]; cbn [List.length] in *;
    [destruct Hf | reflexivity | lia].
Qed.

(** X24.  In a store with integrity the monthly bills view has one row for
    each row of [get_bills] of the active bills, with the same bill, name,
    owner, due day and planned amount; the two lists differ in order
    only. *)
Theorem bills_due_view_follows_get_bills :
  forall (e : Env) (m : string) (s : Store),
    integrity s ->
    Permutation
      (List.map (fun r => (bd_bill_id r, bd_bill r, bd_owner r, bd_due_day r, bd_planned r))
                (snd (bills_due_view e m s)))
      (List.map (fun r => (br_id r, br_name r, br_owner r, br_due_day r, br_default_amount r))
                (get_bills true s)).
Proof.
  intros e m s Hint. rewrite bills_due_view_rows.
  unfold bills_due_query, get_bills.
  set (s1 := ensure_bill_payment_rows e m s).
  change (bills s1) with (bills s). change (owners s1) with (owners s).
  set (on1 := fun (b : Bill) (o : Owner) => (ow_id o =? bill_owner_id b)%nat).
  set (J := inner_join (bills s) (owners s) on1).
  set (on2 := fun (bo : Bill * Owner) (bp : BillPayment) =>
                bp_key_eqb (bill_id (fst bo)) (PyStr.strip m) bp).
  set (key := fun x : Bill * Owner =>
                (bill_id (fst x), bill_name (fst x), ow_display_name (snd x),
                 bill_due_day (fst x), bill_default_amount (fst x))).
  rewrite !List.map_map.
  rewrite (map_ext _ (fun x : Bill * Owner * BillPayment => key (fst x)))
    by (intros [[b o] bp]; reflexivity).
  rewrite (map_ext (fun x : Bill * Owner => _) key) by (intros [b o]; reflexivity).
  rewrite (filter_inner_join_l (fun bo : Bill * Owner => bill_active (fst bo)) J
             (bill_payments s1) on2).
  set (JA := List.filter (fun bo : Bill * Owner => bill_active (fst bo)) J).
  destruct (inner_join_unique JA (bill_payments s1) on2) as [Hfst _].
  { intros x Hx. subst JA. apply filter_In in Hx as [Hx Hact].
    subst J. apply in_inner_join in Hx as (Hb & _ & _).
    apply payment_row_of_active_bill; assumption. }
  eapply Permutation_trans.
  { apply Permutation_map. apply Permutation_sym. apply order_by_perm. }
  rewrite <- (List.map_map fst key), Hfst.
  apply Permutation_map. apply order_by_perm.
Qed.

Lemma bills_due_view_follows_get_bills_witness :
  List.length (snd (bills_due_view Sample.env "2026-03" Sample.household))
  = List.length (get_bills true Sample.household).
Proof.
  pose proof (Permutation_length
                (bills_due_view_follows_get_bills Sample.env "2026-03" Sample.household
                   household_integrity)) as H.
  rewrite !length_map in H. exact H.
Defined.

(** X25.  In a store with integrity the current balance of a row of the
    debt view of a month is the balance [get_snapshots] lists for that
    account and month, and it is null exactly when [get_snapshots] lists
    none. *)
Theorem debt_view_reads_get_snapshots :
  forall (m : string) (s : Store),
    integrity s ->
    Forall (fun r =>
              forall b p,
                (pr_curr_balance r = Some b /\ pr_curr_payment r = Some p)
                <-> exists row, In row (get_snapshots s)
                                /\ sr_account_id row = pr_account_id r
                                /\ sr_month row = PyStr.strip m
                                /\ sr_balance row = b /\ sr_payment row = p)
           (latest_snapshot_by_account m s).
Proof.
  intros m s Hint. rewrite (latest_snapshot_rows m s Hint).
  apply List.Forall_forall. intros r Hr.
  apply in_map_iff in Hr as ([a o] & <- & Hao).
  apply in_order_by in Hao. apply filter_In in Hao as [Hao Hact].
  apply in_inner_join in Hao as (Ha & Ho & Hon). cbn [fst snd] in *.
  intros b p. unfold progress_row_for.
  cbn [pr_curr_balance pr_curr_payment pr_account_id].
  pose proof (snap_unique s Hint (acc_id a) (PyStr.strip m)) as Hu.
  unfold current_snapshot. split.
  - destruct (List.filter (snap_key_eqb (acc_id a) (PyStr.strip m)) (account_snapshots s))
      as [|r0 rs] eqn:F; cbn [hd_error option_map]; [intros [H _]; discriminate|].
    intros [Hb Hp]. injection Hb as <-. injection Hp as <-.
    assert (Hr0 : In r0 (List.filter (snap_key_eqb (acc_id a) (PyStr.strip m))
                           (account_snapshots s))) by (rewrite F; left; reflexivity).
    apply filter_In in Hr0 as [Hin Hkey].
    unfold snap_key_eqb in Hkey. apply andb_true_iff in Hkey as [Hk1 Hk2].
    apply String.eqb_eq in Hk2.
    exists (snapshot_row (r0, a, o)). split; [|cbn; auto].
    unfold get_snapshots. apply in_map. apply in_order_by. apply filter_In.
    split; [|exact Hact].
    apply in_inner_join. cbn [fst snd]. split; [|split; [exact Ho | exact Hon]].
    apply in_inner_join. cbn [fst snd]. split; [exact Hin|]. split; [exact Ha|].
    rewrite Nat.eqb_sym. exact Hk1.
  - intros (row & Hrow & Hid & Hm & Hb & Hp).
    unfold get_snapshots in Hrow. apply in_map_iff in Hrow as ([[r0 a0] o0] & <- & Hx).
    apply in_order_by in Hx. apply filter_In in Hx as [Hx _].
    apply in_inner_join in Hx as (Hx & _ & _). cbn [fst snd] in Hx.
    apply in_inner_join in Hx as (Hin & _ & Hk). cbn [fst snd] in Hin, Hk.
    cbn [snapshot_row sr_account_id sr_month sr_balance sr_payment] in Hid, Hm, Hb, Hp.
    apply Nat.eqb_eq in Hk.
    assert (Hr0 : In r0 (List.filter (snap_key_eqb (acc_id a) (PyStr.strip m))
                           (account_snapshots s))).
    { apply filter_In. split; [exact Hin|]. unfold snap_key_eqb.
      rewrite <- Hk, Hid, Nat.eqb_refl, Hm, String.eqb_refl. reflexivity. }
    destruct (List.filter (snap_key_eqb (acc_id a) (PyStr.strip m)) (account_snapshots s))
      as [|r1 [|r2 rs]]; cbn [List.length] in Hu; [destruct Hr0 | | lia].
    destruct Hr0 as [-> | []]. cbn [hd_error option_map]. rewrite Hb, Hp. auto.
Qed.

Lemma debt_view_reads_get_snapshots_witness :
  Forall (fun r =>
            forall b p,
              (pr_curr_balance r = Some b /\ pr_curr_payment r = Some p)
              <-> exists row, In row (get_snapshots Sample.household)
                              /\ sr_account_id row = pr_account_id r
                              /\ sr_month row = "2026-01"
                              /\ sr_balance row = b /\ sr_payment row = p)
         (latest_snapshot_by_account "2026-01" Sample.household).
Proof.
  exact (debt_view_reads_get_snapshots "2026-01" Sample.household household_integrity).
Defined.

Lemma filter_perm {A : Type} (f : A -> bool) (l l' : list A) :
  Permutation l l' -> Permutation (List.filter f l) (List.filter f l').
Proof.
  induction 1 as [|x l l' _ IH|x y l|l l' l'' _ IH1 _ IH2]; cbn [List.filter].
  - apply perm_nil.
  - destruct (f x); [apply perm_skip|]; exact IH.
  - destruct (f x), (f y); try apply Permutation_refl. apply perm_swap.
  - eapply Permutation_trans; eauto.
Qed.

(** X26.  The active lists are the full lists without the inactive rows:
    a row is in [get_bills] or [get_accounts] of the active ones exactly
    when it is an active row of the full list. *)
Theorem active_lists_are_sublists :
  forall (s : Store),
    (forall r, In r (get_bills true s) <-> In r (get_bills false s) /\ br_active r = true)
    /\ (forall r, In r (get_accounts true s)
                  <-> In r (get_accounts false s) /\ ar_active r = true)
    /\ List.length (get_bills true s)
       = List.length (List.filter br_active (get_bills false s))
    /\ List.length (get_accounts true s)
       = List.length (List.filter ar_active (get_accounts false s)).
Proof.
  intros s. unfold get_bills, get_accounts.
  set (JB := inner_join (bills s) (owners s) _).
  set (JA := inner_join (accounts s) (owners s) _).
  split; [|split; [|split]].
  - intros r. rewrite !in_map_iff. split.
    + intros (x & <- & Hx). apply in_order_by in Hx. apply filter_In in Hx as [Hx Hact].
      split; [|exact Hact]. exists x. split; [reflexivity|]. apply in_order_by. exact Hx.
    + intros [(x & <- & Hx) Hact]. exists x. split; [reflexivity|].
      apply in_order_by. apply in_order_by in Hx. apply filter_In. auto.
  - intros r. rewrite !in_map_iff. split.
    + intros (x & <- & Hx). apply in_order_by in Hx. apply filter_In in Hx as [Hx Hact].
      split; [|exact Hact]. exists x. split; [reflexivity|]. apply in_order_by. exact Hx.
    + intros [(x & <- & Hx) Hact]. exists x. split; [reflexivity|].
      apply in_order_by. apply in_order_by in Hx. apply filter_In. auto.
  - rewrite filter_map_comm, !length_map.
    rewrite <- (Permutation_length (order_by_perm bill_order _)).
    apply Permutation_length.
    apply (filter_perm (fun x : Bill * Owner => bill_active (fst x))).
    apply order_by_perm.
  - rewrite filter_map_comm, !length_map.
    rewrite <- (Permutation_length (order_by_perm account_order _)).
    apply Permutation_length.
    apply (filter_perm (fun x : Account * Owner => acc_active (fst x))).
    apply order_by_perm.
Qed.

(** ** The transaction list and the export *)

Lemma sorted_map {A B : Type} (Q : A -> A -> Prop) (R : B -> B -> Prop) (f : A -> B)
    (l : list A) :
  (forall a b, Q a b -> R (f a) (f b)) ->
  StronglySorted Q l -> StronglySorted R (List.map f l).
Proof.
  intros HQ. induction 1 as [|a l _ IH Hall]; cbn [List.map]; constructor; [exact IH|].
  rewrite List.Forall_forall in *. intros y Hy.
  apply in_map_iff in Hy as (x & <- & Hx). apply HQ. apply Hall. exact Hx.
Qed.

(** X27.  [export_transactions_rows] lists the transactions
    [get_transactions] lists, with the same date, owner, category, amount
    and description; the list is in descending and the export in ascending
    order of the date, and with a month given both hold transactions of
    that month only. *)
Theorem export_lists_what_get_transactions_lists :
  forall (month : option string) (s : Store),
    Permutation
      (List.map (fun r => (tr_txn_date r, tr_owner r, tr_category r, tr_amount r,
                           tr_description r)) (get_transactions month s))
      (List.map (fun r => (ex_txn_date r, ex_owner r, ex_category r, ex_amount r,
                           ex_description r)) (export_transactions_rows month s))
    /\ StronglySorted (fun x y => String.leb (tr_txn_date y) (tr_txn_date x) = true)
         (get_transactions month s)
    /\ StronglySorted (fun x y => String.leb (ex_txn_date x) (ex_txn_date y) = true)
         (export_transactions_rows month s)
    /\ match month with
       | Some (String c m) =>
           Forall (fun r => PyStr.prefix 7 (tr_txn_date r) = String c m)
                  (get_transactions month s)
           /\ Forall (fun r => PyStr.prefix 7 (ex_txn_date r) = String c m)
                     (export_transactions_rows month s)
       | _ => True
       end.
Proof.
  intros month s. unfold get_transactions, export_transactions_rows.
  set (L := live_transactions month s).
  set (key := fun x : Transaction * Owner * Category =>
                (txn_date (fst (fst x)), ow_display_name (snd (fst x)), cat_name (snd x),
                 txn_amount (fst (fst x)), txn_description (fst (fst x)))).
  split; [|split; [|split]].
  - rewrite !List.map_map.
    match goal with
    | |- Permutation (List.map ?f _) (List.map ?g _) =>
        rewrite (map_ext f key) by (intros [[t o] c]; reflexivity);
        rewrite (map_ext g key) by (intros [[t o] c]; reflexivity)
    end.
    apply Permutation_map.
    eapply Permutation_trans; [apply Permutation_sym; apply order_by_perm|].
    apply order_by_perm.
  - eapply sorted_map; [|apply order_by_sorted].
    + intros [[t1 o1] c1] [[t2 o2] c2] H. cbn [tr_txn_date fst] in *.
      rewrite string_leb_not_gt. exact H.
    + intros x y. apply desc_total.
    + intros x y z H1 H2. eapply string_not_gt_trans; eauto.
  - eapply sorted_map; [|apply order_by_sorted].
    + intros [[t1 o1] c1] [[t2 o2] c2] H. cbn [ex_txn_date fst] in *.
      rewrite string_leb_not_gt. exact H.
    + intros x y. apply desc_total.
    + intros x y z H1 H2. eapply string_not_gt_trans; eauto.
  - destruct month as [[|c m]|]; [exact I| |exact I].
    assert (HL : forall x, In x L -> PyStr.prefix 7 (txn_date (fst (fst x))) = String c m).
    { intros x Hx. subst L. unfold live_transactions in Hx.
      apply filter_In in Hx as [_ Hx]. apply andb_true_iff in Hx as [_ Hx].
      cbn [month_filter] in Hx. apply String.eqb_eq. exact Hx. }
    split; apply List.Forall_forall; intros r Hr;
      apply in_map_iff in Hr as ([[t o] c0] & <- & Hx);
      apply in_order_by in Hx; apply (HL _ Hx).
Qed.
